(** * OSM municipalities: the chunked fetch / deduplicate / append pipeline

    A shallow embedding of the scripts of the repository: the two chunked
    scripts, [belgium_municipalities.py] (the plain pipeline) and [test2.py]
    (the pipeline with the strict cleaning steps), and [Test.py], which
    downloads the whole country at once.

    The libraries the scripts call are not part of the repository:
    - shapely's geometric predicates are an interface ([Shapely]);
    - osmnx's downloads and the GeoPackage writer's failures are the fields
      of a [World], which says what each network call answers and whether a
      write raises.
    Everything else (the data frames, the filters, the bookkeeping of the
    loop, the console output, [try]/[except]/[continue]/[return]) is
    modelled as the scripts have it.  Two answers of the disk are fixed in
    the modules of the chunked scripts: a write that raises leaves the file
    as it was, and the removal of an old output file succeeds; the modules
    with the suffix [_on_disk] have the removal that may raise. *)

From Stdlib Require Import Ascii.
From stdpp Require Import relations gmap strings list fin_maps pretty.

Open Scope string_scope.
Open Scope list_scope.
Open Scope nat_scope.

(** ** Strings *)

(** The line feed of ["\n"] in the scripts' messages. *)
Definition nl : string := String (ascii_of_nat 10) EmptyString.

(** [str.lower()] on the ASCII range. *)
Definition lower_ascii (c : ascii) : ascii :=
  let n := nat_of_ascii c in
  if (65 <=? n)%nat && (n <=? 90)%nat then ascii_of_nat (n + 32) else c.

Fixpoint lower (s : string) : string :=
  match s with
  | EmptyString => EmptyString
  | String c rest => String (lower_ascii c) (lower rest)
  end.

(** ** The geometry library (shapely), as an interface *)

Class Shapely (G : Type) := {
  (** [geom.geom_type]: "Polygon", "MultiPolygon", "Point", ... *)
  geom_type : G → string;
  (** [a.within(b)] *)
  within : G → G → bool
}.

(** ** Data frames *)

(** An OSM element identifier, the index of osmnx's frames: the element type
    ("node", "way", "relation") and the numeric id. *)
Definition osm_id : Type := string * Z.

Section frames.
Context {G : Type}.

(** One feature: its index entry, its geometry, and its tag cells.  A column
    of the frame that is absent from [attrs] is a NaN cell. *)
Record Row := {
  index : osm_id;
  geometry : G;
  attrs : gmap string string
}.

Record GeoDataFrame := {
  columns : list string;
  rows : list Row
}.

(** [len(df)] *)
Definition len (df : GeoDataFrame) : nat := length (rows df).

(** [df.empty]: true when either axis has length 0. *)
Definition empty (df : GeoDataFrame) : bool :=
  (length (rows df) =? 0)%nat || (length (columns df) =? 0)%nat.

(** [df[mask]] for a boolean mask computed row by row. *)
Definition mask (P : Row → Prop) `{∀ r, Decision (P r)}
    (df : GeoDataFrame) : GeoDataFrame :=
  {| columns := columns df; rows := filter P (rows df) |}.

(** [df.index], as a list. *)
Definition index_of (df : GeoDataFrame) : list osm_id := index <$> rows df.

(** [df[~df.index.isin(ids)]] *)
Definition not_isin (ids : gset osm_id) (df : GeoDataFrame) : GeoDataFrame :=
  mask (λ r, index r ∉ ids) df.

(** [df[cols]] for a list of columns that the frame has: the frame keeps
    those columns, in the order of [cols]. *)
Definition project_row (cols : list string) (r : Row) : Row :=
  {| index := index r;
     geometry := geometry r;
     attrs := filter (λ kv, kv.1 ∈ cols) (attrs r) |}.

Definition getitem_columns (cols : list string) (df : GeoDataFrame)
    : GeoDataFrame :=
  {| columns := cols; rows := project_row cols <$> rows df |}.

(** [[col for col in columns_to_keep if col in df.columns]] *)
Definition columns_present (columns_to_keep : list string)
    (df : GeoDataFrame) : list string :=
  filter (λ col, col ∈ columns df) columns_to_keep.

(** ** The GeoPackage file and the file system *)

Inductive write_mode := mode_w | mode_a.

(** A GeoPackage: its layers, each the batches written to it, in order. *)
Local Abbreviation gpkg := (gmap string (list GeoDataFrame)).

(** One call of [GeoDataFrame.to_file], kept as a history of the run. *)
Record ToFileCall := {
  call_frame : GeoDataFrame;
  call_path : string;
  call_driver : string;
  call_mode : write_mode;
  call_layer : string;
  call_ok : bool
}.

(** What a successful [to_file] does to the file at its path: mode 'w'
    creates the file anew with the one layer, mode 'a' adds the batch to the
    layer.  Appending where there is no file yet makes the file; the scripts
    never do so (they append only after a successful write, see
    [write_mode_first_then_append]). *)
Definition written (old : option gpkg) (mode : write_mode) (layer : string)
    (df : GeoDataFrame) : gpkg :=
  match mode, old with
  | mode_a, Some f => <[layer := default [] (f !! layer) ++ [df]]> f
  | _, _ => {[layer := [df]]}
  end.

(** ** The state of a run *)

Record RunState := {
  (** the files, by path *)
  fs : gmap string gpkg;
  (** the lines printed so far *)
  stdout : list string;
  processed_osm_ids : gset osm_id;
  total_municipalities_saved : nat;
  (** history of the [to_file] calls *)
  to_file_calls : list ToFileCall
}.

Definition initial (fs0 : gmap string gpkg) : RunState :=
  {| fs := fs0; stdout := []; processed_osm_ids := ∅;
     total_municipalities_saved := 0; to_file_calls := [] |}.

(** ** Control: values, [continue], exceptions *)

(** How a block of statements ends: it runs to its end with a value, or
    leaves by [continue], by [return], or by an exception, which carries
    [str(e)]. *)
Inductive ctl (A : Type) :=
  | Val (a : A)
  | Continue
  | Return
  | Raise (e : string).
Global Arguments Val {A} a.
Global Arguments Continue {A}.
Global Arguments Return {A}.
Global Arguments Raise {A} e.

(** A statement: it may change the state, and the changes stay when it
    raises. *)
Definition M (A : Type) : Type := RunState → ctl A * RunState.

Definition ret {A} (a : A) : M A := λ s, (Val a, s).

Definition bind {A B} (m : M A) (k : A → M B) : M B :=
  λ s, match m s with
       | (Val a, s') => k a s'
       | (Continue, s') => (Continue, s')
       | (Return, s') => (Return, s')
       | (Raise e, s') => (Raise e, s')
       end.

Definition continue {A} : M A := λ s, (Continue, s).
Definition return_ {A} : M A := λ s, (Return, s).
Definition raise {A} (e : string) : M A := λ s, (Raise e, s).

(** [try: body except Exception as e: handler(e)] *)
Definition try_except {A} (body : M A) (handler : string → M A) : M A :=
  λ s, match body s with
       | (Raise e, s') => handler e s'
       | r => r
       end.

(** [for i, x in enumerate(l): body(i, x)], counting from [i]: [continue]
    and the end of the body go on with the next element. *)
Fixpoint for_enumerate {A} (i : nat) (l : list A) (body : nat → A → M unit)
    : M unit :=
  match l with
  | [] => ret tt
  | x :: l' =>
      λ s, match body i x s with
           | (Val _, s') | (Continue, s') => for_enumerate (S i) l' body s'
           | (Return, s') => (Return, s')
           | (Raise e, s') => (Raise e, s')
           end
  end.

(** The answer of an external call: a value or an exception. *)
Inductive result (A : Type) :=
  | Ok (a : A)
  | Err (e : string).
Global Arguments Ok {A} a.
Global Arguments Err {A} e.

Definition call {A} (r : result A) : M A :=
  match r with Ok a => ret a | Err e => raise e end.

#[export] Instance M_ret : MRet M := @ret.
#[export] Instance M_bind : MBind M := λ A B k m, bind m k.

(** [print(msg)] *)
Definition print (msg : string) : M unit := λ s,
  (Val tt,
   {| fs := fs s; stdout := stdout s ++ [msg];
      processed_osm_ids := processed_osm_ids s;
      total_municipalities_saved := total_municipalities_saved s;
      to_file_calls := to_file_calls s |}).

Definition read {A} (f : RunState → A) : M A := λ s, (Val (f s), s).

(** [os.path.exists(path)] and [os.remove(path)]; the removal is taken to
    succeed here, [os_remove] below is the call that may raise. *)
Definition path_exists (path : string) : M bool :=
  read (λ s, bool_decide (is_Some (fs s !! path))).

Definition remove (path : string) : M unit := λ s,
  (Val tt,
   {| fs := delete path (fs s); stdout := stdout s;
      processed_osm_ids := processed_osm_ids s;
      total_municipalities_saved := total_municipalities_saved s;
      to_file_calls := to_file_calls s |}).

(** [processed_osm_ids = set()] and [total_municipalities_saved = 0] *)
Definition init_bookkeeping : M unit := λ s,
  (Val tt,
   {| fs := fs s; stdout := stdout s;
      processed_osm_ids := ∅;
      total_municipalities_saved := 0;
      to_file_calls := to_file_calls s |}).

(** [processed_osm_ids.update(df.index)] *)
Definition update_processed_osm_ids (ids : list osm_id) : M unit := λ s,
  (Val tt,
   {| fs := fs s; stdout := stdout s;
      processed_osm_ids := processed_osm_ids s ∪ list_to_set ids;
      total_municipalities_saved := total_municipalities_saved s;
      to_file_calls := to_file_calls s |}).

(** [total_municipalities_saved += n] *)
Definition add_total_municipalities_saved (n : nat) : M unit := λ s,
  (Val tt,
   {| fs := fs s; stdout := stdout s;
      processed_osm_ids := processed_osm_ids s;
      total_municipalities_saved := total_municipalities_saved s + n;
      to_file_calls := to_file_calls s |}).

(** ** The outside world *)

(** What the network and the disk answer during one run.  The download of
    the features of a chunk is made once per chunk; its answer may depend on
    which chunk of the loop asks (the number [i] of [enumerate]), so that two
    calls need not agree.  [to_file_fault] says whether the write made while
    chunk [i] is processed raises, and with what message. *)
Record World := {
  geocode_to_gdf : string → result (list G);
  features_from_place : string → gmap string string → result GeoDataFrame;
  features_from_polygon :
    nat → G → gmap string string → result GeoDataFrame;
  to_file_fault : nat → GeoDataFrame → write_mode → option string
}.

(** [df.to_file(path, driver=..., mode=..., layer=...)], called while chunk
    [i] is processed.  A call that raises leaves the file as it was. *)
Definition to_file (w : World) (i : nat) (df : GeoDataFrame) (path : string)
    (driver : string) (mode : write_mode) (layer : string) : M unit := λ s,
  let record ok :=
    {| call_frame := df; call_path := path; call_driver := driver;
       call_mode := mode; call_layer := layer; call_ok := ok |} in
  match to_file_fault w i df mode with
  | Some e =>
      (Raise e,
       {| fs := fs s; stdout := stdout s;
          processed_osm_ids := processed_osm_ids s;
          total_municipalities_saved := total_municipalities_saved s;
          to_file_calls := to_file_calls s ++ [record false] |})
  | None =>
      (Val tt,
       {| fs := <[path := written (fs s !! path) mode layer df]> (fs s);
          stdout := stdout s;
          processed_osm_ids := processed_osm_ids s;
          total_municipalities_saved := total_municipalities_saved s;
          to_file_calls := to_file_calls s ++ [record true] |})
  end.

(** ** Accessors that may raise *)

(** [getattr(state, 'name', f'State {i+1}')] on a row of [itertuples()]: the
    tuple has a field [name] when the frame has that column; a NaN cell
    prints as "nan". *)
Definition getattr_name (states : GeoDataFrame) (i : nat) (state : Row)
    : string :=
  if decide ("name" ∈ columns states)
  then default "nan" (attrs state !! "name")
  else "State " +:+ pretty (i + 1).

(** [state.geometry] on a row of [itertuples()] *)
Definition tuple_geometry (states : GeoDataFrame) (state : Row) : M G :=
  if decide ("geometry" ∈ columns states)
  then ret (geometry state)
  else raise "'Pandas' object has no attribute 'geometry'".

(** [df.geometry]: the geometry column, when the frame has one. *)
Definition active_geometry (df : GeoDataFrame) : M unit :=
  if decide ("geometry" ∈ columns df)
  then ret tt
  else raise "the active geometry column to use has not been set".

(** [df[df.geometry.type.isin(types)]] *)
Definition geometry_type_isin `{!Shapely G} (types : list string)
    (df : GeoDataFrame) : M GeoDataFrame :=
  active_geometry df ;;
  ret (mask (λ r, geom_type (geometry r) ∈ types) df).

(** [df[df.geometry.within(other)]] *)
Definition geometry_within `{!Shapely G} (other : G) (df : GeoDataFrame)
    : M GeoDataFrame :=
  active_geometry df ;;
  ret (mask (λ r, within (geometry r) other = true) df).

(** [df[df[col] == value]]: a KeyError when the column is missing; a NaN
    cell is not equal to any string. *)
Definition getitem_eq (col value : string) (df : GeoDataFrame)
    : M GeoDataFrame :=
  if decide (col ∈ columns df)
  then ret (mask (λ r, attrs r !! col = Some value) df)
  else raise ("'" +:+ col +:+ "'").

(** [gdf.geometry.iloc[0]] on the answer of [geocode_to_gdf] *)
Definition iloc0 (geoms : list G) : M G :=
  match geoms with
  | g :: _ => ret g
  | [] => raise "single positional indexer is out-of-bounds"
  end.

End frames.

Global Arguments Row : clear implicits.
Global Arguments GeoDataFrame : clear implicits.
Global Arguments ToFileCall : clear implicits.
Global Arguments RunState : clear implicits.
Global Arguments World : clear implicits.
Global Arguments M : clear implicits.
Abbreviation gpkg G := (gmap string (list (GeoDataFrame G))).

(** * belgium_municipalities.py: the plain chunked pipeline *)

Module belgium_municipalities.
Section script.
Context {G : Type} `{!Shapely G} (w : World G).

(** 1. Configuration *)
Definition place_name : string := "Germany".
Definition chunk_admin_level : string := "4".
Definition target_admin_level : string := "8".

Definition tags : gmap string string :=
  {[ "boundary" := "administrative"; "admin_level" := target_admin_level ]}.

(** The tags of the chunks, the dictionary of line 48 (line 50 in the
    strict script). *)
Definition chunk_tags : gmap string string :=
  {[ "boundary" := "administrative"; "admin_level" := chunk_admin_level ]}.

Definition output_path : string :=
  lower place_name +:+ "_municipalities_admin" +:+ target_admin_level
  +:+ ".gpkg".

Definition layer : string := lower place_name +:+ "_municipalities".

(** The data cleaning of one chunk (lines 67 to 91): the download of the
    chunk comes in, the batch to save goes out. *)
Definition clean_chunk (state_name : string)
    (municipalities_chunk : GeoDataFrame G) : M G (GeoDataFrame G) :=
  (* 1. Filter out OSM IDs saved from previous chunks. *)
  municipalities_chunk ←
    (if negb (empty municipalities_chunk) then
       let original_count := len municipalities_chunk in
       ids ← read processed_osm_ids;
       let municipalities_chunk := not_isin ids municipalities_chunk in
       (if decide (len municipalities_chunk < original_count) then
          print ("  Removed "
                 +:+ pretty (original_count - len municipalities_chunk)
                 +:+ " duplicate OSM IDs found in previous chunks.")
        else mret tt) ;;
       mret municipalities_chunk
     else mret municipalities_chunk);
  (if empty municipalities_chunk then
     print ("  No new municipalities to process for " +:+ state_name +:+ ".") ;;
     continue
   else mret tt) ;;
  (* 2. Keep only Polygon and MultiPolygon geometries. *)
  municipalities_chunk ←
    geometry_type_isin ["Polygon"; "MultiPolygon"] municipalities_chunk;
  (* 3. Clean up columns for export. *)
  let columns_to_keep := ["name"; "geometry"; "admin_level"] in
  let columns_in_df := columns_present columns_to_keep municipalities_chunk in
  let municipalities_chunk :=
    getitem_columns columns_in_df municipalities_chunk in
  (if empty municipalities_chunk then
     print ("  No valid municipality polygons left after filtering for "
            +:+ state_name +:+ ".") ;;
     continue
   else mret tt) ;;
  mret municipalities_chunk.

(** Saving the processed chunk (lines 93 to 111). *)
Definition save_chunk (i : nat) (municipalities_chunk : GeoDataFrame G)
    : M G unit :=
  print ("  Found " +:+ pretty (len municipalities_chunk)
         +:+ " new municipalities. Saving to file...") ;;
  total ← read total_municipalities_saved;
  let write_mode := if decide (0 < total) then mode_a else mode_w in
  to_file w i municipalities_chunk output_path "GPKG" write_mode layer ;;
  update_processed_osm_ids (index_of municipalities_chunk) ;;
  add_total_municipalities_saved (len municipalities_chunk) ;;
  total ← read total_municipalities_saved;
  print ("  Successfully saved. Total municipalities so far: "
         +:+ pretty total).

(** The body of the [try] of one chunk (lines 62 to 111). *)
Definition chunk_try (states : GeoDataFrame G) (i : nat) (state : Row G)
    (state_name : string) : M G unit :=
  print ("  Downloading municipalities for " +:+ state_name +:+ "...") ;;
  polygon ← tuple_geometry states state;
  municipalities_chunk ← call (features_from_polygon w i polygon tags);
  municipalities_chunk ← clean_chunk state_name municipalities_chunk;
  save_chunk i municipalities_chunk.

(** The line that opens the processing of a chunk (line 59). *)
Definition chunk_header (states : GeoDataFrame G) (i : nat) (state : Row G)
    : string :=
  nl +:+ "--- Processing chunk " +:+ pretty (i + 1) +:+ "/"
  +:+ pretty (len states) +:+ ": " +:+ getattr_name states i state +:+ " ---".

(** The body of the loop over the chunks (lines 58 to 115). *)
Definition chunk_body (states : GeoDataFrame G) (i : nat) (state : Row G)
    : M G unit :=
  let state_name := getattr_name states i state in
  print (chunk_header states i state) ;;
  try_except (chunk_try states i state state_name)
    (λ e,
       print ("  An error occurred while processing " +:+ state_name
              +:+ ": " +:+ e) ;;
       print "  Skipping this chunk.").

(** 5. Finalization *)
Definition finalization : M G unit :=
  print (nl +:+ "-----------------------------------------------------") ;;
  print "Processing complete." ;;
  total ← read total_municipalities_saved;
  print ("Total unique municipalities saved: " +:+ pretty total) ;;
  print ("Data saved to: " +:+ output_path) ;;
  print "-----------------------------------------------------".

Definition main : M G unit :=
  (* 2. Initial setup *)
  path_exists output_path ≫= λ there : bool,
  (if there then
     remove output_path ;;
     print ("Removed existing file: " +:+ output_path)
   else mret tt) ;;
  init_bookkeeping ;;
  (* 3. Fetch state polygons (chunks) *)
  print ("Step 1: Downloading state polygons for " +:+ place_name
         +:+ " (admin_level=" +:+ chunk_admin_level +:+ ")...") ;;
  states ←
    try_except
      (states ← call (features_from_place w place_name chunk_tags);
       print ("Found " +:+ pretty (len states)
              +:+ " states to process as chunks.") ;;
       mret states)
      (λ e,
         print ("Could not download state polygons. Error: " +:+ e) ;;
         return_);
  (* 4. Process each chunk (state) *)
  for_enumerate 0 (rows states) (chunk_body states) ;;
  finalization.

End script.
End belgium_municipalities.

(** * test2.py: the chunked pipeline with strict cleaning *)

Module test2.
Section script.
Context {G : Type} `{!Shapely G} (w : World G).

(** 1. Configuration *)
Definition place_name : string := "Germany".
Definition chunk_admin_level : string := "4".
Definition target_admin_level : string := "8".

Definition tags : gmap string string :=
  {[ "boundary" := "administrative"; "admin_level" := target_admin_level ]}.

(** The tags of the chunks, the dictionary of line 48 (line 50 in the
    strict script). *)
Definition chunk_tags : gmap string string :=
  {[ "boundary" := "administrative"; "admin_level" := chunk_admin_level ]}.

Definition output_path : string :=
  lower place_name +:+ "_municipalities_admin" +:+ target_admin_level
  +:+ ".gpkg".

Definition layer : string := lower place_name +:+ "_municipalities".

(** Cleaning step 1 (lines 74 to 80): the explicit [admin_level] filter. *)
Definition level_stage (municipalities_chunk : GeoDataFrame G)
    : M G (GeoDataFrame G) :=
  let initial_count := len municipalities_chunk in
  municipalities_chunk ←
    getitem_eq "admin_level" target_admin_level municipalities_chunk;
  print ("  Filtering by admin_level='" +:+ target_admin_level +:+ "': "
         +:+ pretty initial_count +:+ " -> "
         +:+ pretty (len municipalities_chunk) +:+ " features") ;;
  mret municipalities_chunk.

(** Cleaning step 2 (lines 82 to 88): geometries completely within the
    country boundary. *)
Definition containment_stage (country_geom : G)
    (municipalities_chunk : GeoDataFrame G) : M G (GeoDataFrame G) :=
  let initial_count := len municipalities_chunk in
  municipalities_chunk ← geometry_within country_geom municipalities_chunk;
  print ("  Filtering by country boundary: " +:+ pretty initial_count
         +:+ " -> " +:+ pretty (len municipalities_chunk) +:+ " features") ;;
  mret municipalities_chunk.

(** The data cleaning of one chunk (lines 68 to 108).  The script runs it
    with both strict steps; the two switches leave a step out, for the
    comparison with the plain pipeline. *)
Definition clean_chunk_with (level_on within_on : bool) (country_geom : G)
    (municipalities_chunk : GeoDataFrame G) : M G (GeoDataFrame G) :=
  (if empty municipalities_chunk then
     print "  No features returned from OSM for this chunk." ;;
     continue
   else mret tt) ;;
  (* 1. Explicitly filter for the correct admin_level. *)
  municipalities_chunk ←
    (if level_on then level_stage municipalities_chunk
     else mret municipalities_chunk);
  (* 2. Ensure all geometries are completely within the country boundary. *)
  municipalities_chunk ←
    (if within_on then containment_stage country_geom municipalities_chunk
     else mret municipalities_chunk);
  (* 3. Filter out OSM IDs saved from previous chunks. *)
  let initial_count := len municipalities_chunk in
  ids ← read processed_osm_ids;
  let municipalities_chunk := not_isin ids municipalities_chunk in
  (if decide (len municipalities_chunk < initial_count) then
     print ("  Removed " +:+ pretty (initial_count - len municipalities_chunk)
            +:+ " duplicate OSM IDs from prior chunks.")
   else mret tt) ;;
  (if empty municipalities_chunk then
     print "  No new, valid municipalities to save in this chunk." ;;
     continue
   else mret tt) ;;
  (* 4. Keep only valid Polygon/MultiPolygon geometries, clean up columns. *)
  municipalities_chunk ←
    geometry_type_isin ["Polygon"; "MultiPolygon"] municipalities_chunk;
  let columns_to_keep := ["name"; "geometry"; "admin_level"] in
  let columns_in_df := columns_present columns_to_keep municipalities_chunk in
  let municipalities_chunk :=
    getitem_columns columns_in_df municipalities_chunk in
  (if empty municipalities_chunk then
     print "  No valid polygons left after final cleaning." ;;
     continue
   else mret tt) ;;
  mret municipalities_chunk.

Definition clean_chunk : G → GeoDataFrame G → M G (GeoDataFrame G) :=
  clean_chunk_with true true.

(** Saving the processed chunk (lines 110 to 123). *)
Definition save_chunk (i : nat) (municipalities_chunk : GeoDataFrame G)
    : M G unit :=
  print ("  ✅ Found " +:+ pretty (len municipalities_chunk)
         +:+ " new municipalities. Saving to file...") ;;
  total ← read total_municipalities_saved;
  let write_mode := if decide (0 < total) then mode_a else mode_w in
  to_file w i municipalities_chunk output_path "GPKG" write_mode layer ;;
  update_processed_osm_ids (index_of municipalities_chunk) ;;
  add_total_municipalities_saved (len municipalities_chunk) ;;
  total ← read total_municipalities_saved;
  print ("  Successfully saved. Total so far: " +:+ pretty total).

(** The body of the [try] of one chunk (lines 65 to 123). *)
Definition chunk_try_with (level_on within_on : bool) (country_geom : G)
    (states : GeoDataFrame G) (i : nat) (state : Row G) (state_name : string)
    : M G unit :=
  print ("  Downloading municipalities for " +:+ state_name +:+ "...") ;;
  polygon ← tuple_geometry states state;
  municipalities_chunk ← call (features_from_polygon w i polygon tags);
  municipalities_chunk ←
    clean_chunk_with level_on within_on country_geom municipalities_chunk;
  save_chunk i municipalities_chunk.

(** The line that opens the processing of a chunk (line 62). *)
Definition chunk_header (states : GeoDataFrame G) (i : nat) (state : Row G)
    : string :=
  nl +:+ "--- Processing chunk " +:+ pretty (i + 1) +:+ "/"
  +:+ pretty (len states) +:+ ": " +:+ getattr_name states i state +:+ " ---".

(** The body of the loop over the chunks (lines 61 to 127). *)
Definition chunk_body_with (level_on within_on : bool) (country_geom : G)
    (states : GeoDataFrame G) (i : nat) (state : Row G) : M G unit :=
  let state_name := getattr_name states i state in
  print (chunk_header states i state) ;;
  try_except
    (chunk_try_with level_on within_on country_geom states i state state_name)
    (λ e,
       print ("  ❌ An error occurred while processing " +:+ state_name
              +:+ ": " +:+ e) ;;
       print "  Skipping this chunk.").

(** 5. Finalization *)
Definition finalization : M G unit :=
  print (nl +:+ "-----------------------------------------------------") ;;
  print "🎉 Processing complete." ;;
  total ← read total_municipalities_saved;
  print ("Total unique municipalities saved: " +:+ pretty total) ;;
  print ("Data saved to: " +:+ output_path) ;;
  print "-----------------------------------------------------".

Definition main_with (level_on within_on : bool) : M G unit :=
  (* 2. Initial setup *)
  path_exists output_path ≫= λ there : bool,
  (if there then
     remove output_path ;;
     print ("Removed existing file: " +:+ output_path)
   else mret tt) ;;
  init_bookkeeping ;;
  (* 3. Fetch boundaries for filtering *)
  print "Step 1: Downloading main country boundary for spatial filtering..." ;;
  country_geom ←
    try_except
      (country_boundary ← call (geocode_to_gdf w place_name);
       country_geom ← iloc0 country_boundary;
       print "✔ Main country boundary downloaded." ;;
       mret country_geom)
      (λ e,
         print ("❌ Could not download country boundary. Cannot proceed. Error: "
                +:+ e) ;;
         return_);
  print ("Step 2: Downloading state polygons for " +:+ place_name
         +:+ " (admin_level=" +:+ chunk_admin_level +:+ ")...") ;;
  states ←
    try_except
      (states ← call (features_from_place w place_name chunk_tags);
       print ("✔ Found " +:+ pretty (len states)
              +:+ " states to process as chunks.") ;;
       mret states)
      (λ e,
         print ("❌ Could not download state polygons. Cannot proceed. Error: "
                +:+ e) ;;
         return_);
  (* 4. Process each chunk (state) *)
  print (nl +:+ "Step 3: Processing municipalities for each state...") ;;
  for_enumerate 0 (rows states)
    (chunk_body_with level_on within_on country_geom states) ;;
  finalization.

(** The script: both strict steps are applied. *)
Definition chunk_try := chunk_try_with true true.
Definition chunk_body := chunk_body_with true true.
Definition main : M G unit := main_with true true.

End script.
End test2.

(** * Test.py: the script that downloads the whole country at once *)

Section more_frames.
Context {G : Type}.

(** [df.drop_duplicates(subset=col)] on the rows: the first row of each
    value of the column stays; two NaN cells count as the same value. *)
Fixpoint drop_duplicate_rows (col : string) (seen : list (option string))
    (rs : list (Row G)) : list (Row G) :=
  match rs with
  | [] => []
  | r :: rs =>
      if decide (attrs r !! col ∈ seen)
      then drop_duplicate_rows col seen rs
      else r :: drop_duplicate_rows col (attrs r !! col :: seen) rs
  end.

(** [df.drop_duplicates(subset=col)]: a KeyError when the column is
    missing. *)
Definition drop_duplicates (col : string) (df : GeoDataFrame G)
    : M G (GeoDataFrame G) :=
  if decide (col ∈ columns df)
  then mret {| columns := columns df;
               rows := drop_duplicate_rows col [] (rows df) |}
  else raise ("Index(['" +:+ col +:+ "'], dtype='object')").

(** [gdf.loc[0, 'geometry']] on the answer of [geocode_to_gdf], whose rows
    are labelled 0, 1, ... *)
Definition loc0_geometry (geoms : list G) : M G G :=
  match geoms with
  | g :: _ => mret g
  | [] => raise "0"
  end.

(** [df.head()]: the first five rows. *)
Definition head (df : GeoDataFrame G) : GeoDataFrame G :=
  {| columns := columns df; rows := take 5 (rows df) |}.

End more_frames.

Module Test.
Section script.
(** [repr] is the text that [print] shows for a frame. *)
Context {G : Type} `{!Shapely G} (w : World G)
  (repr : GeoDataFrame G → string).

Definition place_name : string := "Germany".
Definition admin_level : string := "8".

Definition tags : gmap string string :=
  {[ "boundary" := "administrative"; "admin_level" := admin_level ]}.

Definition output_path : string :=
  lower place_name +:+ "_municipalities_admin8.geojson".

(** With no [layer] argument the writer names the layer after the file,
    without its extension. *)
Definition default_layer : string :=
  lower place_name +:+ "_municipalities_admin8".

Definition script : M G unit :=
  print ("Bezig met downloaden van gemeente-polygonen voor" +:+ " "
         +:+ place_name +:+ " " +:+ "(admin_level=8)...") ;;
  municipalities ← call (features_from_place w place_name tags);
  (* Verwijder dubbele entries op basis van naam *)
  municipalities ← drop_duplicates "name" municipalities;
  (* Behoud enkel Polygon- en MultiPolygon-geometrieen *)
  municipalities ←
    geometry_type_isin ["Polygon"; "MultiPolygon"] municipalities;
  country_boundary ← call (geocode_to_gdf w place_name);
  (* Filter alleen de entries die admin_level = 8 hebben *)
  municipalities ← getitem_eq "admin_level" "8" municipalities;
  (* Behoud enkel gemeenten die volledig binnen de grens vallen *)
  active_geometry municipalities ;;
  boundary ← loc0_geometry country_boundary;
  let municipalities :=
    mask (λ r, within (geometry r) boundary = true) municipalities in
  (* Kolommen opschonen *)
  let columns_to_keep := ["name"; "geometry"; "admin_level"] in
  let columns_to_keep := columns_present columns_to_keep municipalities in
  let municipalities := getitem_columns columns_to_keep municipalities in
  print (pretty (len municipalities)
         +:+ " gemeente-polygonen overgehouden na filtering.") ;;
  print (repr (head municipalities)) ;;
  (* Opslaan als GeoJSON *)
  to_file w 0 municipalities output_path "GeoJSON" mode_w default_layer ;;
  print ("GeoJSON opgeslagen als: " +:+ output_path).

End script.
End Test.

(** * Runs on a disk that may refuse to remove the old file *)

(** [os.remove(path)] raises when the path is a directory or when the file may
    not be deleted.  Both scripts call it before their first [try], so that
    its exception ends the run.  [removal] is the answer of the disk to the
    call: [None] when the file is removed, [Some e] when the call raises [e].
    An entry of the file system stands here for whatever is at the path.
    The scripts above are the scripts below on a disk that removes the
    file. *)
Definition os_remove {G : Type} (removal : option string) (path : string)
    : M G unit :=
  match removal with
  | None => remove path
  | Some e => raise e
  end.

Module belgium_municipalities_on_disk.
Section script.
Context {G : Type} `{!Shapely G} (removal : option string) (w : World G).
Import belgium_municipalities.

Definition main : M G unit :=
  (* 2. Initial setup *)
  path_exists output_path ≫= λ there : bool,
  (if there then
     os_remove removal output_path ;;
     print ("Removed existing file: " +:+ output_path)
   else mret tt) ;;
  init_bookkeeping ;;
  (* 3. Fetch state polygons (chunks) *)
  print ("Step 1: Downloading state polygons for " +:+ place_name
         +:+ " (admin_level=" +:+ chunk_admin_level +:+ ")...") ;;
  states ←
    try_except
      (states ← call (features_from_place w place_name chunk_tags);
       print ("Found " +:+ pretty (len states)
              +:+ " states to process as chunks.") ;;
       mret states)
      (λ e,
         print ("Could not download state polygons. Error: " +:+ e) ;;
         return_);
  (* 4. Process each chunk (state) *)
  for_enumerate 0 (rows states) (chunk_body w states) ;;
  finalization.

End script.
End belgium_municipalities_on_disk.

Module test2_on_disk.
Section script.
Context {G : Type} `{!Shapely G} (removal : option string) (w : World G).
Import test2.

Definition main : M G unit :=
  (* 2. Initial setup *)
  path_exists output_path ≫= λ there : bool,
  (if there then
     os_remove removal output_path ;;
     print ("Removed existing file: " +:+ output_path)
   else mret tt) ;;
  init_bookkeeping ;;
  (* 3. Fetch boundaries for filtering *)
  print "Step 1: Downloading main country boundary for spatial filtering..." ;;
  country_geom ←
    try_except
      (country_boundary ← call (geocode_to_gdf w place_name);
       country_geom ← iloc0 country_boundary;
       print "✔ Main country boundary downloaded." ;;
       mret country_geom)
      (λ e,
         print ("❌ Could not download country boundary. Cannot proceed. Error: "
                +:+ e) ;;
         return_);
  print ("Step 2: Downloading state polygons for " +:+ place_name
         +:+ " (admin_level=" +:+ chunk_admin_level +:+ ")...") ;;
  states ←
    try_except
      (states ← call (features_from_place w place_name chunk_tags);
       print ("✔ Found " +:+ pretty (len states)
              +:+ " states to process as chunks.") ;;
       mret states)
      (λ e,
         print ("❌ Could not download state polygons. Cannot proceed. Error: "
                +:+ e) ;;
         return_);
  (* 4. Process each chunk (state) *)
  print (nl +:+ "Step 3: Processing municipalities for each state...") ;;
  for_enumerate 0 (rows states) (chunk_body w country_geom states) ;;
  finalization.

End script.
End test2_on_disk.

(** * What one chunk does to the state *)

Section effects.
Context {G : Type} `{!Shapely G}.

(** The cleaning as a function: drop the known identifiers, keep the
    polygons, keep the export columns that the frame has. *)
Definition columns_to_keep : list string := ["name"; "geometry"; "admin_level"].

Definition polygons (df : GeoDataFrame G) : GeoDataFrame G :=
  mask (λ r, geom_type (geometry r) ∈ ["Polygon"; "MultiPolygon"]) df.

Definition cleaned (ids : gset osm_id) (df : GeoDataFrame G) : GeoDataFrame G :=
  getitem_columns (columns_present columns_to_keep df)
    (polygons (not_isin ids df)).

(** The two strict steps as functions. *)
Definition at_level (level : string) (df : GeoDataFrame G) : GeoDataFrame G :=
  mask (λ r, attrs r !! "admin_level" = Some level) df.

Definition inside (country_geom : G) (df : GeoDataFrame G) : GeoDataFrame G :=
  mask (λ r, within (geometry r) country_geom = true) df.

(** Two states that differ in the console output only, the later one having
    printed more. *)
Definition only_printed (s s' : RunState G) : Prop :=
  fs s' = fs s ∧
  processed_osm_ids s' = processed_osm_ids s ∧
  total_municipalities_saved s' = total_municipalities_saved s ∧
  to_file_calls s' = to_file_calls s ∧
  stdout s `prefix_of` stdout s'.

Lemma only_printed_refl s : only_printed s s.
Proof. by unfold only_printed. Qed.

Lemma only_printed_trans s1 s2 s3 :
  only_printed s1 s2 → only_printed s2 s3 → only_printed s1 s3.
Proof.
  intros (?&?&?&?&?) (?&?&?&?&?). unfold only_printed.
  repeat split; try congruence. by etrans.
Qed.

Lemma only_printed_print msg s : only_printed s (print msg s).2.
Proof. unfold only_printed; simpl. repeat split. by apply prefix_app_r. Qed.

(** ** Facts about the cleaning functions *)

Lemma empty_false (df : GeoDataFrame G) :
  empty df = false ↔ rows df ≠ [] ∧ columns df ≠ [].
Proof.
  unfold empty. rewrite orb_false_iff, !Nat.eqb_neq.
  destruct (rows df), (columns df); simpl; naive_solver.
Qed.

Lemma elem_of_cleaned ids (df : GeoDataFrame G) r :
  r ∈ rows (cleaned ids df) ↔
  (∃ r0, r = project_row (columns_present columns_to_keep df) r0 ∧
         r0 ∈ rows df ∧ index r0 ∉ ids ∧
         geom_type (geometry r0) ∈ ["Polygon"; "MultiPolygon"]).
Proof.
  unfold cleaned, polygons, not_isin, mask; simpl.
  rewrite list_elem_of_fmap. setoid_rewrite list_elem_of_filter.
  setoid_rewrite list_elem_of_filter. naive_solver.
Qed.

Lemma index_of_cleaned ids (df : GeoDataFrame G) :
  index_of (cleaned ids df) =
  index <$> filter (λ r, geom_type (geometry r) ∈ ["Polygon"; "MultiPolygon"])
              (filter (λ r, index r ∉ ids) (rows df)).
Proof.
  unfold index_of, cleaned, polygons, not_isin, mask; simpl.
  by rewrite <-list_fmap_compose.
Qed.

Lemma cleaned_sublist ids (df : GeoDataFrame G) :
  index_of (cleaned ids df) `sublist_of` index_of df.
Proof.
  rewrite index_of_cleaned. unfold index_of. apply fmap_sublist.
  etrans; apply sublist_filter.
Qed.

Lemma cleaned_NoDup ids (df : GeoDataFrame G) :
  NoDup (index_of df) → NoDup (index_of (cleaned ids df)).
Proof. intros Hnd. eapply sublist_NoDup; [done|apply cleaned_sublist]. Qed.

Lemma cleaned_new ids (df : GeoDataFrame G) x :
  x ∈ index_of (cleaned ids df) → x ∉ ids.
Proof.
  unfold index_of. rewrite list_elem_of_fmap. intros (r&->&Hr).
  apply elem_of_cleaned in Hr as (r0&->&_&Hnew&_). done.
Qed.

Lemma mask_sublist (P : Row G → Prop) `{!∀ r, Decision (P r)}
    (df : GeoDataFrame G) :
  index_of (mask P df) `sublist_of` index_of df.
Proof. unfold index_of, mask; simpl. apply fmap_sublist, sublist_filter. Qed.

(** A kept column keeps its cell. *)
Lemma project_row_lookup cols (r : Row G) col :
  col ∈ cols → attrs (project_row cols r) !! col = attrs r !! col.
Proof.
  intros Hcol. unfold project_row; simpl. apply option_eq. intros v.
  rewrite map_lookup_filter_Some. naive_solver.
Qed.

Lemma columns_present_idemp (keep cols : list string) :
  filter (λ col, col ∈ filter (λ col, col ∈ cols) keep) keep =
  filter (λ col, col ∈ cols) keep.
Proof.
  assert (∀ l : list string, l ⊆ keep →
    filter (λ col, col ∈ filter (λ col, col ∈ cols) keep) l =
    filter (λ col, col ∈ cols) l) as Hl; [|by apply Hl].
  induction l as [|col l IH]; intros Hsub; [done|].
  rewrite !filter_cons, IH by set_solver.
  apply decide_ext. rewrite list_elem_of_filter. set_solver.
Qed.

Lemma project_row_idemp cols (r : Row G) :
  project_row cols (project_row cols r) = project_row cols r.
Proof.
  unfold project_row; simpl. f_equal.
  apply map_filter_filter_l. naive_solver.
Qed.

(** A mask that every row passes changes nothing. *)
Lemma mask_all (P : Row G → Prop) `{!∀ r, Decision (P r)}
    (df : GeoDataFrame G) :
  Forall P (rows df) → mask P df = df.
Proof.
  intros Hall. destruct df as [cols rs]. unfold mask; simpl in *. f_equal.
  induction Hall as [|r rs Hr _ IH]; [done|].
  by rewrite filter_cons_True, IH.
Qed.

(** Cleaning a cleaned batch again, with the same known identifiers, gives
    the batch back. *)
Lemma cleaned_idemp ids (df : GeoDataFrame G) :
  cleaned ids (cleaned ids df) = cleaned ids df.
Proof.
  set (b := cleaned ids df).
  assert (not_isin ids b = b) as Hnew.
  { apply mask_all, Forall_forall. intros r Hr.
    by apply elem_of_cleaned in Hr as (r0&->&_&?&_). }
  assert (polygons b = b) as Hpoly.
  { apply mask_all, Forall_forall. intros r Hr.
    by apply elem_of_cleaned in Hr as (r0&->&_&_&?). }
  unfold cleaned at 1. rewrite Hnew, Hpoly.
  unfold b, cleaned, getitem_columns, columns_present; simpl.
  rewrite columns_present_idemp. f_equal.
  rewrite <-list_fmap_compose. apply list_fmap_ext.
  intros ? r _. apply project_row_idemp.
Qed.

(** ** The outcome of the cleaning, as a function *)

(** The outcome of the steps that both scripts have: dropping the known
    identifiers, keeping the polygons, keeping the export columns. *)
Definition tail_result (ids : gset osm_id) (df : GeoDataFrame G)
    : ctl (GeoDataFrame G) :=
  if empty (not_isin ids df) then Continue
  else if decide ("geometry" ∈ columns df) then
    if empty (cleaned ids df) then Continue else Val (cleaned ids df)
  else Raise "the active geometry column to use has not been set".

Lemma tail_result_val ids (df : GeoDataFrame G) :
  empty (cleaned ids df) = false → "geometry" ∈ columns df →
  tail_result ids df = Val (cleaned ids df).
Proof.
  intros Hne Hgeo. unfold tail_result. rewrite Hne, decide_True by done.
  assert (empty (not_isin ids df) = false) as ->; [|done].
  apply empty_false in Hne as [Hrows Hcols]. apply empty_false.
  split; [|simpl; intros E; rewrite E in Hgeo; by apply elem_of_nil in Hgeo].
  intros E. apply Hrows. unfold not_isin, mask in E; simpl in E.
  unfold cleaned, polygons, not_isin, mask; simpl. by rewrite E.
Qed.

Lemma tail_result_cleaned ids (df : GeoDataFrame G) :
  empty (cleaned ids df) = false → "geometry" ∈ columns df →
  tail_result ids (cleaned ids df) = Val (cleaned ids df).
Proof.
  intros Hne Hgeo. rewrite <-(cleaned_idemp ids df) at 2.
  apply tail_result_val; [by rewrite cleaned_idemp|].
  unfold cleaned, columns_present, columns_to_keep; simpl.
  apply list_elem_of_filter. split; [done|set_solver].
Qed.

(** The file at the path: the rows of its layer. *)
Definition container (path layer : string) (s : RunState G) : list (Row G) :=
  match fs s !! path with
  | Some file => mjoin (rows <$> default [] (file !! layer))
  | None => []
  end.

(** [write_mode = 'a' if total_municipalities_saved > 0 else 'w'] *)
Definition mode_for (total : nat) : write_mode :=
  if decide (0 < total) then mode_a else mode_w.

Definition call_record (b : GeoDataFrame G) (path : string)
    (mode : write_mode) (layer : string) (ok : bool) : ToFileCall G :=
  {| call_frame := b; call_path := path; call_driver := "GPKG";
     call_mode := mode; call_layer := layer; call_ok := ok |}.

Section one_file.
Variables (path layer : string).

(** The write of batch [b] raised: nothing but the history and the console
    changed. *)
Definition write_raised (b : GeoDataFrame G) (s s' : RunState G) : Prop :=
  fs s' = fs s ∧
  processed_osm_ids s' = processed_osm_ids s ∧
  total_municipalities_saved s' = total_municipalities_saved s ∧
  to_file_calls s' =
    to_file_calls s
    ++ [call_record b path (mode_for (total_municipalities_saved s)) layer
          false] ∧
  stdout s `prefix_of` stdout s'.

(** Batch [b] was written and booked. *)
Definition saved (b : GeoDataFrame G) (s s' : RunState G) : Prop :=
  fs s' =
    <[path := written (fs s !! path)
                (mode_for (total_municipalities_saved s)) layer b]> (fs s) ∧
  processed_osm_ids s' = processed_osm_ids s ∪ list_to_set (index_of b) ∧
  total_municipalities_saved s' = total_municipalities_saved s + len b ∧
  to_file_calls s' =
    to_file_calls s
    ++ [call_record b path (mode_for (total_municipalities_saved s)) layer
          true] ∧
  stdout s `prefix_of` stdout s'.

(** What the processing of one chunk may do to the state; [B s b] says which
    batches [b] the chunk may try to write in state [s]. *)
Inductive chunk_effect (B : RunState G → GeoDataFrame G → Prop)
    (s s' : RunState G) : Prop :=
  | effect_none : only_printed s s' → chunk_effect B s s'
  | effect_write_raised b :
      B s b → write_raised b s s' → chunk_effect B s s'
  | effect_saved b : B s b → saved b s s' → chunk_effect B s s'.

Lemma write_raised_printed_l b s0 s s' :
  only_printed s0 s → write_raised b s s' → write_raised b s0 s'.
Proof.
  intros (E1&E2&E3&E4&E5) (F1&F2&F3&F4&F5). unfold write_raised.
  rewrite F1, F2, F3, F4, E1, E2, E3, E4. repeat split. by etrans.
Qed.

Lemma write_raised_printed_r b s s' s1 :
  write_raised b s s' → only_printed s' s1 → write_raised b s s1.
Proof.
  intros (F1&F2&F3&F4&F5) (E1&E2&E3&E4&E5). unfold write_raised.
  rewrite E1, E2, E3, E4, F1, F2, F3, F4. repeat split. by etrans.
Qed.

Lemma saved_printed_l b s0 s s' :
  only_printed s0 s → saved b s s' → saved b s0 s'.
Proof.
  intros (E1&E2&E3&E4&E5) (F1&F2&F3&F4&F5). unfold saved.
  rewrite F1, F2, F3, F4, E1, E2, E3, E4. repeat split. by etrans.
Qed.

Lemma saved_printed_r b s s' s1 :
  saved b s s' → only_printed s' s1 → saved b s s1.
Proof.
  intros (F1&F2&F3&F4&F5) (E1&E2&E3&E4&E5). unfold saved.
  rewrite E1, E2, E3, E4, F1, F2, F3, F4. repeat split. by etrans.
Qed.

(** The batch predicate may only look at the bookkeeping. *)
Definition looks_at_ids (B : RunState G → GeoDataFrame G → Prop) : Prop :=
  ∀ s s' b, processed_osm_ids s' = processed_osm_ids s → B s b → B s' b.

Lemma chunk_effect_printed_l B s0 s s' :
  looks_at_ids B →
  only_printed s0 s → chunk_effect B s s' → chunk_effect B s0 s'.
Proof.
  intros HB H0 [H1|b Hb H1|b Hb H1].
  - apply effect_none. by eapply only_printed_trans.
  - apply (effect_write_raised _ _ _ b).
    + eapply HB; [|done]. symmetry. apply H0.
    + by eapply write_raised_printed_l.
  - apply (effect_saved _ _ _ b).
    + eapply HB; [|done]. symmetry. apply H0.
    + by eapply saved_printed_l.
Qed.

Lemma chunk_effect_printed_r B s s' s1 :
  chunk_effect B s s' → only_printed s' s1 → chunk_effect B s s1.
Proof.
  intros [H1|b Hb H1|b Hb H1] H2.
  - apply effect_none. by eapply only_printed_trans.
  - apply (effect_write_raised _ _ _ b); [done|].
    by eapply write_raised_printed_r.
  - apply (effect_saved _ _ _ b); [done|]. by eapply saved_printed_r.
Qed.

(** The loop over the chunks relates its first state to its last by a chain
    of steps, when each run of the body is one step. *)
Lemma for_enumerate_rtc {A} (R : relation (RunState G))
    (body : nat → A → M G unit) (l : list A) (i : nat) (s : RunState G) :
  (∀ i x s, match body i x s with
            | (Val _, s') | (Continue, s') => R s s'
            | _ => False
            end) →
  match for_enumerate i l body s with
  | (Val _, s') => rtc R s s'
  | _ => False
  end.
Proof.
  intros Hbody. revert i s. induction l as [|x l IH]; intros i s; simpl.
  - done.
  - specialize (Hbody i x s). destruct (body i x s) as [[[]| | |e] s1]; try done.
    + specialize (IH (S i) s1).
      destruct (for_enumerate (S i) l body s1) as [[[]| | |e] s2]; try done.
      by eapply rtc_l.
    + specialize (IH (S i) s1).
      destruct (for_enumerate (S i) l body s1) as [[[]| | |e] s2]; try done.
      by eapply rtc_l.
Qed.

(** The loop prints the opening line of every element, when the body
    does. *)
Lemma for_enumerate_prints {A} (line : nat → A → string)
    (body : nat → A → M G unit) (l : list A) (i : nat) (s : RunState G) :
  (∀ i x s, match body i x s with
            | (Val _, s') | (Continue, s') =>
                stdout s ++ [line i x] `prefix_of` stdout s'
            | _ => False
            end) →
  match for_enumerate i l body s with
  | (Val _, s') =>
      stdout s `prefix_of` stdout s' ∧
      ∀ k x, l !! k = Some x → line (i + k) x ∈ stdout s'
  | _ => False
  end.
Proof.
  intros Hbody. revert i s. induction l as [|x l IH]; intros i s; simpl.
  - split; [done|]. intros k x Hk. by rewrite lookup_nil in Hk.
  - specialize (Hbody i x s). specialize (IH (S i)).
    destruct (body i x s) as [[[]| | |e] s1]; try done.
    all: specialize (IH s1).
    all: destruct (for_enumerate (S i) l body s1) as [[[]| | |e] s2];
      try done.
    all: destruct IH as [Hpre IH]; split;
      [etrans; [|exact Hpre]; etrans; [|exact Hbody]; by apply prefix_app_r|].
    all: intros [|k] y Hk; simpl in Hk;
      [|replace (i + S k) with (S i + k) by lia; by apply IH].
    all: simplify_eq; rewrite Nat.add_0_r.
    all: eapply elem_of_prefix; [|exact Hpre].
    all: eapply elem_of_prefix; [|exact Hbody].
    all: apply elem_of_app; right; by apply list_elem_of_singleton.
Qed.

End one_file.

(** ** The bookkeeping of a run of steps *)

(** The batches of the successful writes, in order, and their rows. *)
Definition ok_frames (calls : list (ToFileCall G)) : list (GeoDataFrame G) :=
  call_frame <$> filter (λ c, call_ok c = true) calls.

Definition written_rows (s : RunState G) : list (Row G) :=
  mjoin (rows <$> ok_frames (to_file_calls s)).

Lemma ok_frames_app calls1 calls2 :
  ok_frames (calls1 ++ calls2) = ok_frames calls1 ++ ok_frames calls2.
Proof. unfold ok_frames. by rewrite filter_app, fmap_app. Qed.

Lemma ok_frames_snoc calls b path mode layer ok :
  ok_frames (calls ++ [call_record b path mode layer ok]) =
  ok_frames calls ++ (if ok then [b] else []).
Proof. rewrite ok_frames_app. f_equal. by destruct ok. Qed.

Section bookkeeping.
Variables (path layer : string) (B : RunState G → GeoDataFrame G → Prop).
Hypothesis B_nonempty : ∀ s b, B s b → rows b ≠ [].

(** The state at the start of the loop: no file at the path, nothing booked. *)
Definition fresh (s : RunState G) : Prop :=
  fs s !! path = None ∧
  processed_osm_ids s = ∅ ∧
  total_municipalities_saved s = 0 ∧
  to_file_calls s = [].

Record consistent (s : RunState G) : Prop := {
  c_file :
    fs s !! path =
      match ok_frames (to_file_calls s) with
      | [] => None
      | frames => Some {[layer := frames]}
      end;
  c_ids : processed_osm_ids s = list_to_set (index <$> written_rows s);
  c_total : total_municipalities_saved s = length (written_rows s);
  c_calls :
    Forall (λ c, call_path c = path ∧ call_driver c = "GPKG" ∧
                 call_layer c = layer ∧ rows (call_frame c) ≠ [])
      (to_file_calls s);
  c_modes :
    ∀ k c, to_file_calls s !! k = Some c →
      (call_mode c = mode_w ↔ ok_frames (take k (to_file_calls s)) = [])
}.

Lemma consistent_fresh s : fresh s → consistent s.
Proof.
  intros (Hfs&Hids&Htot&Hcalls). split; unfold written_rows;
    rewrite Hcalls; simpl; try done.
Qed.

(** The state in which the loop starts: the old file is gone, nothing is
    booked yet. *)
Definition setup (fs0 : gmap string (gpkg G)) (out : list string)
    : RunState G :=
  {| fs := delete path fs0; stdout := out; processed_osm_ids := ∅;
     total_municipalities_saved := 0; to_file_calls := [] |}.

Lemma setup_fresh fs0 out : fresh (setup fs0 out).
Proof. unfold fresh, setup; simpl. by rewrite lookup_delete_eq. Qed.

Lemma setup_printed fs0 (s : RunState G) :
  fs s = delete path fs0 → processed_osm_ids s = ∅ →
  total_municipalities_saved s = 0 → to_file_calls s = [] →
  only_printed (setup fs0 []) s.
Proof.
  intros. unfold only_printed, setup; simpl. repeat split; try done.
  apply prefix_nil.
Qed.

Lemma written_rows_nil s :
  consistent s → (written_rows s = [] ↔ ok_frames (to_file_calls s) = []).
Proof.
  intros Hc. pose proof (c_calls _ Hc) as Hcalls.
  unfold written_rows, ok_frames.
  induction Hcalls as [|c calls Hcall _ IH]; simpl; [done|].
  rewrite filter_cons. case_decide; simpl; [|done].
  destruct Hcall as (_&_&_&Hne). split; [|done].
  intros Happ. by apply app_eq_nil in Happ as [? _].
Qed.

Lemma mode_for_w s :
  consistent s →
  (mode_for (total_municipalities_saved s) = mode_w ↔
   ok_frames (to_file_calls s) = []).
Proof.
  intros Hc. rewrite <-written_rows_nil by done.
  rewrite (c_total _ Hc). unfold mode_for.
  destruct (written_rows s); simpl; try case_decide; split; try done;
    simpl in *; lia.
Qed.

Lemma consistent_call b ok s calls' :
  consistent s → rows b ≠ [] →
  calls' =
    to_file_calls s
    ++ [call_record b path (mode_for (total_municipalities_saved s)) layer ok] →
  Forall (λ c, call_path c = path ∧ call_driver c = "GPKG" ∧
               call_layer c = layer ∧ rows (call_frame c) ≠ []) calls' ∧
  ∀ k c, calls' !! k = Some c →
    (call_mode c = mode_w ↔ ok_frames (take k calls') = []).
Proof.
  intros Hc Hb ->. split.
  - apply Forall_app. split; [by apply (c_calls _ Hc)|].
    by apply Forall_singleton.
  - intros k c Hk. apply lookup_app_Some in Hk as [Hk|[Hlen Hk]].
    + rewrite take_app_le by (apply lookup_lt_Some in Hk; lia).
      by apply (c_modes _ Hc).
    + apply list_lookup_singleton_Some in Hk as [Hk <-].
      replace k with (length (to_file_calls s)) by lia.
      rewrite take_app_length. simpl. by apply mode_for_w.
Qed.

Lemma consistent_step s s' :
  consistent s → chunk_effect path layer B s s' → consistent s'.
Proof.
  intros Hc [(E1&E2&E3&E4&_)|b Hb (E1&E2&E3&E4&_)|b Hb (E1&E2&E3&E4&_)].
  - destruct Hc. split; unfold written_rows in *;
      rewrite ?E1, ?E2, ?E3, ?E4; done.
  - apply B_nonempty in Hb.
    destruct (consistent_call b false s _ Hc Hb E4) as [Hcalls Hmodes].
    assert (ok_frames (to_file_calls s') = ok_frames (to_file_calls s)) as Hok.
    { by rewrite E4, ok_frames_snoc, app_nil_r. }
    destruct Hc. split; unfold written_rows in *;
      rewrite ?Hok, ?E1, ?E2, ?E3; done.
  - pose proof (B_nonempty _ _ Hb) as Hne.
    destruct (consistent_call b true s _ Hc Hne E4) as [Hcalls Hmodes].
    assert (ok_frames (to_file_calls s') = ok_frames (to_file_calls s) ++ [b])
      as Hok.
    { by rewrite E4, ok_frames_snoc. }
    assert (written_rows s' = written_rows s ++ rows b) as Hrows.
    { unfold written_rows. rewrite Hok, fmap_app, join_app. simpl.
      by rewrite app_nil_r. }
    split; try done.
    + rewrite E1, lookup_insert_eq, Hok. f_equal.
      pose proof (mode_for_w s Hc) as Hmode.
      rewrite (c_file _ Hc).
      destruct (ok_frames (to_file_calls s)) as [|fr frames] eqn:Hfr.
      * destruct Hmode as [_ ->]; done.
      * destruct (mode_for _);
          [by destruct Hmode as [Hm _]; specialize (Hm eq_refl)|].
        simpl. rewrite lookup_singleton_eq. simpl.
        by rewrite insert_singleton_eq.
    + rewrite E2, Hrows, fmap_app, list_to_set_app_L.
      by rewrite (c_ids _ Hc).
    + rewrite E3, Hrows, length_app. by rewrite (c_total _ Hc).
Qed.

Lemma consistent_steps s s' :
  consistent s → rtc (chunk_effect path layer B) s s' → consistent s'.
Proof. intros Hc Hsteps. induction Hsteps; eauto using consistent_step. Qed.

(** Every batch handed to the writer satisfies what the batch predicate
    guarantees. *)
Lemma calls_steps (P : GeoDataFrame G → Prop) s s' :
  (∀ s b, B s b → P b) →
  Forall (λ c, P (call_frame c)) (to_file_calls s) →
  rtc (chunk_effect path layer B) s s' →
  Forall (λ c, P (call_frame c)) (to_file_calls s').
Proof.
  intros HP Hs Hsteps. induction Hsteps as [|s1 s2 s3 Hstep _ IH]; [done|].
  apply IH.
  destruct Hstep as [(_&_&_&E&_)|b Hb (_&_&_&E&_)|b Hb (_&_&_&E&_)];
    rewrite E; [done| |]; apply Forall_app; split; try done;
    apply Forall_singleton; simpl; eauto.
Qed.

(** No identifier is written twice, when no batch repeats an identifier or
    holds a known one. *)
Hypothesis B_new :
  ∀ s b, B s b →
    NoDup (index_of b) ∧ ∀ x, x ∈ index_of b → x ∉ processed_osm_ids s.

Lemma unique_step s s' :
  consistent s → NoDup (index <$> written_rows s) →
  chunk_effect path layer B s s' → NoDup (index <$> written_rows s').
Proof.
  intros Hc Hnd [(_&_&_&E4&_)|b Hb (_&_&_&E4&_)|b Hb (_&_&_&E4&_)];
    unfold written_rows in *; rewrite E4.
  - done.
  - by rewrite ok_frames_snoc, app_nil_r.
  - rewrite ok_frames_snoc.
    rewrite fmap_app, join_app, fmap_app. simpl. rewrite app_nil_r.
    destruct (B_new _ _ Hb) as [Hb1 Hb2].
    apply NoDup_app. split; [done|]. split; [|done].
    intros x Hx1 Hx2. apply (Hb2 x Hx2).
    rewrite (c_ids _ Hc). by apply elem_of_list_to_set.
Qed.

Lemma unique_steps s s' :
  consistent s → NoDup (index <$> written_rows s) →
  rtc (chunk_effect path layer B) s s' → NoDup (index <$> written_rows s').
Proof.
  intros Hc Hnd Hsteps. induction Hsteps as [|s1 s2 s3 Hstep _ IH]; [done|].
  apply IH; eauto using consistent_step, unique_step.
Qed.

Lemma container_written s :
  consistent s → container path layer s = written_rows s.
Proof.
  intros Hc. unfold container, written_rows. rewrite (c_file _ Hc).
  destruct (ok_frames (to_file_calls s)) as [|b frames]; [done|].
  by rewrite lookup_singleton_eq.
Qed.

Lemma run_consistent fs0 s' :
  rtc (chunk_effect path layer B) (setup fs0 []) s' → consistent s'.
Proof.
  intros Hrun. eapply consistent_steps; [|done].
  apply consistent_fresh, setup_fresh.
Qed.

Lemma run_unique fs0 s' :
  rtc (chunk_effect path layer B) (setup fs0 []) s' →
  NoDup (index <$> container path layer s').
Proof.
  intros Hrun. rewrite container_written by by eapply run_consistent.
  eapply unique_steps; [| |exact Hrun].
  - apply consistent_fresh, setup_fresh.
  - apply NoDup_nil_2.
Qed.

Lemma run_calls (P : GeoDataFrame G → Prop) fs0 s' :
  (∀ s b, B s b → P b) →
  rtc (chunk_effect path layer B) (setup fs0 []) s' →
  Forall (λ c, P (call_frame c)) (to_file_calls s').
Proof. intros HP Hrun. eapply calls_steps; [done| |done]. constructor. Qed.

(** What holds of every row of every batch holds of the rows of the file. *)
Lemma run_rows (P : Row G → Prop) fs0 s' :
  (∀ s b, B s b → Forall P (rows b)) →
  rtc (chunk_effect path layer B) (setup fs0 []) s' →
  Forall P (container path layer s').
Proof.
  intros HP Hrun. rewrite container_written by by eapply run_consistent.
  unfold written_rows, ok_frames. apply Forall_join.
  rewrite !Forall_fmap.
  apply Forall_forall. intros c [_ Hc]%list_elem_of_filter. simpl.
  eapply (run_calls (λ b, Forall P (rows b))) in Hrun; [|done].
  by eapply Forall_forall in Hrun.
Qed.

End bookkeeping.

(** The batches a chunk may write in state [s]: the cleaned download of some
    chunk, after the strict steps [pre] when there are any; [req] is what the
    strict steps need of the download. *)
Definition batch_of (w : World G) (tags : gmap string string)
    (req : GeoDataFrame G → Prop) (pre : GeoDataFrame G → GeoDataFrame G)
    (s : RunState G) (b : GeoDataFrame G) : Prop :=
  ∃ i polygon df,
    features_from_polygon w i polygon tags = Ok df ∧
    req df ∧
    b = cleaned (processed_osm_ids s) (pre df) ∧
    empty b = false ∧
    "geometry" ∈ columns df.

Lemma batch_of_looks_at_ids w tags req pre :
  looks_at_ids (batch_of w tags req pre).
Proof.
  intros s s' b Hids (i&polygon&df&?&?&?&?&?).
  exists i, polygon, df. by rewrite Hids.
Qed.

(** Every download has each identifier once (the index of an osmnx frame
    is the element type and id of the OSM elements it lists). *)
Definition unique_index (w : World G) : Prop :=
  ∀ i polygon tags df,
    features_from_polygon w i polygon tags = Ok df → NoDup (index_of df).

Lemma batch_of_nonempty w tags req pre s b :
  batch_of w tags req pre s b → rows b ≠ [].
Proof.
  intros (i&polygon&df&_&_&_&Hne&_). apply empty_false in Hne. apply Hne.
Qed.

Lemma batch_of_new w tags req pre s b :
  unique_index w →
  (∀ df, index_of (pre df) `sublist_of` index_of df) →
  batch_of w tags req pre s b →
  NoDup (index_of b) ∧ ∀ x, x ∈ index_of b → x ∉ processed_osm_ids s.
Proof.
  intros Hw Hpre (i&polygon&df&Hfetch&_&->&_&_). split.
  - apply cleaned_NoDup. eapply sublist_NoDup; [|apply Hpre]. by eapply Hw.
  - intros x. apply cleaned_new.
Qed.

(** The calls of [to_file] made between two states. *)
Definition new_calls (s s' : RunState G) : list (ToFileCall G) :=
  drop (length (to_file_calls s)) (to_file_calls s').



(** The rows accepted into the output between two states: those of the
    batches whose write succeeded. *)
Definition accepted (s s' : RunState G) : list (Row G) :=
  mjoin (rows <$> ok_frames (new_calls s s')).

Lemma chunk_effect_accepted path layer B s s' :
  chunk_effect path layer B s s' →
  processed_osm_ids s' =
    processed_osm_ids s ∪ list_to_set (index <$> accepted s s') ∧
  total_municipalities_saved s' =
    total_municipalities_saved s + length (accepted s s').
Proof.
  unfold accepted, new_calls.
  intros [(_&E2&E3&E&_)|b Hb (_&E2&E3&E&_)|b Hb (_&E2&E3&E&_)];
    rewrite E, E2, E3.
  - rewrite drop_all. simpl. split; [set_solver|lia].
  - rewrite drop_app_length. simpl. split; [set_solver|lia].
  - rewrite drop_app_length. simpl. by rewrite app_nil_r.
Qed.

End effects.

(** Running the statements of a block on a state, one by one. *)
Ltac run_block :=
  unfold geometry_type_isin, geometry_within, getitem_eq, tuple_geometry,
    iloc0, call;
  unfold active_geometry, read;
  unfold mbind, M_bind, bind, mret, M_ret, continue, return_, raise, ret,
    print;
  simpl.

(** Deciding the next test of a block. *)
Ltac step_if :=
  match goal with
  | |- context [decide ?P] => destruct (decide P); simpl
  | |- context [if negb (empty ?d) then _ else _] =>
      destruct (empty d) eqn:?; simpl
  | |- context [if empty ?d then _ else _] => destruct (empty d) eqn:?; simpl
  end.

Ltac close_printed :=
  unfold only_printed; simpl; repeat split; try done;
  rewrite <-?(assoc_L (++)); by apply prefix_app_r.

Section belgium_facts.
Context {G : Type} `{!Shapely G} (w : World G).
Import belgium_municipalities.

Lemma clean_chunk_spec name df s :
  match clean_chunk name df s with
  | (Val b, s') =>
      only_printed s s' ∧ b = cleaned (processed_osm_ids s) df ∧
      empty b = false ∧ "geometry" ∈ columns df
  | (Return, _) => False
  | (_, s') => only_printed s s'
  end.
Proof.
  unfold clean_chunk. run_block.
  repeat step_if; simplify_eq; try close_printed.
Qed.

Lemma clean_chunk_result name (df : GeoDataFrame G) (s : RunState G) :
  (clean_chunk name df s).1 =
  if empty df then Continue else tail_result (processed_osm_ids s) df.
Proof.
  unfold clean_chunk, tail_result. run_block.
  repeat step_if; simplify_eq; try done.
  all: unfold cleaned, polygons, columns_to_keep, columns_present, not_isin,
         mask in *; simpl in *; congruence.
Qed.

Lemma save_chunk_spec i b s :
  match save_chunk w i b s with
  | (Val _, s') => saved output_path layer b s s'
  | (Raise e, s') =>
      write_raised output_path layer b s s' ∧
      to_file_fault w i b (mode_for (total_municipalities_saved s)) = Some e
  | _ => False
  end.
Proof.
  unfold save_chunk, to_file, update_processed_osm_ids,
    add_total_municipalities_saved. run_block.
  fold (mode_for (total_municipalities_saved s)).
  destruct (to_file_fault w i b _) as [e|] eqn:Hfault; simpl.
  - split; [|done]. unfold write_raised; simpl.
    repeat split. by apply prefix_app_r.
  - unfold saved; simpl. repeat split.
    rewrite <-(assoc_L (++)). by apply prefix_app_r.
Qed.

Definition plain_batch : RunState G → GeoDataFrame G → Prop :=
  batch_of w tags (λ _, True) (λ df, df).

Lemma chunk_try_spec states i state name s :
  match chunk_try w states i state name s with
  | (Val _, s') => ∃ b, plain_batch s b ∧ saved output_path layer b s s'
  | (Continue, s') => only_printed s s'
  | (Raise e, s') =>
      only_printed s s' ∨
      ∃ b, plain_batch s b ∧ write_raised output_path layer b s s'
  | (Return, _) => False
  end.
Proof.
  unfold chunk_try. run_block.
  set (s1 := {| stdout := stdout s ++ [_] |}).
  assert (only_printed s s1) as Hs1.
  { unfold only_printed; simpl. repeat split. by apply prefix_app_r. }
  case_decide; simpl; [|by left].
  destruct (features_from_polygon w i (geometry state) tags)
    as [df|e] eqn:Hfetch; simpl; [|by left].
  pose proof (clean_chunk_spec name df s1) as Hclean.
  destruct (clean_chunk name df s1) as [[b| | |e] s2]; try done.
  - destruct Hclean as (Hs2&->&Hne&Hgeo).
    assert (plain_batch s (cleaned (processed_osm_ids s1) df)) as Hb.
    { exists i, (geometry state), df. repeat split; try done. }
    pose proof (save_chunk_spec i (cleaned (processed_osm_ids s1) df) s2)
      as Hsave.
    destruct (save_chunk w i _ s2) as [[[]| | |e] s3]; try done.
    + eexists; split; [exact Hb|].
      eapply saved_printed_l; [|done]. by eapply only_printed_trans.
    + right. eexists; split; [exact Hb|].
      eapply write_raised_printed_l; [|apply Hsave].
      by eapply only_printed_trans.
  - by eapply only_printed_trans.
  - left. by eapply only_printed_trans.
Qed.

Lemma chunk_body_spec states i state s :
  match chunk_body w states i state s with
  | (Val _, s') | (Continue, s') =>
      chunk_effect output_path layer plain_batch s s'
  | _ => False
  end.
Proof.
  unfold chunk_body, try_except. run_block.
  set (name := getattr_name states i state).
  set (s1 := {| stdout := stdout s ++ [_] |}).
  assert (only_printed s s1) as Hs1.
  { unfold only_printed; simpl. repeat split. by apply prefix_app_r. }
  pose proof (chunk_try_spec states i state name s1) as Htry.
  destruct (chunk_try w states i state name s1) as [[[]| | |e] s2];
    simpl; try done.
  - destruct Htry as (b&Hb&Hsaved).
    eapply chunk_effect_printed_l;
      [apply batch_of_looks_at_ids|done|by eapply effect_saved].
  - apply effect_none. by eapply only_printed_trans.
  - eapply chunk_effect_printed_l; [apply batch_of_looks_at_ids|done|].
    eapply chunk_effect_printed_r.
    + destruct Htry as [Hp|(b&Hb&Hr)];
        [by apply effect_none|by eapply effect_write_raised].
    + unfold only_printed; simpl. repeat split.
      rewrite <-(assoc_L (++)). by apply prefix_app_r.
Qed.

Lemma finalization_printed (s : RunState G) :
  finalization s = (Val tt, (finalization s).2) ∧
  only_printed s (finalization s).2.
Proof.
  unfold finalization. run_block. split; [done|].
  unfold only_printed; simpl. repeat split.
  rewrite <-!(assoc_L (++)). by apply prefix_app_r.
Qed.

Lemma main_spec fs0 :
  match main w (initial fs0) with
  | (Val _, s') | (Return, s') =>
      rtc (chunk_effect output_path layer plain_batch) (setup output_path fs0 []) s'
  | _ => False
  end.
Proof.
  unfold main, path_exists, remove, init_bookkeeping, try_except. run_block.
  assert (delete output_path fs0 =
          if bool_decide (is_Some (fs0 !! output_path))
          then delete output_path fs0 else fs0) as Hfs.
  { case_bool_decide as Hthere; [done|].
    apply delete_id. by apply eq_None_not_Some. }
  destruct (bool_decide (is_Some (fs0 !! output_path))); simpl;
    (destruct (features_from_place w place_name _) as [states|e]; simpl;
     [|by apply rtc_once, effect_none, setup_printed]).
  all: match goal with
       | |- context [for_enumerate 0 _ _ ?s] => set (s2 := s)
       end.
  all: pose proof (for_enumerate_rtc _ (chunk_body w states) (rows states) 0
         s2 (chunk_body_spec states)) as Hloop.
  all: destruct (for_enumerate 0 (rows states) _ s2) as [[[]| | |e] s3];
         try done.
  all: destruct (finalization_printed s3) as [-> Hfin]; simpl.
  all: eapply rtc_l; [by apply effect_none, (setup_printed output_path fs0 s2)|].
  all: etrans; [exact Hloop|]; apply rtc_once, effect_none, Hfin.
Qed.

Lemma chunk_try_raise states i state name s e s' :
  chunk_try w states i state name s = (Raise e, s') →
  processed_osm_ids s' = processed_osm_ids s ∧
  total_municipalities_saved s' = total_municipalities_saved s ∧
  stdout s `prefix_of` stdout s'.
Proof.
  intros Htry. pose proof (chunk_try_spec states i state name s) as Hspec.
  rewrite Htry in Hspec.
  destruct Hspec as [(_&?&?&_&?)|(b&_&(_&?&?&_&?))]; done.
Qed.

Lemma chunk_try_prints states i state name s :
  stdout s `prefix_of` stdout (chunk_try w states i state name s).2.
Proof.
  pose proof (chunk_try_spec states i state name s) as Hspec.
  destruct (chunk_try w states i state name s) as [[[]| | |e] s']; simpl;
    try done.
  - destruct Hspec as (b&_&(_&_&_&_&?)); done.
  - destruct Hspec as (_&_&_&_&?); done.
  - destruct Hspec as [(_&_&_&_&?)|(b&_&(_&_&_&_&?))]; done.
Qed.

Lemma chunk_body_prints states i state s :
  match chunk_body w states i state s with
  | (Val _, s') | (Continue, s') =>
      stdout s ++ [chunk_header states i state] `prefix_of` stdout s'
  | _ => False
  end.
Proof.
  pose proof (chunk_body_spec states i state s) as Hspec.
  unfold chunk_body, try_except in *. run_block. revert Hspec. run_block.
  set (s1 := {| stdout := stdout s ++ [_] |}).
  pose proof (chunk_try_prints states i state
                (getattr_name states i state) s1) as Hpre.
  destruct (chunk_try w states i state _ s1) as [[[]| | |e] s2];
    simpl in *; try done.
  intros _. etrans; [exact Hpre|].
  rewrite <-(assoc_L (++)). by apply prefix_app_r.
Qed.

(** The five lines of the final summary (lines 120 to 124). *)
Definition summary (total : nat) : list string :=
  [nl +:+ "-----------------------------------------------------";
   "Processing complete.";
   "Total unique municipalities saved: " +:+ pretty total;
   "Data saved to: " +:+ output_path;
   "-----------------------------------------------------"].

(** What is printed before the chunks are asked for. *)
Definition opening (fs0 : gmap string (gpkg G)) : list string :=
  (if bool_decide (is_Some (fs0 !! output_path))
   then ["Removed existing file: " +:+ output_path] else [])
  ++ ["Step 1: Downloading state polygons for " +:+ place_name
      +:+ " (admin_level=" +:+ chunk_admin_level +:+ ")..."].

Lemma main_fatal fs0 e :
  features_from_place w place_name chunk_tags = Err e →
  main w (initial fs0) =
    (Return,
     {| fs := delete output_path fs0;
        stdout := opening fs0
                  ++ ["Could not download state polygons. Error: " +:+ e];
        processed_osm_ids := ∅;
        total_municipalities_saved := 0;
        to_file_calls := [] |}).
Proof.
  intros Hfetch.
  unfold main, path_exists, remove, init_bookkeeping, try_except, opening.
  run_block. rewrite Hfetch.
  case_bool_decide as Hthere; simpl; [done|].
  rewrite delete_id; [done|]. by apply eq_None_not_Some.
Qed.

Lemma main_completes fs0 states :
  features_from_place w place_name chunk_tags = Ok states →
  ∃ s' out,
    main w (initial fs0) = (Val tt, s') ∧
    (∀ k state, rows states !! k = Some state →
       chunk_header states k state ∈ stdout s') ∧
    stdout s' = out ++ summary (total_municipalities_saved s').
Proof.
  intros Hfetch.
  unfold main, path_exists, remove, init_bookkeeping, try_except.
  run_block. rewrite Hfetch.
  destruct (bool_decide (is_Some (fs0 !! output_path))); simpl.
  all: match goal with
       | |- context [for_enumerate 0 _ _ ?s] => set (s2 := s)
       end.
  all: pose proof (for_enumerate_prints (chunk_header states)
         (chunk_body w states) (rows states) 0 s2
         (chunk_body_prints states)) as Hloop.
  all: destruct (for_enumerate 0 (rows states) _ s2) as [[[]| | |e] s3];
         try done.
  all: destruct Hloop as [_ Hloop].
  all: unfold finalization; run_block.
  all: eexists _, (stdout s3); split; [done|]; simpl; split.
  all: try (intros k state Hk; rewrite <-!(assoc_L (++));
            apply elem_of_app; left; by apply (Hloop k state)).
  all: by rewrite <-!(assoc_L (++)).
Qed.

Lemma chunk_body_skips states i state s e s2 :
  chunk_try w states i state (getattr_name states i state)
    (print (chunk_header states i state) s).2 = (Raise e, s2) →
  ∃ s', chunk_body w states i state s = (Val tt, s') ∧
        processed_osm_ids s' = processed_osm_ids s ∧
        total_municipalities_saved s' = total_municipalities_saved s ∧
        stdout s' =
          stdout s2
          ++ ["  An error occurred while processing "
              +:+ getattr_name states i state +:+ ": " +:+ e;
              "  Skipping this chunk."].
Proof.
  intros Htry. pose proof (chunk_try_raise _ _ _ _ _ _ _ Htry) as (E1&E2&_).
  unfold chunk_body, try_except. run_block. revert Htry. run_block.
  intros ->. simpl in *. eexists. split; [done|]. simpl.
  by rewrite <-(assoc_L (++)).
Qed.

(** Every run of the script is a chain of chunk steps from the setup. *)
Lemma belgium_run fs0 (P : RunState G → Prop) :
  (∀ s', rtc (chunk_effect output_path layer plain_batch)
           (setup output_path fs0 []) s' → P s') →
  P (main w (initial fs0)).2.
Proof.
  intros HP. pose proof (main_spec fs0) as Hrun.
  destruct (main w (initial fs0)) as [[[]| | |e] s']; try done; by apply HP.
Qed.

End belgium_facts.

Section test2_facts.
Context {G : Type} `{!Shapely G} (w : World G).
Import test2.

(** The strict steps that are switched on, as a function on the download,
    and what they need of it. *)
Definition strict_steps (level_on within_on : bool) (country_geom : G)
    (df : GeoDataFrame G) : GeoDataFrame G :=
  let df := if level_on then at_level target_admin_level df else df in
  if within_on then inside country_geom df else df.

Definition strict_needs (level_on : bool) (df : GeoDataFrame G) : Prop :=
  level_on = true → "admin_level" ∈ columns df.

Definition strict_batch (level_on within_on : bool) (country_geom : G)
    : RunState G → GeoDataFrame G → Prop :=
  batch_of w tags (strict_needs level_on)
    (strict_steps level_on within_on country_geom).

Lemma level_stage_spec (df : GeoDataFrame G) (s : RunState G) :
  match level_stage df s with
  | (Val b, s') =>
      only_printed s s' ∧ b = at_level target_admin_level df ∧
      "admin_level" ∈ columns df
  | (Raise e, s') => only_printed s s'
  | _ => False
  end.
Proof.
  unfold level_stage. run_block. case_decide; simpl; [|done].
  repeat split; try done. by apply prefix_app_r.
Qed.

Lemma containment_stage_spec country_geom (df : GeoDataFrame G)
    (s : RunState G) :
  match containment_stage country_geom df s with
  | (Val b, s') =>
      only_printed s s' ∧ b = inside country_geom df ∧
      "geometry" ∈ columns df
  | (Raise e, s') => only_printed s s'
  | _ => False
  end.
Proof.
  unfold containment_stage. run_block. case_decide; simpl; [|done].
  repeat split; try done. by apply prefix_app_r.
Qed.

(** The part of the cleaning that both scripts share in substance: drop the
    known identifiers, keep the polygons, keep the export columns. *)
Lemma clean_tail_spec (msg1 msg2 : nat → string) (msg3 : string)
    (df : GeoDataFrame G) (s : RunState G) :
  match
    (let initial_count := len df in
     ids ← read processed_osm_ids;
     let municipalities_chunk := not_isin ids df in
     (if decide (len municipalities_chunk < initial_count) then
        print (msg1 (initial_count - len municipalities_chunk))
      else mret tt) ;;
     (if empty municipalities_chunk then print msg3 ;; continue
      else mret tt) ;;
     municipalities_chunk ←
       geometry_type_isin ["Polygon"; "MultiPolygon"] municipalities_chunk;
     let columns_in_df :=
       columns_present ["name"; "geometry"; "admin_level"]
         municipalities_chunk in
     let municipalities_chunk :=
       getitem_columns columns_in_df municipalities_chunk in
     (if empty municipalities_chunk then
        print (msg2 0) ;; continue
      else mret tt) ;;
     mret municipalities_chunk : M G (GeoDataFrame G)) s
  with
  | (Val b, s') =>
      only_printed s s' ∧ b = cleaned (processed_osm_ids s) df ∧
      empty b = false ∧ "geometry" ∈ columns df
  | (Return, _) => False
  | (_, s') => only_printed s s'
  end.
Proof.
  run_block.
  repeat step_if; simplify_eq; try close_printed.
Qed.

Lemma clean_chunk_with_spec level_on within_on country_geom
    (df : GeoDataFrame G) (s : RunState G) :
  match clean_chunk_with level_on within_on country_geom df s with
  | (Val b, s') =>
      only_printed s s' ∧
      b = cleaned (processed_osm_ids s)
            (strict_steps level_on within_on country_geom df) ∧
      empty b = false ∧ "geometry" ∈ columns df ∧
      strict_needs level_on df
  | (Return, _) => False
  | (_, s') => only_printed s s'
  end.
Proof.
  unfold clean_chunk_with, strict_needs, strict_steps.
  unfold mbind at 1, M_bind at 1, bind at 1.
  destruct (empty df) eqn:Hdf.
  { run_block. unfold only_printed; simpl. repeat split.
    by apply prefix_app_r. }
  unfold mret at 1, M_ret at 1, ret at 1.
  unfold mbind at 1, M_bind at 1, bind at 1.
  assert (match (if level_on then level_stage df else mret df) s with
          | (Val b, s') =>
              only_printed s s' ∧
              b = (if level_on then at_level target_admin_level df else df) ∧
              (level_on = true → "admin_level" ∈ columns df)
          | (Raise e, s') => only_printed s s'
          | _ => False
          end) as H1.
  { destruct level_on; [|by split; [apply only_printed_refl|]].
    pose proof (level_stage_spec df s) as H1.
    destruct (level_stage df s) as [[b| | |e] s1]; naive_solver. }
  destruct ((if level_on then level_stage df else mret df) s)
    as [[df1| | |e] s1]; try done.
  destruct H1 as (Hs1&->&Hlvl).
  set (df1 := if level_on then _ else _) in *.
  unfold mbind at 1, M_bind at 1, bind at 1.
  assert (match (if within_on then containment_stage country_geom df1
                 else mret df1) s1 with
          | (Val b, s') =>
              only_printed s1 s' ∧
              b = (if within_on then inside country_geom df1 else df1)
          | (Raise e, s') => only_printed s1 s'
          | _ => False
          end) as H2.
  { destruct within_on; [|by split; [apply only_printed_refl|]].
    pose proof (containment_stage_spec country_geom df1 s1) as H2.
    destruct (containment_stage country_geom df1 s1) as [[b| | |e] s2];
      naive_solver. }
  destruct ((if within_on then containment_stage country_geom df1
             else mret df1) s1) as [[df2| | |e] s2]; try done.
  2: by eapply only_printed_trans.
  destruct H2 as (Hs2&->).
  set (df2 := if within_on then _ else _) in *.
  pose proof (clean_tail_spec
    (λ n, "  Removed " +:+ pretty n +:+ " duplicate OSM IDs from prior chunks.")
    (λ _, "  No valid polygons left after final cleaning.")
    "  No new, valid municipalities to save in this chunk." df2 s2) as H3.
  simpl in H3.
  match type of H3 with
  | match ?m with _ => _ end =>
      match goal with
      | |- match ?m' with _ => _ end => change m' with m
      end
  end.
  assert (only_printed s s2) as Hs by by eapply only_printed_trans.
  assert (columns df2 = columns df) as Hcols.
  { unfold df2, df1. by destruct within_on, level_on. }
  pose proof Hs as (_&Hids&_).
  match type of H3 with
  | match ?m with _ => _ end => destruct m as [[b| | |e] s3]
  end; try done.
  - destruct H3 as (Hs3&->&Hne&Hgeo). rewrite Hids, Hcols in *.
    split; [by eapply only_printed_trans|]. by repeat split.
  - by eapply only_printed_trans.
  - by eapply only_printed_trans.
Qed.

(** The outcome of the cleaning of the strict script, with its switches. *)
Definition strict_result (level_on within_on : bool) (country_geom : G)
    (ids : gset osm_id) (df : GeoDataFrame G) : ctl (GeoDataFrame G) :=
  if empty df then Continue
  else if level_on && negb (bool_decide ("admin_level" ∈ columns df)) then
    Raise "'admin_level'"
  else if within_on && negb (bool_decide ("geometry" ∈ columns df)) then
    Raise "the active geometry column to use has not been set"
  else tail_result ids (strict_steps level_on within_on country_geom df).

Lemma clean_chunk_with_result level_on within_on country_geom
    (df : GeoDataFrame G) (s : RunState G) :
  (clean_chunk_with level_on within_on country_geom df s).1 =
  strict_result level_on within_on country_geom (processed_osm_ids s) df.
Proof.
  unfold clean_chunk_with, level_stage, containment_stage, strict_result,
    tail_result, strict_steps.
  destruct level_on, within_on; run_block.
  all: repeat (step_if || case_bool_decide); simplify_eq; try done.
  all: unfold cleaned, polygons, columns_to_keep, columns_present, not_isin,
         inside, at_level, mask in *; simpl in *; congruence.
Qed.

Lemma test2_save_chunk_spec i b s :
  match save_chunk w i b s with
  | (Val _, s') => saved output_path layer b s s'
  | (Raise e, s') =>
      write_raised output_path layer b s s' ∧
      to_file_fault w i b (mode_for (total_municipalities_saved s)) = Some e
  | _ => False
  end.
Proof.
  unfold save_chunk, to_file, update_processed_osm_ids,
    add_total_municipalities_saved. run_block.
  fold (mode_for (total_municipalities_saved s)).
  destruct (to_file_fault w i b _) as [e|] eqn:Hfault; simpl.
  - split; [|done]. unfold write_raised; simpl.
    repeat split. by apply prefix_app_r.
  - unfold saved; simpl. repeat split.
    rewrite <-(assoc_L (++)). by apply prefix_app_r.
Qed.

Lemma chunk_try_with_spec level_on within_on country_geom states i state
    name s :
  match chunk_try_with w level_on within_on country_geom states i state
          name s with
  | (Val _, s') =>
      ∃ b, strict_batch level_on within_on country_geom s b ∧
           saved output_path layer b s s'
  | (Continue, s') => only_printed s s'
  | (Raise e, s') =>
      only_printed s s' ∨
      ∃ b, strict_batch level_on within_on country_geom s b ∧
           write_raised output_path layer b s s'
  | (Return, _) => False
  end.
Proof.
  unfold chunk_try_with. run_block.
  set (s1 := {| stdout := stdout s ++ [_] |}).
  assert (only_printed s s1) as Hs1.
  { unfold only_printed; simpl. repeat split. by apply prefix_app_r. }
  case_decide; simpl; [|by left].
  destruct (features_from_polygon w i (geometry state) tags)
    as [df|e] eqn:Hfetch; simpl; [|by left].
  pose proof (clean_chunk_with_spec level_on within_on country_geom df s1)
    as Hclean.
  destruct (clean_chunk_with level_on within_on country_geom df s1)
    as [[b| | |e] s2]; try done.
  - destruct Hclean as (Hs2&->&Hne&Hgeo&Hneeds).
    set (b := cleaned (processed_osm_ids s1) _) in *.
    assert (strict_batch level_on within_on country_geom s b) as Hb.
    { by exists i, (geometry state), df. }
    pose proof (test2_save_chunk_spec i b s2) as Hsave.
    destruct (save_chunk w i b s2) as [[[]| | |e] s3]; try done.
    + eexists; split; [exact Hb|].
      eapply saved_printed_l; [|done]. by eapply only_printed_trans.
    + right. eexists; split; [exact Hb|].
      eapply write_raised_printed_l; [|apply Hsave].
      by eapply only_printed_trans.
  - by eapply only_printed_trans.
  - left. by eapply only_printed_trans.
Qed.

Lemma chunk_body_with_spec level_on within_on country_geom states i state s :
  match chunk_body_with w level_on within_on country_geom states i state s
  with
  | (Val _, s') | (Continue, s') =>
      chunk_effect output_path layer
        (strict_batch level_on within_on country_geom) s s'
  | _ => False
  end.
Proof.
  unfold chunk_body_with, try_except. run_block.
  set (name := getattr_name states i state).
  set (s1 := {| stdout := stdout s ++ [_] |}).
  assert (only_printed s s1) as Hs1.
  { unfold only_printed; simpl. repeat split. by apply prefix_app_r. }
  pose proof (chunk_try_with_spec level_on within_on country_geom states i
                state name s1) as Htry.
  destruct (chunk_try_with w level_on within_on country_geom states i state
              name s1) as [[[]| | |e] s2]; simpl; try done.
  - destruct Htry as (b&Hb&Hsaved).
    eapply chunk_effect_printed_l;
      [apply batch_of_looks_at_ids|done|by eapply effect_saved].
  - apply effect_none. by eapply only_printed_trans.
  - eapply chunk_effect_printed_l; [apply batch_of_looks_at_ids|done|].
    eapply chunk_effect_printed_r.
    + destruct Htry as [Hp|(b&Hb&Hr)];
        [by apply effect_none|by eapply effect_write_raised].
    + unfold only_printed; simpl. repeat split.
      rewrite <-(assoc_L (++)). by apply prefix_app_r.
Qed.

Lemma test2_finalization_printed (s : RunState G) :
  finalization s = (Val tt, (finalization s).2) ∧
  only_printed s (finalization s).2.
Proof.
  unfold finalization. run_block. split; [done|].
  unfold only_printed; simpl. repeat split.
  rewrite <-!(assoc_L (++)). by apply prefix_app_r.
Qed.

Lemma main_with_spec level_on within_on fs0 :
  match main_with w level_on within_on (initial fs0) with
  | (Val _, s') | (Return, s') =>
      only_printed (setup output_path fs0 []) s' ∨
      ∃ country_geom rest,
        geocode_to_gdf w place_name = Ok (country_geom :: rest) ∧
        rtc (chunk_effect output_path layer
               (strict_batch level_on within_on country_geom))
          (setup output_path fs0 []) s'
  | _ => False
  end.
Proof.
  unfold main_with, path_exists, remove, init_bookkeeping, try_except.
  run_block.
  assert (delete output_path fs0 =
          if bool_decide (is_Some (fs0 !! output_path))
          then delete output_path fs0 else fs0) as Hfs.
  { case_bool_decide as Hthere; [done|].
    apply delete_id. by apply eq_None_not_Some. }
  destruct (bool_decide (is_Some (fs0 !! output_path))); simpl;
    (destruct (geocode_to_gdf w place_name) as [[|country_geom rest]|e];
     simpl; [by left; apply setup_printed| |by left; apply setup_printed]);
    (destruct (features_from_place w place_name _) as [states|e]; simpl;
     [|by left; apply setup_printed]).
  all: match goal with
       | |- context [for_enumerate 0 _ _ ?s] => set (s2 := s)
       end.
  all: pose proof (for_enumerate_rtc _
         (chunk_body_with w level_on within_on country_geom states)
         (rows states) 0 s2
         (chunk_body_with_spec level_on within_on country_geom states))
         as Hloop.
  all: destruct (for_enumerate 0 (rows states) _ s2) as [[[]| | |e] s3];
         try done.
  all: destruct (test2_finalization_printed s3) as [-> Hfin]; simpl.
  all: right; exists country_geom, rest; split; [done|].
  all: eapply rtc_l; [by apply effect_none, (setup_printed output_path fs0 s2)|].
  all: etrans; [exact Hloop|]; apply rtc_once, effect_none, Hfin.
Qed.

Lemma chunk_try_with_raise level_on within_on country_geom states i state
    name s e s' :
  chunk_try_with w level_on within_on country_geom states i state name s
    = (Raise e, s') →
  processed_osm_ids s' = processed_osm_ids s ∧
  total_municipalities_saved s' = total_municipalities_saved s ∧
  stdout s `prefix_of` stdout s'.
Proof.
  intros Htry.
  pose proof (chunk_try_with_spec level_on within_on country_geom states i
                state name s) as Hspec.
  rewrite Htry in Hspec.
  destruct Hspec as [(_&?&?&_&?)|(b&_&(_&?&?&_&?))]; done.
Qed.

Lemma chunk_try_with_prints level_on within_on country_geom states i state
    name s :
  stdout s `prefix_of`
  stdout (chunk_try_with w level_on within_on country_geom states i state
            name s).2.
Proof.
  pose proof (chunk_try_with_spec level_on within_on country_geom states i
                state name s) as Hspec.
  destruct (chunk_try_with w level_on within_on country_geom states i state
              name s) as [[[]| | |e] s']; simpl; try done.
  - destruct Hspec as (b&_&(_&_&_&_&?)); done.
  - destruct Hspec as (_&_&_&_&?); done.
  - destruct Hspec as [(_&_&_&_&?)|(b&_&(_&_&_&_&?))]; done.
Qed.

Lemma chunk_body_with_prints level_on within_on country_geom states i
    state s :
  match chunk_body_with w level_on within_on country_geom states i state s
  with
  | (Val _, s') | (Continue, s') =>
      stdout s ++ [chunk_header states i state] `prefix_of` stdout s'
  | _ => False
  end.
Proof.
  pose proof (chunk_body_with_spec level_on within_on country_geom states i
                state s) as Hspec.
  unfold chunk_body_with, try_except in *. run_block. revert Hspec. run_block.
  set (s1 := {| stdout := stdout s ++ [_] |}).
  pose proof (chunk_try_with_prints level_on within_on country_geom states i
                state (getattr_name states i state) s1) as Hpre.
  destruct (chunk_try_with w level_on within_on country_geom states i state
              _ s1) as [[[]| | |e] s2]; simpl in *; try done.
  intros _. etrans; [exact Hpre|].
  rewrite <-(assoc_L (++)). by apply prefix_app_r.
Qed.

Lemma chunk_body_with_skips level_on within_on country_geom states i state
    s e s2 :
  chunk_try_with w level_on within_on country_geom states i state
    (getattr_name states i state)
    (print (chunk_header states i state) s).2 = (Raise e, s2) →
  ∃ s', chunk_body_with w level_on within_on country_geom states i state s
          = (Val tt, s') ∧
        processed_osm_ids s' = processed_osm_ids s ∧
        total_municipalities_saved s' = total_municipalities_saved s ∧
        stdout s' =
          stdout s2
          ++ ["  ❌ An error occurred while processing "
              +:+ getattr_name states i state +:+ ": " +:+ e;
              "  Skipping this chunk."].
Proof.
  intros Htry.
  pose proof (chunk_try_with_raise _ _ _ _ _ _ _ _ _ _ Htry) as (E1&E2&_).
  unfold chunk_body_with, try_except. run_block. revert Htry. run_block.
  intros ->. simpl in *. eexists. split; [done|]. simpl.
  by rewrite <-(assoc_L (++)).
Qed.

(** The five lines of the final summary (lines 132 to 136). *)
Definition test2_summary (total : nat) : list string :=
  [nl +:+ "-----------------------------------------------------";
   "🎉 Processing complete.";
   "Total unique municipalities saved: " +:+ pretty total;
   "Data saved to: " +:+ output_path;
   "-----------------------------------------------------"].

(** What is printed before the country boundary is asked for. *)
Definition test2_opening (fs0 : gmap string (gpkg G)) : list string :=
  (if bool_decide (is_Some (fs0 !! output_path))
   then ["Removed existing file: " +:+ output_path] else [])
  ++ ["Step 1: Downloading main country boundary for spatial filtering..."].

(** The answer of the geocoder gives no country geometry: the call raised,
    or its frame has no row. *)
Definition no_country_geom (e : string) : Prop :=
  geocode_to_gdf w place_name = Err e ∨
  (geocode_to_gdf w place_name = Ok [] ∧
   e = "single positional indexer is out-of-bounds").

Lemma main_with_fatal_boundary level_on within_on fs0 e :
  no_country_geom e →
  main_with w level_on within_on (initial fs0) =
    (Return,
     {| fs := delete output_path fs0;
        stdout :=
          test2_opening fs0
          ++ ["❌ Could not download country boundary. Cannot proceed. Error: "
              +:+ e];
        processed_osm_ids := ∅;
        total_municipalities_saved := 0;
        to_file_calls := [] |}).
Proof.
  intros Hgeo.
  unfold main_with, path_exists, remove, init_bookkeeping, try_except,
    test2_opening.
  run_block.
  assert (delete output_path fs0 =
          if bool_decide (is_Some (fs0 !! output_path))
          then delete output_path fs0 else fs0) as Hfs.
  { case_bool_decide as Hthere; [done|].
    apply delete_id. by apply eq_None_not_Some. }
  destruct Hgeo as [->|[-> ->]]; simpl.
  all: destruct (bool_decide (is_Some (fs0 !! output_path))); simpl;
    by rewrite ?Hfs.
Qed.

Lemma main_with_fatal_states level_on within_on fs0 country_geom rest e :
  geocode_to_gdf w place_name = Ok (country_geom :: rest) →
  features_from_place w place_name chunk_tags = Err e →
  main_with w level_on within_on (initial fs0) =
    (Return,
     {| fs := delete output_path fs0;
        stdout :=
          test2_opening fs0
          ++ ["✔ Main country boundary downloaded.";
              "Step 2: Downloading state polygons for " +:+ place_name
              +:+ " (admin_level=" +:+ chunk_admin_level +:+ ")...";
              "❌ Could not download state polygons. Cannot proceed. Error: "
              +:+ e];
        processed_osm_ids := ∅;
        total_municipalities_saved := 0;
        to_file_calls := [] |}).
Proof.
  intros Hgeo Hfetch.
  unfold main_with, path_exists, remove, init_bookkeeping, try_except,
    test2_opening.
  run_block. rewrite Hgeo. simpl. rewrite Hfetch. simpl.
  assert (delete output_path fs0 =
          if bool_decide (is_Some (fs0 !! output_path))
          then delete output_path fs0 else fs0) as Hfs.
  { case_bool_decide as Hthere; [done|].
    apply delete_id. by apply eq_None_not_Some. }
  destruct (bool_decide (is_Some (fs0 !! output_path))); simpl;
    by rewrite ?Hfs.
Qed.

Lemma main_with_completes level_on within_on fs0 country_geom rest states :
  geocode_to_gdf w place_name = Ok (country_geom :: rest) →
  features_from_place w place_name chunk_tags = Ok states →
  ∃ s' out,
    main_with w level_on within_on (initial fs0) = (Val tt, s') ∧
    (∀ k state, rows states !! k = Some state →
       chunk_header states k state ∈ stdout s') ∧
    stdout s' = out ++ test2_summary (total_municipalities_saved s').
Proof.
  intros Hgeo Hfetch.
  unfold main_with, path_exists, remove, init_bookkeeping, try_except.
  run_block. rewrite Hgeo. simpl. rewrite Hfetch. simpl.
  destruct (bool_decide (is_Some (fs0 !! output_path))); simpl.
  all: match goal with
       | |- context [for_enumerate 0 _ _ ?s] => set (s2 := s)
       end.
  all: pose proof (for_enumerate_prints (chunk_header states)
         (chunk_body_with w level_on within_on country_geom states)
         (rows states) 0 s2
         (chunk_body_with_prints level_on within_on country_geom states))
         as Hloop.
  all: destruct (for_enumerate 0 (rows states) _ s2) as [[[]| | |e] s3];
         try done.
  all: destruct Hloop as [_ Hloop].
  all: unfold finalization; run_block.
  all: eexists _, (stdout s3); split; [done|]; simpl; split.
  all: try (intros k state Hk; rewrite <-!(assoc_L (++));
            apply elem_of_app; left; by apply (Hloop k state)).
  all: by rewrite <-!(assoc_L (++)).
Qed.

(** Every run of the script either stops before the loop, having only
    printed, or is a chain of chunk steps from the setup, with the country
    geometry that the geocoder gave. *)
Lemma test2_run level_on within_on fs0 (P : RunState G → Prop) :
  (∀ s', only_printed (setup output_path fs0 []) s' → P s') →
  (∀ country_geom rest s',
     geocode_to_gdf w place_name = Ok (country_geom :: rest) →
     rtc (chunk_effect output_path layer
            (strict_batch level_on within_on country_geom))
       (setup output_path fs0 []) s' → P s') →
  P (main_with w level_on within_on (initial fs0)).2.
Proof.
  intros HP1 HP2. pose proof (main_with_spec level_on within_on fs0) as Hrun.
  destruct (main_with w level_on within_on (initial fs0))
    as [[[]| | |e] s']; try done; simpl.
  all: destruct Hrun as [Hp|(country_geom&rest&Hgeo&Hrun)]; eauto.
Qed.

End test2_facts.

(** * The properties of the pipeline *)

Section properties.
Context {G : Type} `{!Shapely G}.

Lemma strict_steps_sublist level_on within_on country_geom
    (df : GeoDataFrame G) :
  index_of (strict_steps level_on within_on country_geom df)
  `sublist_of` index_of df.
Proof.
  unfold strict_steps, inside, at_level.
  destruct level_on, within_on; try done;
    repeat (etrans; [apply mask_sublist|]); done.
Qed.

(** What the strict steps leave in a batch. *)
Lemma strict_batch_level (w : World G) within_on country_geom s b :
  strict_batch w true within_on country_geom s b →
  Forall (λ r, attrs r !! "admin_level" = Some test2.target_admin_level)
    (rows b).
Proof.
  intros (i&polygon&df&_&Hneeds&->&_). apply Forall_forall. intros r Hr.
  apply elem_of_cleaned in Hr as (r0&->&Hr0&_).
  rewrite project_row_lookup.
  - unfold strict_steps, inside, at_level, mask in Hr0.
    destruct within_on; simpl in Hr0;
      repeat (apply list_elem_of_filter in Hr0 as [? Hr0]); done.
  - unfold columns_present, columns_to_keep.
    apply list_elem_of_filter. split; [|set_solver].
    unfold strict_steps. destruct within_on; by apply Hneeds.
Qed.

Lemma strict_batch_within (w : World G) level_on country_geom s b :
  strict_batch w level_on true country_geom s b →
  Forall (λ r, within (geometry r) country_geom = true) (rows b).
Proof.
  intros (i&polygon&df&_&_&->&_). apply Forall_forall. intros r Hr.
  apply elem_of_cleaned in Hr as (r0&->&Hr0&_). simpl.
  unfold strict_steps, inside, mask in Hr0. simpl in Hr0.
  by apply list_elem_of_filter in Hr0 as [? _].
Qed.

Lemma batch_of_columns (w : World G) tags req pre s b :
  (∀ df, columns (pre df) = columns df) →
  batch_of w tags req pre s b →
  ∃ i polygon df,
    features_from_polygon w i polygon tags = Ok df ∧ req df ∧
    columns b = columns_present columns_to_keep df ∧
    "geometry" ∈ columns b.
Proof.
  intros Hpre (i&polygon&df&Hfetch&Hreq&->&_&Hgeo).
  exists i, polygon, df. repeat split; try done.
  - unfold cleaned, columns_present; simpl. by rewrite Hpre.
  - unfold cleaned, columns_present, columns_to_keep; simpl. rewrite Hpre.
    apply list_elem_of_filter. split; [done|set_solver].
Qed.

Lemma strict_steps_columns level_on within_on country_geom
    (df : GeoDataFrame G) :
  columns (strict_steps level_on within_on country_geom df) = columns df.
Proof. unfold strict_steps. by destruct level_on, within_on. Qed.

Lemma container_setup path layer fs0 (s : RunState G) :
  only_printed (setup path fs0 []) s →
  container path layer s = [] ∧ to_file_calls s = [].
Proof.
  intros (E1&_&_&E4&_). unfold container. rewrite E1, E4. simpl.
  by rewrite lookup_delete_eq.
Qed.

(** C2, for the script with the strict cleaning.  Every feature in the
    layer of the output file of [test2.py] has the [admin_level] cell equal to
    the target level, as a string; so has every feature of every batch the
    script hands to the writer.  A downloaded feature with another level, or
    with no level, is therefore never written. *)
Theorem strict_level_of_written_features (w : World G)
    (fs0 : gmap string (gpkg G)) :
  let s' := (test2.main w (initial fs0)).2 in
  let at_target (r : Row G) :=
    attrs r !! "admin_level" = Some test2.target_admin_level in
  Forall at_target (container test2.output_path test2.layer s') ∧
  Forall (λ c, Forall at_target (rows (call_frame c))) (to_file_calls s').
Proof.
  simpl. unfold test2.main. apply test2_run.
  - intros s' Hp. apply container_setup with (layer := test2.layer) in Hp.
    destruct Hp as [-> ->]. by split.
  - intros country_geom rest s' _ Hrun. split.
    + eapply run_rows; [apply batch_of_nonempty| |exact Hrun].
      apply strict_batch_level.
    + eapply (run_calls _ _ _ (λ b, Forall _ (rows b)));
        [apply strict_batch_level|exact Hrun].
Qed.

(** C4.  In the script with the strict cleaning, every feature in the layer
    of the output file has a geometry for which [within] the country
    geometry holds, the country geometry being the first geometry of the
    answer of the geocoder; so has every feature of every batch handed to the
    writer. *)
Theorem strict_containment_of_written_features (w : World G)
    (fs0 : gmap string (gpkg G)) :
  let s' := (test2.main w (initial fs0)).2 in
  let contained (r : Row G) :=
    ∃ country_geom rest,
      geocode_to_gdf w test2.place_name = Ok (country_geom :: rest) ∧
      within (geometry r) country_geom = true in
  Forall contained (container test2.output_path test2.layer s') ∧
  Forall (λ c, Forall contained (rows (call_frame c))) (to_file_calls s').
Proof.
  simpl. unfold test2.main. apply test2_run.
  - intros s' Hp. apply container_setup with (layer := test2.layer) in Hp.
    destruct Hp as [-> ->]. by split.
  - intros country_geom rest s' Hgeo Hrun.
    assert (∀ s b, strict_batch w true true country_geom s b →
      Forall (λ r, ∃ country_geom rest,
        geocode_to_gdf w test2.place_name = Ok (country_geom :: rest) ∧
        within (geometry r) country_geom = true) (rows b)) as Hb.
    { intros s b Hb. eapply Forall_impl; [by eapply strict_batch_within|].
      simpl. eauto. }
    split.
    + eapply run_rows; [apply batch_of_nonempty|exact Hb|exact Hrun].
    + eapply (run_calls _ _ _ (λ b, Forall _ (rows b)));
        [exact Hb|exact Hrun].
Qed.

(** C8, as the scripts have it.  Every batch handed to the writer carries
    exactly those of the columns [name], [geometry], [admin_level] that the
    download of its chunk has, in this order, and no other column;
    [geometry] is always among them, and in the script with the strict
    cleaning [admin_level] is too. *)
Theorem columns_of_written_batches (w : World G)
    (fs0 : gmap string (gpkg G)) :
  Forall (λ c,
      ∃ i polygon df,
        features_from_polygon w i polygon belgium_municipalities.tags = Ok df ∧
        columns (call_frame c) =
          filter (λ col, col ∈ columns df) ["name"; "geometry"; "admin_level"] ∧
        "geometry" ∈ columns (call_frame c))
    (to_file_calls (belgium_municipalities.main w (initial fs0)).2) ∧
  Forall (λ c,
      ∃ i polygon df,
        features_from_polygon w i polygon test2.tags = Ok df ∧
        columns (call_frame c) =
          filter (λ col, col ∈ columns df) ["name"; "geometry"; "admin_level"] ∧
        "geometry" ∈ columns (call_frame c) ∧
        "admin_level" ∈ columns (call_frame c))
    (to_file_calls (test2.main w (initial fs0)).2).
Proof.
  split.
  - apply belgium_run. intros s' Hrun.
    eapply (run_calls _ _ _ (λ b, ∃ i polygon df,
      features_from_polygon w i polygon belgium_municipalities.tags = Ok df ∧
      columns b =
        filter (λ col, col ∈ columns df) ["name"; "geometry"; "admin_level"] ∧
      "geometry" ∈ columns b)); [|exact Hrun].
    intros s b Hb. apply batch_of_columns in Hb; [|done].
    destruct Hb as (i&polygon&df&?&_&?&?). by exists i, polygon, df.
  - unfold test2.main. apply test2_run.
    + intros s' Hp. apply container_setup with (layer := test2.layer) in Hp.
      destruct Hp as [_ ->]. constructor.
    + intros country_geom rest s' _ Hrun.
      eapply (run_calls _ _ _ (λ b, ∃ i polygon df,
        features_from_polygon w i polygon test2.tags = Ok df ∧
        columns b =
          filter (λ col, col ∈ columns df)
            ["name"; "geometry"; "admin_level"] ∧
        "geometry" ∈ columns b ∧ "admin_level" ∈ columns b)); [|exact Hrun].
      intros s b Hb. apply batch_of_columns in Hb;
        [|apply strict_steps_columns].
      destruct Hb as (i&polygon&df&?&Hneeds&Hcols&?).
      exists i, polygon, df. repeat split; try done.
      rewrite Hcols. apply list_elem_of_filter.
      split; [by apply Hneeds|set_solver].
Qed.

Lemma step_grows path layer (B : RunState G → GeoDataFrame G → Prop) s s' :
  chunk_effect path layer B s s' →
  processed_osm_ids s ⊆ processed_osm_ids s' ∧
  size (processed_osm_ids s) ≤ size (processed_osm_ids s') ∧
  processed_osm_ids s' =
    processed_osm_ids s ∪ list_to_set (index <$> accepted s s') ∧
  total_municipalities_saved s' =
    total_municipalities_saved s + length (accepted s s').
Proof.
  intros Hstep. destruct (chunk_effect_accepted _ _ _ _ _ Hstep) as [E1 E2].
  assert (processed_osm_ids s ⊆ processed_osm_ids s') by set_solver.
  repeat split; try done. by apply subseteq_size.
Qed.

Lemma run_booked path layer (B : RunState G → GeoDataFrame G → Prop) fs0 s' :
  (∀ s b, B s b → rows b ≠ []) →
  rtc (chunk_effect path layer B) (setup path fs0 []) s' →
  processed_osm_ids s' = list_to_set (index <$> container path layer s') ∧
  total_municipalities_saved s' = length (container path layer s').
Proof.
  intros HB Hrun. pose proof (run_consistent _ _ _ HB _ _ Hrun) as Hc.
  rewrite (container_written _ _ _ Hc). split; apply Hc.
Qed.

(** A set made of a list is no larger than the list. *)
Lemma size_list_to_set_le (l : list osm_id) :
  size (list_to_set l : gset osm_id) ≤ length l.
Proof.
  induction l as [|x l IH].
  - rewrite list_to_set_nil, size_empty. simpl. lia.
  - rewrite list_to_set_cons, size_union_alt, size_singleton. simpl.
    assert (size (list_to_set l ∖ {[x]} : gset osm_id)
            ≤ size (list_to_set l : gset osm_id))
      by (apply subseteq_size; set_solver).
    lia.
Qed.

(** C5.  The set of processed identifiers only grows: the processing of a
    chunk, from any state, leaves a set that includes the one before, of at
    least its size; it adds to the set exactly the identifiers of the rows
    accepted into the output by that chunk, and to the running total their
    number.  At the end of a run the set is the set of the identifiers in the
    layer of the output file and its size is at most the running total; when
    no download lists an identifier twice, the running total is the size of
    the set. *)
Theorem dedup_set_grows (w : World G) (fs0 : gmap string (gpkg G)) :
  let grows (s s' : RunState G) :=
    processed_osm_ids s ⊆ processed_osm_ids s' ∧
    size (processed_osm_ids s) ≤ size (processed_osm_ids s') ∧
    processed_osm_ids s' =
      processed_osm_ids s ∪ list_to_set (index <$> accepted s s') ∧
    total_municipalities_saved s' =
      total_municipalities_saved s + length (accepted s s') in
  let at_end path layer (s' : RunState G) :=
    processed_osm_ids s' = list_to_set (index <$> container path layer s') ∧
    size (processed_osm_ids s') ≤ total_municipalities_saved s' ∧
    (unique_index w →
     total_municipalities_saved s' = size (processed_osm_ids s')) in
  (∀ states i state s,
     grows s (belgium_municipalities.chunk_body w states i state s).2) ∧
  (∀ country_geom states i state s,
     grows s (test2.chunk_body w country_geom states i state s).2) ∧
  at_end belgium_municipalities.output_path belgium_municipalities.layer
    (belgium_municipalities.main w (initial fs0)).2 ∧
  at_end test2.output_path test2.layer (test2.main w (initial fs0)).2.
Proof.
  simpl. split; [|split; [|split]].
  - intros states i state s.
    pose proof (chunk_body_spec w states i state s) as Hstep.
    destruct (belgium_municipalities.chunk_body w states i state s)
      as [[[]| | |e] s']; try done; simpl.
    all: by eapply step_grows.
  - intros country_geom states i state s.
    pose proof (chunk_body_with_spec w true true country_geom states i state s)
      as Hstep. unfold test2.chunk_body.
    destruct (test2.chunk_body_with w true true country_geom states i state s)
      as [[[]| | |e] s']; try done; simpl.
    all: by eapply step_grows.
  - apply belgium_run. intros s' Hrun.
    destruct (run_booked _ _ _ fs0 s' (batch_of_nonempty _ _ _ _) Hrun)
      as [Hids Htotal].
    split; [done|]. rewrite Htotal, Hids. split.
    { rewrite <-(length_fmap index). apply size_list_to_set_le. }
    intros Hw. rewrite size_list_to_set, length_fmap; [done|].
    eapply run_unique; [apply batch_of_nonempty| |exact Hrun].
    intros s b Hb. eapply batch_of_new; [done| |exact Hb]. done.
  - unfold test2.main. apply test2_run.
    + intros s' Hp.
      pose proof (container_setup _ test2.layer _ _ Hp) as [-> _].
      destruct Hp as (_&->&->&_). unfold setup.
      cbn [processed_osm_ids total_municipalities_saved fmap list_fmap].
      split; [done|]. rewrite size_empty. split; [lia|done].
    + intros country_geom rest s' _ Hrun.
      destruct (run_booked _ _ _ fs0 s' (batch_of_nonempty _ _ _ _) Hrun)
        as [Hids Htotal].
      split; [done|]. rewrite Htotal, Hids. split.
      { rewrite <-(length_fmap index). apply size_list_to_set_le. }
      intros Hw. rewrite size_list_to_set, length_fmap; [done|].
      eapply run_unique; [apply batch_of_nonempty| |exact Hrun].
      intros s b Hb. eapply batch_of_new; [done| |exact Hb].
      apply strict_steps_sublist.
Qed.

Lemma run_writes path layer (B : RunState G → GeoDataFrame G → Prop) fs0 s' :
  (∀ s b, B s b → rows b ≠ []) →
  rtc (chunk_effect path layer B) (setup path fs0 []) s' →
  Forall (λ c, call_path c = path ∧ call_driver c = "GPKG" ∧
               call_layer c = layer) (to_file_calls s') ∧
  (∀ k c, to_file_calls s' !! k = Some c →
     (call_mode c = mode_w ↔ ok_frames (take k (to_file_calls s')) = [])) ∧
  fs s' !! path =
    match ok_frames (to_file_calls s') with
    | [] => None
    | frames => Some {[layer := frames]}
    end.
Proof.
  intros HB Hrun. pose proof (run_consistent _ _ _ HB _ _ Hrun) as Hc.
  split; [|split; apply Hc].
  eapply Forall_impl; [apply Hc|]. naive_solver.
Qed.

(** C6.  In a run of either script every call of the writer names the one
    output path, the GPKG driver and the one layer; a call has mode 'w'
    exactly when no call before it succeeded, so the first successful write
    creates the file and each later one appends; and at the end the file at
    the path holds, in that layer, the batches of the successful writes in
    order, or does not exist when there was none (whatever was at the path
    before the run is gone).  The save step, from any state, calls the writer
    once, with mode 'w' exactly when the running total is zero and 'a' exactly
    when it is positive. *)
Theorem write_mode_first_then_append (w : World G)
    (fs0 : gmap string (gpkg G)) :
  let at_end path layer (s' : RunState G) :=
    Forall (λ c, call_path c = path ∧ call_driver c = "GPKG" ∧
                 call_layer c = layer) (to_file_calls s') ∧
    (∀ k c, to_file_calls s' !! k = Some c →
       (call_mode c = mode_w ↔ ok_frames (take k (to_file_calls s')) = [])) ∧
    fs s' !! path =
      match ok_frames (to_file_calls s') with
      | [] => None
      | frames => Some {[layer := frames]}
      end in
  let one_write (b : GeoDataFrame G) (s s' : RunState G) :=
    ∃ c, to_file_calls s' = to_file_calls s ++ [c] ∧
         call_frame c = b ∧
         (call_mode c = mode_w ↔ total_municipalities_saved s = 0) ∧
         (call_mode c = mode_a ↔ 0 < total_municipalities_saved s) in
  at_end belgium_municipalities.output_path belgium_municipalities.layer
    (belgium_municipalities.main w (initial fs0)).2 ∧
  at_end test2.output_path test2.layer (test2.main w (initial fs0)).2 ∧
  (∀ i b s, one_write b s (belgium_municipalities.save_chunk w i b s).2) ∧
  (∀ i b s, one_write b s (test2.save_chunk w i b s).2).
Proof.
  simpl.
  assert (∀ n, (mode_for n = mode_w ↔ n = 0) ∧ (mode_for n = mode_a ↔ 0 < n))
    as Hmode.
  { intros n. unfold mode_for. case_decide; split; split; try done; lia. }
  split; [|split; [|split]].
  - apply belgium_run. intros s' Hrun.
    eapply run_writes; [apply batch_of_nonempty|exact Hrun].
  - unfold test2.main. apply test2_run.
    + intros s' Hp.
      apply (run_writes _ _ (λ _ _, False) fs0 s'); [done|].
      apply rtc_once, effect_none, Hp.
    + intros country_geom rest s' _ Hrun.
      eapply run_writes; [apply batch_of_nonempty|exact Hrun].
  - intros i b s. pose proof (save_chunk_spec w i b s) as Hsave.
    destruct (belgium_municipalities.save_chunk w i b s)
      as [[[]| | |e] s']; try done; simpl.
    + destruct Hsave as (_&_&_&E&_). eexists. split; [exact E|].
      split; [done|]. apply Hmode.
    + destruct Hsave as [(_&_&_&E&_) _]. eexists. split; [exact E|].
      split; [done|]. apply Hmode.
  - intros i b s. pose proof (test2_save_chunk_spec w i b s) as Hsave.
    destruct (test2.save_chunk w i b s) as [[[]| | |e] s']; try done; simpl.
    + destruct Hsave as (_&_&_&E&_). eexists. split; [exact E|].
      split; [done|]. apply Hmode.
    + destruct Hsave as [(_&_&_&E&_) _]. eexists. split; [exact E|].
      split; [done|]. apply Hmode.
Qed.

(** C3.  When the [try] block of a chunk raises, in either script (the
    download, a cleaning step or the write raised), the body of the loop ends
    normally: the set of processed identifiers and the running total are what
    they were before the chunk, and the last two lines printed are the error,
    with the name of the chunk and the message, and the notice that the chunk
    is skipped.  When the chunks were obtained (and, in the strict script,
    the country boundary), the run ends normally whatever happens in the
    chunks: the opening line of every chunk is among the lines printed, and
    the last five lines are the final summary. *)
Theorem failed_chunk_is_skipped (w : World G) (fs0 : gmap string (gpkg G)) :
  (∀ states i state s e s2,
     belgium_municipalities.chunk_try w states i state
       (getattr_name states i state)
       (print (belgium_municipalities.chunk_header states i state) s).2
     = (Raise e, s2) →
     ∃ s', belgium_municipalities.chunk_body w states i state s = (Val tt, s') ∧
           processed_osm_ids s' = processed_osm_ids s ∧
           total_municipalities_saved s' = total_municipalities_saved s ∧
           stdout s' =
             stdout s2
             ++ ["  An error occurred while processing "
                 +:+ getattr_name states i state +:+ ": " +:+ e;
                 "  Skipping this chunk."]) ∧
  (∀ country_geom states i state s e s2,
     test2.chunk_try w country_geom states i state
       (getattr_name states i state)
       (print (test2.chunk_header states i state) s).2
     = (Raise e, s2) →
     ∃ s', test2.chunk_body w country_geom states i state s = (Val tt, s') ∧
           processed_osm_ids s' = processed_osm_ids s ∧
           total_municipalities_saved s' = total_municipalities_saved s ∧
           stdout s' =
             stdout s2
             ++ ["  ❌ An error occurred while processing "
                 +:+ getattr_name states i state +:+ ": " +:+ e;
                 "  Skipping this chunk."]) ∧
  (∀ states,
     features_from_place w belgium_municipalities.place_name
       belgium_municipalities.chunk_tags = Ok states →
     ∃ s' out,
       belgium_municipalities.main w (initial fs0) = (Val tt, s') ∧
       (∀ k state, rows states !! k = Some state →
          belgium_municipalities.chunk_header states k state ∈ stdout s') ∧
       stdout s' = out ++ summary (total_municipalities_saved s')) ∧
  (∀ country_geom rest states,
     geocode_to_gdf w test2.place_name = Ok (country_geom :: rest) →
     features_from_place w test2.place_name test2.chunk_tags = Ok states →
     ∃ s' out,
       test2.main w (initial fs0) = (Val tt, s') ∧
       (∀ k state, rows states !! k = Some state →
          test2.chunk_header states k state ∈ stdout s') ∧
       stdout s' = out ++ test2_summary (total_municipalities_saved s')).
Proof.
  split; [|split; [|split]].
  - intros. by apply chunk_body_skips.
  - intros. by apply chunk_body_with_skips.
  - intros. by apply main_completes.
  - intros. by eapply main_with_completes.
Qed.

(** C7.  When the download of the chunks raises, the run of either script
    prints the error and returns at once: the set of processed identifiers is
    empty, the running total is zero, the writer was never called, and
    nothing was printed after the error (no chunk was started).  The same
    holds in the strict script when the country boundary cannot be had. *)
Theorem fatal_fetch_failure (w : World G) (fs0 : gmap string (gpkg G)) :
  (∀ e,
     features_from_place w belgium_municipalities.place_name
       belgium_municipalities.chunk_tags = Err e →
     belgium_municipalities.main w (initial fs0) =
       (Return,
        {| fs := delete belgium_municipalities.output_path fs0;
           stdout := opening fs0
                     ++ ["Could not download state polygons. Error: " +:+ e];
           processed_osm_ids := ∅;
           total_municipalities_saved := 0;
           to_file_calls := [] |})) ∧
  (∀ e,
     no_country_geom w e →
     test2.main w (initial fs0) =
       (Return,
        {| fs := delete test2.output_path fs0;
           stdout :=
             test2_opening fs0
             ++ ["❌ Could not download country boundary. Cannot proceed. Error: "
                 +:+ e];
           processed_osm_ids := ∅;
           total_municipalities_saved := 0;
           to_file_calls := [] |})) ∧
  (∀ country_geom rest e,
     geocode_to_gdf w test2.place_name = Ok (country_geom :: rest) →
     features_from_place w test2.place_name test2.chunk_tags = Err e →
     test2.main w (initial fs0) =
       (Return,
        {| fs := delete test2.output_path fs0;
           stdout :=
             test2_opening fs0
             ++ ["✔ Main country boundary downloaded.";
                 "Step 2: Downloading state polygons for "
                 +:+ test2.place_name +:+ " (admin_level="
                 +:+ test2.chunk_admin_level +:+ ")...";
                 "❌ Could not download state polygons. Cannot proceed. Error: "
                 +:+ e];
           processed_osm_ids := ∅;
           total_municipalities_saved := 0;
           to_file_calls := [] |})).
Proof.
  split; [|split].
  - intros. by apply main_fatal.
  - intros. by apply main_with_fatal_boundary.
  - intros. by eapply main_with_fatal_states.
Qed.

Lemma strict_steps_cleaned country_geom ids (df : GeoDataFrame G) :
  "admin_level" ∈ columns df →
  let b := cleaned ids (strict_steps true true country_geom df) in
  strict_steps true true country_geom b = b.
Proof.
  intros Hlevel b. unfold strict_steps, inside, at_level.
  assert (∀ r, r ∈ rows b →
    attrs r !! "admin_level" = Some test2.target_admin_level ∧
    within (geometry r) country_geom = true) as Hrows.
  { intros r Hr. apply elem_of_cleaned in Hr as (r0&->&Hr0&_).
    unfold strict_steps, inside, at_level, mask in Hr0; simpl in Hr0.
    apply list_elem_of_filter in Hr0 as [Hin Hr0].
    apply list_elem_of_filter in Hr0 as [Hlvl _].
    split; [|done]. rewrite project_row_lookup; [done|].
    unfold columns_present, columns_to_keep; simpl.
    apply list_elem_of_filter. split; [done|set_solver]. }
  rewrite (mask_all _ b) by (apply Forall_forall; intros r Hr;
                             by apply Hrows).
  apply mask_all, Forall_forall. intros r Hr. by apply Hrows.
Qed.

(** C9.  The cleaning of a chunk is idempotent, in both scripts: when it
    gives a batch, cleaning that batch again, in a state with the same set of
    processed identifiers, gives the same batch (and does not stop by
    [continue] or an exception); and the cleaning of a frame that is empty,
    as the frame is when the cleaning stopped by [continue], gives no batch
    again. *)
Theorem cleaning_is_idempotent :
  (∀ name name' (df b : GeoDataFrame G) (s s' s2 : RunState G),
     belgium_municipalities.clean_chunk name df s = (Val b, s') →
     processed_osm_ids s2 = processed_osm_ids s →
     (belgium_municipalities.clean_chunk name' b s2).1 = Val b) ∧
  (∀ country_geom (df b : GeoDataFrame G) (s s' s2 : RunState G),
     test2.clean_chunk country_geom df s = (Val b, s') →
     processed_osm_ids s2 = processed_osm_ids s →
     (test2.clean_chunk country_geom b s2).1 = Val b) ∧
  (∀ name country_geom (df : GeoDataFrame G) (s : RunState G),
     empty df = true →
     (belgium_municipalities.clean_chunk name df s).1 = Continue ∧
     (test2.clean_chunk country_geom df s).1 = Continue).
Proof.
  split; [|split].
  3: { intros name country_geom df s Hempty. split.
       - by rewrite clean_chunk_result, Hempty.
       - unfold test2.clean_chunk.
         rewrite clean_chunk_with_result. unfold strict_result.
         by rewrite Hempty. }
  - intros name name' df b s s' s2 Hclean Hids.
    pose proof (clean_chunk_spec name df s) as Hspec. rewrite Hclean in Hspec.
    destruct Hspec as (_&->&Hne&Hgeo).
    rewrite clean_chunk_result, Hne, Hids.
    by apply tail_result_cleaned.
  - intros country_geom df b s s' s2 Hclean Hids.
    pose proof (clean_chunk_with_spec true true country_geom df s) as Hspec.
    unfold test2.clean_chunk in *. rewrite Hclean in Hspec.
    destruct Hspec as (_&->&Hne&Hgeo&Hneeds). specialize (Hneeds eq_refl).
    rewrite clean_chunk_with_result, Hids. unfold strict_result.
    rewrite Hne.
    assert (∀ col, col ∈ columns_to_keep → col ∈ columns df →
      col ∈ columns (cleaned (processed_osm_ids s)
                       (strict_steps true true country_geom df))) as Hcol.
    { intros col ? ?. unfold cleaned, columns_present; simpl.
      by apply list_elem_of_filter. }
    rewrite !bool_decide_eq_true_2 by (apply Hcol; [set_solver|done]).
    cbn [andb negb]. rewrite strict_steps_cleaned by done.
    apply tail_result_cleaned; [done|]. by rewrite strict_steps_columns.
Qed.

(** ** The strict script with its two strict steps left out *)

(** Two states that agree on everything but the console output. *)
Definition same_bookkeeping (s1 s2 : RunState G) : Prop :=
  fs s1 = fs s2 ∧
  processed_osm_ids s1 = processed_osm_ids s2 ∧
  total_municipalities_saved s1 = total_municipalities_saved s2 ∧
  to_file_calls s1 = to_file_calls s2.

Lemma same_bookkeeping_printed s1 s2 s1' s2' :
  same_bookkeeping s1 s2 → only_printed s1 s1' → only_printed s2 s2' →
  same_bookkeeping s1' s2'.
Proof.
  intros (?&?&?&?) (?&?&?&?&_) (?&?&?&?&_). unfold same_bookkeeping.
  repeat split; congruence.
Qed.

Lemma same_bookkeeping_print s1 s2 msg1 msg2 :
  same_bookkeeping s1 s2 →
  same_bookkeeping (print msg1 s1).2 (print msg2 s2).2.
Proof.
  intros Hs. eapply same_bookkeeping_printed;
    [exact Hs|apply only_printed_print..].
Qed.

Lemma save_chunk_same (w : World G) i b s1 s2 :
  same_bookkeeping s1 s2 →
  (belgium_municipalities.save_chunk w i b s1).1 =
    (test2.save_chunk w i b s2).1 ∧
  same_bookkeeping (belgium_municipalities.save_chunk w i b s1).2
    (test2.save_chunk w i b s2).2.
Proof.
  intros (E1&E2&E3&E4).
  unfold belgium_municipalities.save_chunk, test2.save_chunk, to_file,
    update_processed_osm_ids, add_total_municipalities_saved.
  run_block. rewrite E3.
  destruct (to_file_fault w i b _) as [e|]; simpl.
  - unfold same_bookkeeping; simpl. by rewrite E1, E2, E4.
  - unfold same_bookkeeping; simpl. by rewrite E1, E2, E4.
Qed.

Lemma clean_chunk_same name country_geom (df : GeoDataFrame G) s1 s2 :
  same_bookkeeping s1 s2 →
  (belgium_municipalities.clean_chunk name df s1).1 =
    (test2.clean_chunk_with false false country_geom df s2).1 ∧
  same_bookkeeping (belgium_municipalities.clean_chunk name df s1).2
    (test2.clean_chunk_with false false country_geom df s2).2.
Proof.
  intros Hs. split.
  - rewrite clean_chunk_result, clean_chunk_with_result.
    destruct Hs as (_&->&_). unfold strict_result, strict_steps. simpl.
    done.
  - pose proof (clean_chunk_spec name df s1) as H1.
    pose proof (clean_chunk_with_spec false false country_geom df s2) as H2.
    destruct (belgium_municipalities.clean_chunk name df s1)
      as [[b1| | |e1] t1];
    destruct (test2.clean_chunk_with false false country_geom df s2)
      as [[b2| | |e2] t2]; simpl; try done.
    all: eapply same_bookkeeping_printed; [exact Hs| |]; naive_solver.
Qed.

Lemma chunk_try_same (w : World G) country_geom states i state name1 name2
    s1 s2 :
  same_bookkeeping s1 s2 →
  (belgium_municipalities.chunk_try w states i state name1 s1).1 =
    (test2.chunk_try_with w false false country_geom states i state
       name2 s2).1 ∧
  same_bookkeeping
    (belgium_municipalities.chunk_try w states i state name1 s1).2
    (test2.chunk_try_with w false false country_geom states i state
       name2 s2).2.
Proof.
  intros Hs.
  unfold belgium_municipalities.chunk_try, test2.chunk_try_with. run_block.
  change test2.tags with belgium_municipalities.tags.
  set (t1 := {| stdout := stdout s1 ++ [_] |}).
  set (t2 := {| stdout := stdout s2 ++ [_] |}).
  assert (same_bookkeeping t1 t2) as Ht by apply Hs.
  case_decide; simpl; [|done].
  destruct (features_from_polygon w i (geometry state) _) as [df|e]; simpl;
    [|done].
  pose proof (clean_chunk_same name1 country_geom df t1 t2 Ht) as [Hr Hu].
  destruct (belgium_municipalities.clean_chunk name1 df t1)
    as [[b1| | |e1] u1];
  destruct (test2.clean_chunk_with false false country_geom df t2)
    as [[b2| | |e2] u2]; simpl in *; try done; simplify_eq;
    try (by split).
  by apply save_chunk_same.
Qed.

Lemma chunk_body_same (w : World G) country_geom states i state s1 s2 :
  same_bookkeeping s1 s2 →
  (belgium_municipalities.chunk_body w states i state s1).1 =
    (test2.chunk_body_with w false false country_geom states i state s2).1 ∧
  same_bookkeeping (belgium_municipalities.chunk_body w states i state s1).2
    (test2.chunk_body_with w false false country_geom states i state s2).2.
Proof.
  intros Hs.
  unfold belgium_municipalities.chunk_body, test2.chunk_body_with, try_except.
  run_block.
  set (t1 := {| stdout := stdout s1 ++ [_] |}).
  set (t2 := {| stdout := stdout s2 ++ [_] |}).
  assert (same_bookkeeping t1 t2) as Ht by apply Hs.
  pose proof (chunk_try_same w country_geom states i state
    (getattr_name states i state) (getattr_name states i state) t1 t2 Ht)
    as [Hr Hu].
  destruct (belgium_municipalities.chunk_try w states i state _ t1)
    as [[[]| | |e1] u1];
  destruct (test2.chunk_try_with w false false country_geom states i state
              _ t2) as [[[]| | |e2] u2]; simpl in *; done.
Qed.

Lemma for_enumerate_same {A} (body1 body2 : nat → A → M G unit) l i s1 s2 :
  (∀ i x s1 s2, same_bookkeeping s1 s2 →
     (body1 i x s1).1 = (body2 i x s2).1 ∧
     same_bookkeeping (body1 i x s1).2 (body2 i x s2).2) →
  same_bookkeeping s1 s2 →
  (for_enumerate i l body1 s1).1 = (for_enumerate i l body2 s2).1 ∧
  same_bookkeeping (for_enumerate i l body1 s1).2
    (for_enumerate i l body2 s2).2.
Proof.
  intros Hbody. revert i s1 s2.
  induction l as [|x l IH]; intros i s1 s2 Hs; simpl; [done|].
  destruct (Hbody i x s1 s2 Hs) as [Hr Hu].
  destruct (body1 i x s1) as [[[]| | |e1] t1];
  destruct (body2 i x s2) as [[[]| | |e2] t2]; simpl in *; try done.
  all: by apply IH.
Qed.

(** C10, as the scripts have it.  When the country boundary is obtained,
    the strict script with its level step and its containment step left out
    ends as the plain script does, on every input: with the same files, the
    same set of processed identifiers, the same running total and the same
    calls of the writer, and both end by the same kind of exit.  (The
    console lines differ in their wording.) *)
Theorem strict_steps_off_is_plain (w : World G) (fs0 : gmap string (gpkg G))
    (country_geom : G) (rest : list G) :
  geocode_to_gdf w test2.place_name = Ok (country_geom :: rest) →
  let strict := test2.main_with w false false (initial fs0) in
  let plain := belgium_municipalities.main w (initial fs0) in
  strict.1 = plain.1 ∧
  fs strict.2 = fs plain.2 ∧
  processed_osm_ids strict.2 = processed_osm_ids plain.2 ∧
  total_municipalities_saved strict.2 = total_municipalities_saved plain.2 ∧
  to_file_calls strict.2 = to_file_calls plain.2.
Proof.
  intros Hgeo. simpl.
  cut ((belgium_municipalities.main w (initial fs0)).1 =
         (test2.main_with w false false (initial fs0)).1 ∧
       same_bookkeeping (belgium_municipalities.main w (initial fs0)).2
         (test2.main_with w false false (initial fs0)).2).
  { intros (?&?&?&?&?). done. }
  unfold belgium_municipalities.main, test2.main_with, path_exists, remove,
    init_bookkeeping, try_except.
  run_block. rewrite Hgeo. simpl.
  change test2.output_path with belgium_municipalities.output_path.
  change test2.place_name with belgium_municipalities.place_name.
  change test2.chunk_tags with belgium_municipalities.chunk_tags.
  destruct (bool_decide (is_Some (fs0 !! belgium_municipalities.output_path)));
    simpl.
  all: destruct (features_from_place w belgium_municipalities.place_name _)
         as [states|e]; simpl; [|done].
  all: match goal with
       | |- context [for_enumerate 0 _ (belgium_municipalities.chunk_body _ _)
                       ?s] => set (s1 := s)
       end.
  all: match goal with
       | |- context [for_enumerate 0 _ (test2.chunk_body_with _ _ _ _ _) ?s] =>
           set (s2 := s)
       end.
  all: assert (same_bookkeeping s1 s2) as Hs by done.
  all: pose proof (for_enumerate_same
         (belgium_municipalities.chunk_body w states)
         (test2.chunk_body_with w false false country_geom states)
         (rows states) 0 s1 s2
         (chunk_body_same w country_geom states) Hs) as [Hr Hu].
  all: destruct (for_enumerate 0 (rows states)
                   (belgium_municipalities.chunk_body w states) s1)
         as [[[]| | |e1] u1];
       destruct (for_enumerate 0 (rows states)
                   (test2.chunk_body_with w false false country_geom states)
                   s2) as [[[]| | |e2] u2]; simpl in *; try done.
  all: unfold belgium_municipalities.finalization, test2.finalization;
       run_block; split; [done|apply Hu].
Qed.

End properties.

(** * Examples *)

(** A small geometry: a shape is its kind and the unit squares it covers;
    one shape is within another when all its squares are squares of the
    other. *)
Record shape := { kind : string; squares : list (Z * Z) }.

#[export] Instance shape_geometry : Shapely shape :=
  {| geom_type := kind;
     within := λ a b, bool_decide (squares a ⊆ squares b) |}.

Definition feature (element : string) (id : Z) (g : shape)
    (cells : list (string * string)) : Row shape :=
  {| index := (element, id); geometry := g; attrs := list_to_map cells |}.

(** A country of four squares, its two states. *)
Definition country : shape :=
  {| kind := "MultiPolygon";
     squares := [(0, 0); (0, 1); (1, 0); (1, 1)]%Z |}.

Definition north : Row shape :=
  feature "relation" 1 {| kind := "Polygon"; squares := [(0, 0); (0, 1)]%Z |}
    [("name", "North"); ("admin_level", "4")].

Definition south : Row shape :=
  feature "relation" 2 {| kind := "Polygon"; squares := [(1, 0); (1, 1)]%Z |}
    [("name", "South"); ("admin_level", "4")].

Definition two_states : GeoDataFrame shape :=
  {| columns := ["name"; "geometry"; "admin_level"];
     rows := [north; south] |}.

(** The municipality [way/123] lies on the border of the two states and
    comes with both downloads. *)
Definition border_town : Row shape :=
  feature "way" 123 {| kind := "Polygon"; squares := [(0, 1)]%Z |}
    [("name", "Border"); ("admin_level", "8");
     ("boundary", "administrative")].

Definition north_features : GeoDataFrame shape :=
  {| columns := ["name"; "geometry"; "admin_level"; "boundary"];
     rows :=
       [border_town;
        feature "relation" 7 {| kind := "MultiPolygon";
                                squares := [(0, 0)]%Z |}
          [("name", "Alpha"); ("admin_level", "8");
           ("boundary", "administrative")]] |}.

(** The second download also has a point, a district of level 9 and a
    municipality that reaches over the border of the country. *)
Definition south_features : GeoDataFrame shape :=
  {| columns := ["name"; "geometry"; "admin_level"; "boundary"];
     rows :=
       [border_town;
        feature "node" 4 {| kind := "Point"; squares := [(1, 0)]%Z |}
          [("name", "Centre"); ("admin_level", "8");
           ("boundary", "administrative")];
        feature "relation" 11 {| kind := "Polygon"; squares := [(1, 0)]%Z |}
          [("name", "District"); ("admin_level", "9");
           ("boundary", "administrative")];
        feature "way" 55 {| kind := "Polygon";
                            squares := [(1, 1); (2, 1)]%Z |}
          [("name", "Overseas"); ("admin_level", "8");
           ("boundary", "administrative")];
        feature "relation" 9 {| kind := "Polygon"; squares := [(1, 1)]%Z |}
          [("admin_level", "8"); ("boundary", "administrative")]] |}.

Definition germany : World shape :=
  {| geocode_to_gdf := λ _, Ok [country];
     features_from_place := λ _ _, Ok two_states;
     features_from_polygon := λ i _ _,
       match i with
       | 0 => Ok north_features
       | 1 => Ok south_features
       | _ => Err "no such chunk"
       end;
     to_file_fault := λ _ _ _, None |}.

Example plain_run_of_germany :
  let s' := (belgium_municipalities.main germany (initial ∅)).2 in
  index <$> container belgium_municipalities.output_path
              belgium_municipalities.layer s'
    = [("way", 123%Z); ("relation", 7%Z); ("relation", 11%Z); ("way", 55%Z);
       ("relation", 9%Z)] ∧
  total_municipalities_saved s' = 5 ∧
  call_mode <$> to_file_calls s' = [mode_w; mode_a].
Proof. vm_compute. done. Qed.

Example strict_run_of_germany :
  let s' := (test2.main germany (initial ∅)).2 in
  index <$> container test2.output_path test2.layer s'
    = [("way", 123%Z); ("relation", 7%Z); ("relation", 9%Z)] ∧
  total_municipalities_saved s' = 3 ∧
  stdout s' =
    ["Step 1: Downloading main country boundary for spatial filtering...";
     "✔ Main country boundary downloaded.";
     "Step 2: Downloading state polygons for Germany (admin_level=4)...";
     "✔ Found 2 states to process as chunks.";
     nl +:+ "Step 3: Processing municipalities for each state...";
     nl +:+ "--- Processing chunk 1/2: North ---";
     "  Downloading municipalities for North...";
     "  Filtering by admin_level='8': 2 -> 2 features";
     "  Filtering by country boundary: 2 -> 2 features";
     "  ✅ Found 2 new municipalities. Saving to file...";
     "  Successfully saved. Total so far: 2";
     nl +:+ "--- Processing chunk 2/2: South ---";
     "  Downloading municipalities for South...";
     "  Filtering by admin_level='8': 5 -> 4 features";
     "  Filtering by country boundary: 4 -> 3 features";
     "  Removed 1 duplicate OSM IDs from prior chunks.";
     "  ✅ Found 1 new municipalities. Saving to file...";
     "  Successfully saved. Total so far: 3";
     nl +:+ "-----------------------------------------------------";
     "🎉 Processing complete.";
     "Total unique municipalities saved: 3";
     "Data saved to: germany_municipalities_admin8.gpkg";
     "-----------------------------------------------------"].
Proof. vm_compute. done. Qed.

(** The municipality [way/55] meets the country without lying within it:
    the plain script writes it, the strict script does not. *)
Example overseas_is_partly_outside :
  let overseas : shape :=
    {| kind := "Polygon"; squares := [(1, 1); (2, 1)]%Z |} in
  (1, 1)%Z ∈ squares overseas ∧ (1, 1)%Z ∈ squares country ∧
  within overseas country = false ∧
  ("way", 55%Z) ∈ index_of south_features ∧
  ("way", 55%Z) ∈
    index <$> container belgium_municipalities.output_path
                belgium_municipalities.layer
                (belgium_municipalities.main germany (initial ∅)).2 ∧
  ("way", 55%Z) ∉
    index <$> container test2.output_path test2.layer
                (test2.main germany (initial ∅)).2.
Proof.
  repeat split; apply (bool_decide_unpack _); vm_compute; exact I.
Qed.

Lemma germany_unique_index : unique_index germany.
Proof.
  intros [|[|i]] polygon tags df; simpl; intros [= <-];
    apply (bool_decide_unpack _); vm_compute; exact I.
Qed.

(** The plain script writes the district of level 9 that came with the
    second download. *)
Lemma plain_script_writes_other_levels :
  ¬ Forall (λ r, attrs r !! "admin_level"
                 = Some belgium_municipalities.target_admin_level)
      (container belgium_municipalities.output_path
         belgium_municipalities.layer
         (belgium_municipalities.main germany (initial ∅)).2).
Proof. apply (bool_decide_eq_false _). vm_compute. reflexivity. Qed.

Lemma dedup_set_grows_witness :
  unique_index germany ∧
  total_municipalities_saved (belgium_municipalities.main germany (initial ∅)).2
    = size (processed_osm_ids
              (belgium_municipalities.main germany (initial ∅)).2) ∧
  total_municipalities_saved (test2.main germany (initial ∅)).2
    = size (processed_osm_ids (test2.main germany (initial ∅)).2).
Proof.
  pose proof (dedup_set_grows germany ∅)
    as (_&_&(_&_&Hplain)&(_&_&Hstrict)).
  split; [exact germany_unique_index|].
  split; [exact (Hplain germany_unique_index)
         |exact (Hstrict germany_unique_index)].
Defined.

Lemma write_mode_first_then_append_witness :
  let calls := to_file_calls (test2.main germany (initial ∅)).2 in
  ∃ c0 c1,
    calls !! 0 = Some c0 ∧ calls !! 1 = Some c1 ∧
    (call_mode c0 = mode_w ↔ ok_frames (take 0 calls) = []) ∧
    (call_mode c1 = mode_w ↔ ok_frames (take 1 calls) = []) ∧
    call_mode c0 = mode_w ∧ call_mode c1 = mode_a.
Proof.
  pose proof (write_mode_first_then_append germany ∅)
    as (_&(_&Hmodes&_)&_). simpl.
  eexists _, _.
  split; [vm_compute; reflexivity|]. split; [vm_compute; reflexivity|].
  split; [apply Hmodes; vm_compute; reflexivity|].
  split; [apply Hmodes; vm_compute; reflexivity|].
  split; vm_compute; reflexivity.
Defined.

(** The download of the first chunk times out. *)
Definition offline_north : World shape :=
  {| geocode_to_gdf := geocode_to_gdf germany;
     features_from_place := features_from_place germany;
     features_from_polygon := λ i polygon tags,
       match i with
       | 0 => Err "timed out"
       | _ => features_from_polygon germany i polygon tags
       end;
     to_file_fault := to_file_fault germany |}.

Lemma failed_chunk_is_skipped_witness :
  (∃ s', belgium_municipalities.chunk_body offline_north two_states 0 north
           (initial ∅) = (Val tt, s') ∧
         processed_osm_ids s' = ∅ ∧
         total_municipalities_saved s' = 0 ∧
         stdout s' =
           [nl +:+ "--- Processing chunk 1/2: North ---";
            "  Downloading municipalities for North...";
            "  An error occurred while processing North: timed out";
            "  Skipping this chunk."]) ∧
  (∃ s', test2.chunk_body offline_north country two_states 0 north
           (initial ∅) = (Val tt, s') ∧
         processed_osm_ids s' = ∅ ∧
         total_municipalities_saved s' = 0 ∧
         stdout s' =
           [nl +:+ "--- Processing chunk 1/2: North ---";
            "  Downloading municipalities for North...";
            "  ❌ An error occurred while processing North: timed out";
            "  Skipping this chunk."]) ∧
  (∃ s' out,
     belgium_municipalities.main offline_north (initial ∅) = (Val tt, s') ∧
     belgium_municipalities.chunk_header two_states 1 south ∈ stdout s' ∧
     stdout s' = out ++ summary (total_municipalities_saved s')) ∧
  (∃ s' out,
     test2.main offline_north (initial ∅) = (Val tt, s') ∧
     test2.chunk_header two_states 1 south ∈ stdout s' ∧
     stdout s' = out ++ test2_summary (total_municipalities_saved s')).
Proof.
  pose proof (failed_chunk_is_skipped offline_north ∅)
    as (Hplain&Hstrict&Hrun&Hstrict_run).
  split; [|split; [|split]].
  - destruct (Hplain two_states 0 north (initial ∅) "timed out"
      (belgium_municipalities.chunk_try offline_north two_states 0 north
         "North"
         (print (belgium_municipalities.chunk_header two_states 0 north)
            (initial ∅)).2).2) as (s'&E&Hids&Htotal&Hout).
    { vm_compute. reflexivity. }
    exists s'. split; [exact E|]. split; [exact Hids|].
    split; [exact Htotal|]. rewrite Hout. vm_compute. reflexivity.
  - destruct (Hstrict country two_states 0 north (initial ∅) "timed out"
      (test2.chunk_try offline_north country two_states 0 north "North"
         (print (test2.chunk_header two_states 0 north) (initial ∅)).2).2)
      as (s'&E&Hids&Htotal&Hout).
    { vm_compute. reflexivity. }
    exists s'. split; [exact E|]. split; [exact Hids|].
    split; [exact Htotal|]. rewrite Hout. vm_compute. reflexivity.
  - destruct (Hrun two_states) as (s'&out&E&Hheaders&Hout);
      [reflexivity|].
    exists s', out. split; [exact E|]. split; [|exact Hout].
    apply (Hheaders 1 south). reflexivity.
  - destruct (Hstrict_run country [] two_states) as (s'&out&E&Hheaders&Hout);
      [reflexivity|reflexivity|].
    exists s', out. split; [exact E|]. split; [|exact Hout].
    apply (Hheaders 1 south). reflexivity.
Defined.

(** The chunks cannot be had; the country boundary cannot be had. *)
Definition no_chunks : World shape :=
  {| geocode_to_gdf := geocode_to_gdf germany;
     features_from_place := λ _ _, Err "connection refused";
     features_from_polygon := features_from_polygon germany;
     to_file_fault := to_file_fault germany |}.

Definition no_boundary : World shape :=
  {| geocode_to_gdf := λ _, Err "connection refused";
     features_from_place := features_from_place germany;
     features_from_polygon := features_from_polygon germany;
     to_file_fault := to_file_fault germany |}.

Lemma fatal_fetch_failure_witness :
  let ended (out : ctl unit * RunState shape) (lines : list string) :=
    out.1 = Return ∧ stdout out.2 = lines ∧
    processed_osm_ids out.2 = ∅ ∧
    total_municipalities_saved out.2 = 0 ∧
    to_file_calls out.2 = [] in
  ended (belgium_municipalities.main no_chunks (initial ∅))
    ["Step 1: Downloading state polygons for Germany (admin_level=4)...";
     "Could not download state polygons. Error: connection refused"] ∧
  ended (test2.main no_boundary (initial ∅))
    ["Step 1: Downloading main country boundary for spatial filtering...";
     "❌ Could not download country boundary. Cannot proceed. Error: connection refused"] ∧
  ended (test2.main no_chunks (initial ∅))
    ["Step 1: Downloading main country boundary for spatial filtering...";
     "✔ Main country boundary downloaded.";
     "Step 2: Downloading state polygons for Germany (admin_level=4)...";
     "❌ Could not download state polygons. Cannot proceed. Error: connection refused"].
Proof.
  simpl. split; [|split].
  - pose proof (fatal_fetch_failure no_chunks ∅) as (Hplain&_).
    rewrite (Hplain "connection refused" eq_refl). by vm_compute.
  - pose proof (fatal_fetch_failure no_boundary ∅) as (_&Hboundary&_).
    rewrite (Hboundary "connection refused" (or_introl eq_refl)).
    by vm_compute.
  - pose proof (fatal_fetch_failure no_chunks ∅) as (_&_&Hstates).
    rewrite (Hstates country [] "connection refused" eq_refl eq_refl).
    by vm_compute.
Defined.

(** A download with no [name] column gives a batch with no [name] column. *)
Definition nameless : World shape :=
  {| geocode_to_gdf := geocode_to_gdf germany;
     features_from_place := features_from_place germany;
     features_from_polygon := λ _ _ _,
       Ok {| columns := ["geometry"; "admin_level"; "boundary"];
             rows :=
               [feature "relation" 9 {| kind := "Polygon";
                                        squares := [(1, 1)]%Z |}
                  [("admin_level", "8"); ("boundary", "administrative")]] |};
     to_file_fault := to_file_fault germany |}.

Lemma batch_without_name_column :
  let batches (s' : RunState shape) :=
    columns <$> (call_frame <$> to_file_calls s') in
  batches (belgium_municipalities.main nameless (initial ∅)).2
    = [["geometry"; "admin_level"]] ∧
  batches (test2.main nameless (initial ∅)).2
    = [["geometry"; "admin_level"]] ∧
  ¬ Forall (λ c, columns (call_frame c) = ["name"; "geometry"; "admin_level"])
      (to_file_calls (belgium_municipalities.main nameless (initial ∅)).2) ∧
  ¬ Forall (λ c, columns (call_frame c) = ["name"; "geometry"; "admin_level"])
      (to_file_calls (test2.main nameless (initial ∅)).2).
Proof.
  split; [vm_compute; reflexivity|]. split; [vm_compute; reflexivity|].
  split; apply (bool_decide_eq_false _); vm_compute; reflexivity.
Qed.

Lemma cleaning_is_idempotent_witness :
  let known : RunState shape :=
    {| fs := ∅; stdout := []; processed_osm_ids := {[ ("way", 123%Z) ]};
       total_municipalities_saved := 2; to_file_calls := [] |} in
  let plain := cleaned {[ ("way", 123%Z) ]} south_features in
  let strict :=
    cleaned {[ ("way", 123%Z) ]}
      (inside country (at_level "8" south_features)) in
  index_of plain = [("relation", 11%Z); ("way", 55%Z); ("relation", 9%Z)] ∧
  (belgium_municipalities.clean_chunk "South" south_features known).1
    = Val plain ∧
  (belgium_municipalities.clean_chunk "South" plain known).1 = Val plain ∧
  index_of strict = [("relation", 9%Z)] ∧
  (test2.clean_chunk country south_features known).1 = Val strict ∧
  (test2.clean_chunk country strict known).1 = Val strict.
Proof.
  intros known plain strict.
  pose proof (@cleaning_is_idempotent shape _) as (Hplain&Hstrict&_).
  split; [vm_compute; reflexivity|]. split; [vm_compute; reflexivity|].
  split.
  { apply (Hplain "South" "South" south_features plain known
             (belgium_municipalities.clean_chunk "South" south_features
                known).2 known);
      [vm_compute; reflexivity|reflexivity]. }
  split; [vm_compute; reflexivity|]. split; [vm_compute; reflexivity|].
  apply (Hstrict country south_features strict known
           (test2.clean_chunk country south_features known).2 known);
    [vm_compute; reflexivity|reflexivity].
Defined.

(** Without the country boundary the strict script saves nothing, with or
    without its strict steps, and the plain script saves what it finds. *)
Lemma strict_steps_off_stops_without_boundary :
  let strict := test2.main_with no_boundary false false (initial ∅) in
  let plain := belgium_municipalities.main no_boundary (initial ∅) in
  total_municipalities_saved strict.2 = 0 ∧
  total_municipalities_saved plain.2 = 5 ∧
  ¬ (strict.1 = plain.1 ∧
     fs strict.2 = fs plain.2 ∧
     processed_osm_ids strict.2 = processed_osm_ids plain.2 ∧
     total_municipalities_saved strict.2 = total_municipalities_saved plain.2 ∧
     to_file_calls strict.2 = to_file_calls plain.2).
Proof.
  simpl. split; [vm_compute; reflexivity|]. split; [vm_compute; reflexivity|].
  intros (_&_&_&Htotal&_). vm_compute in Htotal. discriminate.
Qed.

Lemma strict_steps_off_is_plain_witness :
  let strict := test2.main_with germany false false (initial ∅) in
  let plain := belgium_municipalities.main germany (initial ∅) in
  geocode_to_gdf germany test2.place_name = Ok [country] ∧
  strict.1 = plain.1 ∧
  fs strict.2 = fs plain.2 ∧
  processed_osm_ids strict.2 = processed_osm_ids plain.2 ∧
  total_municipalities_saved strict.2 = total_municipalities_saved plain.2 ∧
  to_file_calls strict.2 = to_file_calls plain.2 ∧
  total_municipalities_saved plain.2 = 5.
Proof.
  simpl. split; [reflexivity|].
  pose proof (strict_steps_off_is_plain germany ∅ country [] eq_refl)
    as (H1&H2&H3&H4&H5).
  split; [exact H1|]. split; [exact H2|]. split; [exact H3|].
  split; [exact H4|]. split; [exact H5|]. vm_compute. reflexivity.
Defined.

(** * Further properties of the two chunked scripts *)

Section further_properties.
Context {G : Type} `{!Shapely G}.

Lemma batch_of_rows (w : World G) tags req pre s b :
  (∀ df r, r ∈ rows (pre df) → r ∈ rows df) →
  batch_of w tags req pre s b →
  ∃ i polygon df,
    features_from_polygon w i polygon tags = Ok df ∧
    Forall (λ r,
        geom_type (geometry r) ∈ ["Polygon"; "MultiPolygon"] ∧
        ∃ r0, r0 ∈ rows df ∧ index r = index r0 ∧
              geometry r = geometry r0 ∧
              ∀ col, attrs r !! col =
                     if decide (col ∈ columns b) then attrs r0 !! col
                     else None)
      (rows b).
Proof.
  intros Hpre (i&polygon&df&Hfetch&_&->&_&_). exists i, polygon, df.
  split; [done|]. apply Forall_forall. intros r Hr.
  apply elem_of_cleaned in Hr as (r0&->&Hr0&_&Hpoly). split; [done|].
  exists r0. split; [by apply Hpre|]. split; [done|]. split; [done|].
  intros col. unfold cleaned, project_row; simpl.
  apply option_eq. intros v. rewrite map_lookup_filter_Some. simpl.
  case_decide; naive_solver.
Qed.

Lemma strict_steps_rows level_on within_on country_geom
    (df : GeoDataFrame G) r :
  r ∈ rows (strict_steps level_on within_on country_geom df) → r ∈ rows df.
Proof.
  unfold strict_steps, inside, at_level, mask.
  destruct level_on, within_on; simpl; intros Hr;
    repeat (apply list_elem_of_filter in Hr as [_ Hr]); done.
Qed.

(** X1.  Only polygons are written: in either script every feature in the
    layer of the output file has a geometry of type Polygon or
    MultiPolygon, whatever else the downloads hold. *)
Theorem only_polygons_are_written (w : World G)
    (fs0 : gmap string (gpkg G)) :
  let polygonal (r : Row G) :=
    geom_type (geometry r) ∈ ["Polygon"; "MultiPolygon"] in
  Forall polygonal
    (container belgium_municipalities.output_path
       belgium_municipalities.layer
       (belgium_municipalities.main w (initial fs0)).2) ∧
  Forall polygonal
    (container test2.output_path test2.layer
       (test2.main w (initial fs0)).2).
Proof.
  simpl.
  assert (∀ tags req pre s b,
    (∀ (df : GeoDataFrame G) r, r ∈ rows (pre df) → r ∈ rows df) →
    batch_of w tags req pre s b →
    Forall (λ r, geom_type (geometry r) ∈ ["Polygon"; "MultiPolygon"])
      (rows b)) as Hbatch.
  { intros tags req pre s b Hpre Hb.
    destruct (batch_of_rows w tags req pre s b Hpre Hb)
      as (i&polygon&df&_&Hrows).
    eapply Forall_impl; [exact Hrows|]. by intros r [? _]. }
  split.
  - apply belgium_run. intros s' Hrun.
    eapply run_rows; [apply batch_of_nonempty| |exact Hrun].
    intros s b Hb. eapply (Hbatch _ _ (λ df, df)); [done|exact Hb].
  - unfold test2.main. apply test2_run.
    + intros s' Hp. apply container_setup with (layer := test2.layer) in Hp.
      destruct Hp as [-> _]. constructor.
    + intros country_geom rest s' _ Hrun.
      eapply run_rows; [apply batch_of_nonempty| |exact Hrun].
      intros s b Hb. eapply Hbatch; [|exact Hb]. apply strict_steps_rows.
Qed.

(** Batch [b] is made of rows of the download [df], cut down to the columns
    of [b]: same identifier, same geometry, the same cells in the columns
    of [b] and no cell elsewhere. *)
Definition projection_of (df b : GeoDataFrame G) : Prop :=
  Forall (λ r,
      ∃ r0, r0 ∈ rows df ∧ index r = index r0 ∧
            geometry r = geometry r0 ∧
            ∀ col, attrs r !! col =
                   if decide (col ∈ columns b) then attrs r0 !! col else None)
    (rows b).

Lemma batch_of_projection (w : World G) tags req pre s b :
  (∀ df r, r ∈ rows (pre df) → r ∈ rows df) →
  batch_of w tags req pre s b →
  ∃ i polygon df,
    features_from_polygon w i polygon tags = Ok df ∧ projection_of df b.
Proof.
  intros Hpre Hb.
  destruct (batch_of_rows w tags req pre s b Hpre Hb)
    as (i&polygon&df&Hfetch&Hrows).
  exists i, polygon, df. split; [done|].
  eapply Forall_impl; [exact Hrows|]. by intros r [_ ?].
Qed.

(** X2.  Every written feature is a downloaded feature, cut down to the
    export columns: each row of each batch handed to the writer, in either
    script, has the identifier and the geometry of a row of a download, the
    cells of that row in the columns of the batch, and no cell in any other
    column. *)
Theorem written_rows_are_projected_downloads (w : World G)
    (fs0 : gmap string (gpkg G)) :
  Forall (λ c, ∃ i polygon df,
      features_from_polygon w i polygon belgium_municipalities.tags = Ok df ∧
      projection_of df (call_frame c))
    (to_file_calls (belgium_municipalities.main w (initial fs0)).2) ∧
  Forall (λ c, ∃ i polygon df,
      features_from_polygon w i polygon test2.tags = Ok df ∧
      projection_of df (call_frame c))
    (to_file_calls (test2.main w (initial fs0)).2).
Proof.
  split.
  - apply belgium_run. intros s' Hrun.
    eapply (run_calls _ _ _ (λ b, ∃ i polygon df,
      features_from_polygon w i polygon belgium_municipalities.tags = Ok df ∧
      projection_of df b)); [|exact Hrun].
    intros s b Hb. eapply (batch_of_projection _ _ _ (λ df, df));
      [done|exact Hb].
  - unfold test2.main. apply test2_run.
    + intros s' Hp. apply container_setup with (layer := test2.layer) in Hp.
      destruct Hp as [_ ->]. constructor.
    + intros country_geom rest s' _ Hrun.
      eapply (run_calls _ _ _ (λ b, ∃ i polygon df,
        features_from_polygon w i polygon test2.tags = Ok df ∧
        projection_of df b)); [|exact Hrun].
      intros s b Hb. eapply batch_of_projection; [|exact Hb].
      apply strict_steps_rows.
Qed.

Lemma steps_other_paths path layer (B : RunState G → GeoDataFrame G → Prop)
    s s' p :
  p ≠ path → rtc (chunk_effect path layer B) s s' → fs s' !! p = fs s !! p.
Proof.
  intros Hp Hsteps. induction Hsteps as [|s1 s2 s3 Hstep _ IH]; [done|].
  rewrite IH.
  destruct Hstep as [(E&_)|b _ (E&_)|b _ (E&_)]; rewrite E; [done..|].
  by apply lookup_insert_ne.
Qed.

(** X5.  A run touches no file but its output file: in either script the
    file at any other path is at the end what it was at the start (or is
    still missing). *)
Theorem other_files_are_untouched (w : World G) (fs0 : gmap string (gpkg G))
    (p : string) :
  (p ≠ belgium_municipalities.output_path →
   fs (belgium_municipalities.main w (initial fs0)).2 !! p = fs0 !! p) ∧
  (p ≠ test2.output_path →
   fs (test2.main w (initial fs0)).2 !! p = fs0 !! p).
Proof.
  split; intros Hp.
  - apply belgium_run. intros s' Hrun.
    rewrite (steps_other_paths _ _ _ _ _ p Hp Hrun). simpl.
    by apply lookup_delete_ne.
  - unfold test2.main. apply test2_run.
    + intros s' (E&_). rewrite E. simpl. by apply lookup_delete_ne.
    + intros country_geom rest s' _ Hrun.
      rewrite (steps_other_paths _ _ _ _ _ p Hp Hrun). simpl.
      by apply lookup_delete_ne.
Qed.

(** A state after some more lines were printed. *)
Definition printed (s : RunState G) (lines : list string) : RunState G :=
  {| fs := fs s; stdout := stdout s ++ lines;
     processed_osm_ids := processed_osm_ids s;
     total_municipalities_saved := total_municipalities_saved s;
     to_file_calls := to_file_calls s |}.

(** X6.  A chunk whose download is an empty frame is passed over by
    [continue]: nothing is written or booked, no error is reported, and
    after the opening line of the chunk and the line of the download the
    script prints one line saying that there is nothing to process. *)
Theorem empty_download_is_passed_over (w : World G)
    (states : GeoDataFrame G) (i : nat) (state : Row G) (s : RunState G)
    (df : GeoDataFrame G) :
  let name := getattr_name states i state in
  "geometry" ∈ columns states →
  empty df = true →
  (features_from_polygon w i (geometry state) belgium_municipalities.tags
     = Ok df →
   belgium_municipalities.chunk_body w states i state s =
     (Continue,
      printed s
        [belgium_municipalities.chunk_header states i state;
         "  Downloading municipalities for " +:+ name +:+ "...";
         "  No new municipalities to process for " +:+ name +:+ "."])) ∧
  (features_from_polygon w i (geometry state) test2.tags = Ok df →
   ∀ country_geom,
     test2.chunk_body w country_geom states i state s =
       (Continue,
        printed s
          [test2.chunk_header states i state;
           "  Downloading municipalities for " +:+ name +:+ "...";
           "  No features returned from OSM for this chunk."])).
Proof.
  intros name Hgeo Hempty. split.
  - intros Hfetch.
    unfold belgium_municipalities.chunk_body, try_except,
      belgium_municipalities.chunk_try, belgium_municipalities.clean_chunk.
    run_block. rewrite decide_True by done. simpl. rewrite Hfetch. simpl.
    rewrite Hempty. simpl. rewrite Hempty. simpl.
    unfold printed. by rewrite <-!(assoc_L (++)).
  - intros Hfetch country_geom.
    unfold test2.chunk_body, test2.chunk_body_with, try_except,
      test2.chunk_try_with, test2.clean_chunk_with.
    run_block. rewrite decide_True by done. simpl. rewrite Hfetch. simpl.
    rewrite Hempty. simpl. unfold printed. by rewrite <-!(assoc_L (++)).
Qed.

(** X7.  In the strict script a download that has rows but no [admin_level]
    column makes the level step raise a KeyError: the chunk is given up,
    nothing is written or booked, and the error printed names the chunk and
    the missing column. *)
Theorem missing_level_column_skips_chunk (w : World G) (country_geom : G)
    (states : GeoDataFrame G) (i : nat) (state : Row G) (s : RunState G)
    (df : GeoDataFrame G) :
  let name := getattr_name states i state in
  "geometry" ∈ columns states →
  features_from_polygon w i (geometry state) test2.tags = Ok df →
  empty df = false →
  "admin_level" ∉ columns df →
  test2.chunk_body w country_geom states i state s =
    (Val tt,
     printed s
       [test2.chunk_header states i state;
        "  Downloading municipalities for " +:+ name +:+ "...";
        "  ❌ An error occurred while processing " +:+ name
        +:+ ": 'admin_level'";
        "  Skipping this chunk."]).
Proof.
  intros name Hgeo Hfetch Hrows Hlevel.
  unfold test2.chunk_body, test2.chunk_body_with, try_except,
    test2.chunk_try_with, test2.clean_chunk_with, test2.level_stage.
  run_block. rewrite decide_True by done. simpl. rewrite Hfetch. simpl.
  rewrite Hrows. simpl. rewrite decide_False by done. simpl.
  unfold printed. by rewrite <-!(assoc_L (++)).
Qed.

Lemma not_isin_known ids (df : GeoDataFrame G) :
  (∀ r, r ∈ rows df → index r ∈ ids) → empty (not_isin ids df) = true.
Proof.
  intros Hknown. unfold empty, not_isin, mask; simpl.
  assert (filter (λ r : Row G, index r ∉ ids) (rows df) = []) as ->; [|done].
  induction (rows df) as [|r rs IH]; [done|].
  rewrite filter_cons_False by (intros Hr; apply Hr, Hknown; by left).
  apply IH. intros r' Hr'. apply Hknown. by right.
Qed.

Lemma tail_result_known ids (df : GeoDataFrame G) :
  (∀ r, r ∈ rows df → index r ∈ ids) → tail_result ids df = Continue.
Proof. intros Hknown. unfold tail_result. by rewrite not_isin_known. Qed.

(** X8.  A chunk all of whose features are already processed writes
    nothing: when every identifier of the download is in the set of
    processed identifiers, the body of the loop, in either script, calls the
    writer not at all and leaves the files, the set and the running total as
    they were; only the console changes. *)
Theorem known_features_are_not_written_again (w : World G)
    (states : GeoDataFrame G) (i : nat) (state : Row G) (s : RunState G)
    (df : GeoDataFrame G) :
  (∀ r, r ∈ rows df → index r ∈ processed_osm_ids s) →
  (features_from_polygon w i (geometry state) belgium_municipalities.tags
     = Ok df →
   only_printed s (belgium_municipalities.chunk_body w states i state s).2) ∧
  (features_from_polygon w i (geometry state) test2.tags = Ok df →
   ∀ country_geom,
     only_printed s (test2.chunk_body w country_geom states i state s).2).
Proof.
  intros Hknown. split.
  - intros Hfetch.
    unfold belgium_municipalities.chunk_body, try_except,
      belgium_municipalities.chunk_try.
    run_block. set (s1 := {| stdout := (stdout s ++ [_]) ++ [_] |}).
    assert (only_printed s s1) as Hs1 by close_printed.
    case_decide; simpl; [|close_printed].
    rewrite Hfetch. simpl.
    pose proof (clean_chunk_spec (getattr_name states i state) df s1)
      as Hspec.
    pose proof (clean_chunk_result (getattr_name states i state) df s1)
      as Hres.
    rewrite tail_result_known in Hres by done.
    destruct (belgium_municipalities.clean_chunk _ df s1)
      as [[b| | |e] s2]; simpl in *; try done.
    + by destruct (empty df).
    + by eapply only_printed_trans.
    + eapply only_printed_trans; [exact Hs1|].
      eapply only_printed_trans; [exact Hspec|]. close_printed.
  - intros Hfetch country_geom.
    unfold test2.chunk_body, test2.chunk_body_with, try_except,
      test2.chunk_try_with.
    run_block. set (s1 := {| stdout := (stdout s ++ [_]) ++ [_] |}).
    assert (only_printed s s1) as Hs1 by close_printed.
    case_decide; simpl; [|close_printed].
    rewrite Hfetch. simpl.
    pose proof (clean_chunk_with_spec true true country_geom df s1) as Hspec.
    pose proof (clean_chunk_with_result true true country_geom df s1)
      as Hres.
    unfold strict_result in Hres.
    rewrite tail_result_known in Hres
      by (intros r Hr; apply Hknown; by eapply strict_steps_rows).
    destruct (test2.clean_chunk_with true true country_geom df s1)
      as [[b| | |e] s2]; simpl in *; try done.
    + by repeat case_match.
    + by eapply only_printed_trans.
    + eapply only_printed_trans; [exact Hs1|].
      eapply only_printed_trans; [exact Hspec|]. close_printed.
Qed.

Lemma for_enumerate_calls {A} (body : nat → A → M G unit) (l : list A)
    (i : nat) (s : RunState G) :
  (∀ i x s, match body i x s with
            | (Val _, s') | (Continue, s') =>
                length (to_file_calls s') ≤ S (length (to_file_calls s))
            | _ => False
            end) →
  match for_enumerate i l body s with
  | (Val _, s') =>
      length (to_file_calls s') ≤ length (to_file_calls s) + length l
  | _ => False
  end.
Proof.
  intros Hbody. revert i s. induction l as [|x l IH]; intros i s; simpl.
  - lia.
  - specialize (Hbody i x s). specialize (IH (S i)).
    destruct (body i x s) as [[[]| | |e] s1]; try done.
    all: specialize (IH s1).
    all: destruct (for_enumerate (S i) l body s1) as [[[]| | |e] s2];
      try done; lia.
Qed.

Lemma chunk_effect_one_call path layer (B : RunState G → GeoDataFrame G → Prop)
    s s' :
  chunk_effect path layer B s s' →
  length (to_file_calls s') ≤ S (length (to_file_calls s)).
Proof.
  intros [(_&_&_&E&_)|b _ (_&_&_&E&_)|b _ (_&_&_&E&_)]; rewrite E;
    rewrite ?length_app; simpl; lia.
Qed.

(** X9.  The writer is called at most once per chunk: when the chunks were
    obtained, the number of calls of [to_file] in a run of either script is
    at most the number of chunks. *)
Theorem at_most_one_write_per_chunk (w : World G)
    (fs0 : gmap string (gpkg G)) (states : GeoDataFrame G) :
  (features_from_place w belgium_municipalities.place_name
     belgium_municipalities.chunk_tags = Ok states →
   length (to_file_calls (belgium_municipalities.main w (initial fs0)).2)
   ≤ len states) ∧
  (features_from_place w test2.place_name test2.chunk_tags = Ok states →
   length (to_file_calls (test2.main w (initial fs0)).2) ≤ len states).
Proof.
  split; intros Hfetch.
  - unfold belgium_municipalities.main, path_exists, remove,
      init_bookkeeping, try_except.
    run_block. rewrite Hfetch.
    destruct (bool_decide (is_Some (fs0 !! _))); simpl.
    all: match goal with
         | |- context [for_enumerate 0 _ _ ?s] => set (s2 := s)
         end.
    all: assert (∀ j x t,
           match belgium_municipalities.chunk_body w states j x t with
           | (Val _, t') | (Continue, t') =>
               length (to_file_calls t') ≤ S (length (to_file_calls t))
           | _ => False
           end) as Hbody
         by (intros j x t; pose proof (chunk_body_spec w states j x t);
             destruct (belgium_municipalities.chunk_body w states j x t)
               as [[[]| | |e'] t']; try done;
             by eapply chunk_effect_one_call).
    all: pose proof (for_enumerate_calls _ (rows states) 0 s2 Hbody)
           as Hloop.
    all: destruct (for_enumerate 0 (rows states) _ s2) as [[[]| | |e] s3];
           try done.
    all: unfold belgium_municipalities.finalization; run_block.
    all: simpl in Hloop; unfold len; lia.
  - unfold test2.main, test2.main_with, path_exists, remove,
      init_bookkeeping, try_except.
    run_block.
    destruct (geocode_to_gdf w test2.place_name)
      as [[|country_geom rest]|e0]; simpl.
    1, 3: destruct (bool_decide (is_Some (fs0 !! _))); simpl; lia.
    rewrite Hfetch. simpl.
    destruct (bool_decide (is_Some (fs0 !! _))); simpl.
    all: match goal with
         | |- context [for_enumerate 0 _ _ ?s] => set (s2 := s)
         end.
    all: assert (∀ j x t,
           match test2.chunk_body_with w true true country_geom states j x t
           with
           | (Val _, t') | (Continue, t') =>
               length (to_file_calls t') ≤ S (length (to_file_calls t))
           | _ => False
           end) as Hbody
         by (intros j x t;
             pose proof (chunk_body_with_spec w true true country_geom
                           states j x t);
             destruct (test2.chunk_body_with w true true country_geom states
                         j x t) as [[[]| | |e'] t']; try done;
             by eapply chunk_effect_one_call).
    all: pose proof (for_enumerate_calls _ (rows states) 0 s2 Hbody)
           as Hloop.
    all: destruct (for_enumerate 0 (rows states) _ s2) as [[[]| | |e] s3];
           try done.
    all: unfold test2.finalization; run_block.
    all: simpl in Hloop; unfold len; lia.
Qed.

(** ** What a run does not depend on *)

(** Two states with the same bookkeeping and the same history of writes;
    the files and the console may differ. *)
Definition same_books (s1 s2 : RunState G) : Prop :=
  processed_osm_ids s1 = processed_osm_ids s2 ∧
  total_municipalities_saved s1 = total_municipalities_saved s2 ∧
  to_file_calls s1 = to_file_calls s2.

Lemma same_books_printed s1 s2 s1' s2' :
  same_books s1 s2 → only_printed s1 s1' → only_printed s2 s2' →
  same_books s1' s2'.
Proof.
  intros (?&?&?) (_&?&?&?&_) (_&?&?&?&_). unfold same_books.
  repeat split; congruence.
Qed.

Lemma for_enumerate_related {A} (R : relation (RunState G))
    (body1 body2 : nat → A → M G unit) l i s1 s2 :
  (∀ i x s1 s2, R s1 s2 →
     (body1 i x s1).1 = (body2 i x s2).1 ∧
     R (body1 i x s1).2 (body2 i x s2).2) →
  R s1 s2 →
  (for_enumerate i l body1 s1).1 = (for_enumerate i l body2 s2).1 ∧
  R (for_enumerate i l body1 s1).2 (for_enumerate i l body2 s2).2.
Proof.
  intros Hbody. revert i s1 s2.
  induction l as [|x l IH]; intros i s1 s2 Hs; simpl; [done|].
  destruct (Hbody i x s1 s2 Hs) as [Hr Hu].
  destruct (body1 i x s1) as [[[]| | |e1] t1];
  destruct (body2 i x s2) as [[[]| | |e2] t2]; simpl in *; try done.
  all: by apply IH.
Qed.

Lemma plain_save_same_books (w : World G) i b s1 s2 :
  same_books s1 s2 →
  (belgium_municipalities.save_chunk w i b s1).1 =
    (belgium_municipalities.save_chunk w i b s2).1 ∧
  same_books (belgium_municipalities.save_chunk w i b s1).2
    (belgium_municipalities.save_chunk w i b s2).2.
Proof.
  intros (E2&E3&E4).
  unfold belgium_municipalities.save_chunk, to_file,
    update_processed_osm_ids, add_total_municipalities_saved.
  run_block. rewrite E3.
  destruct (to_file_fault w i b _) as [e|]; simpl;
    unfold same_books; simpl; by rewrite E2, E4.
Qed.

Lemma strict_save_same_books (w : World G) i b s1 s2 :
  same_books s1 s2 →
  (test2.save_chunk w i b s1).1 = (test2.save_chunk w i b s2).1 ∧
  same_books (test2.save_chunk w i b s1).2 (test2.save_chunk w i b s2).2.
Proof.
  intros (E2&E3&E4).
  unfold test2.save_chunk, to_file,
    update_processed_osm_ids, add_total_municipalities_saved.
  run_block. rewrite E3.
  destruct (to_file_fault w i b _) as [e|]; simpl;
    unfold same_books; simpl; by rewrite E2, E4.
Qed.

Lemma plain_body_same_books (w : World G) states i state s1 s2 :
  same_books s1 s2 →
  (belgium_municipalities.chunk_body w states i state s1).1 =
    (belgium_municipalities.chunk_body w states i state s2).1 ∧
  same_books (belgium_municipalities.chunk_body w states i state s1).2
    (belgium_municipalities.chunk_body w states i state s2).2.
Proof.
  intros Hs.
  unfold belgium_municipalities.chunk_body, try_except,
    belgium_municipalities.chunk_try.
  run_block.
  set (t1 := {| stdout := (stdout s1 ++ [_]) ++ [_] |}).
  set (t2 := {| stdout := (stdout s2 ++ [_]) ++ [_] |}).
  assert (same_books t1 t2) as Ht by apply Hs.
  case_decide; simpl; [|done].
  destruct (features_from_polygon w i (geometry state) _) as [df|e]; simpl;
    [|done].
  set (name := getattr_name states i state).
  pose proof (clean_chunk_spec name df t1) as H1.
  pose proof (clean_chunk_spec name df t2) as H2.
  pose proof (clean_chunk_result name df t1) as R1.
  pose proof (clean_chunk_result name df t2) as R2.
  assert (processed_osm_ids t1 = processed_osm_ids t2) as Hids by apply Ht.
  rewrite Hids in R1. rewrite <-R2 in R1. clear R2 Hids.
  destruct (belgium_municipalities.clean_chunk name df t1)
    as [[b1| | |e1] u1];
  destruct (belgium_municipalities.clean_chunk name df t2)
    as [[b2| | |e2] u2]; simpl in *; try done; simplify_eq.
  - assert (same_books u1 u2) as Hu.
    { eapply same_books_printed; [exact Ht|apply H1|apply H2]. }
    destruct (plain_save_same_books w i b2 u1 u2 Hu) as [Hr Hv].
    destruct (belgium_municipalities.save_chunk w i b2 u1)
      as [[[]| | |e1] v1];
    destruct (belgium_municipalities.save_chunk w i b2 u2)
      as [[[]| | |e2] v2]; simpl in *; try done; simplify_eq;
      try (split; [done|apply Hv]).
  - split; [done|]. eapply same_books_printed; [exact Ht|done..].
  - split; [done|]. eapply same_books_printed; [exact Ht| |];
      (eapply only_printed_trans; [eassumption|close_printed]).
Qed.

Lemma strict_body_same_books (w : World G) country_geom states i state
    s1 s2 :
  same_books s1 s2 →
  (test2.chunk_body w country_geom states i state s1).1 =
    (test2.chunk_body w country_geom states i state s2).1 ∧
  same_books (test2.chunk_body w country_geom states i state s1).2
    (test2.chunk_body w country_geom states i state s2).2.
Proof.
  intros Hs.
  unfold test2.chunk_body, test2.chunk_body_with, try_except,
    test2.chunk_try_with.
  run_block.
  set (t1 := {| stdout := (stdout s1 ++ [_]) ++ [_] |}).
  set (t2 := {| stdout := (stdout s2 ++ [_]) ++ [_] |}).
  assert (same_books t1 t2) as Ht by apply Hs.
  case_decide; simpl; [|done].
  destruct (features_from_polygon w i (geometry state) _) as [df|e]; simpl;
    [|done].
  pose proof (clean_chunk_with_spec true true country_geom df t1) as H1.
  pose proof (clean_chunk_with_spec true true country_geom df t2) as H2.
  pose proof (clean_chunk_with_result true true country_geom df t1) as R1.
  pose proof (clean_chunk_with_result true true country_geom df t2) as R2.
  assert (processed_osm_ids t1 = processed_osm_ids t2) as Hids by apply Ht.
  rewrite Hids in R1. rewrite <-R2 in R1. clear R2 Hids.
  destruct (test2.clean_chunk_with true true country_geom df t1)
    as [[b1| | |e1] u1];
  destruct (test2.clean_chunk_with true true country_geom df t2)
    as [[b2| | |e2] u2]; simpl in *; try done; simplify_eq.
  - assert (same_books u1 u2) as Hu.
    { eapply same_books_printed; [exact Ht|apply H1|apply H2]. }
    destruct (strict_save_same_books w i b2 u1 u2 Hu) as [Hr Hv].
    destruct (test2.save_chunk w i b2 u1) as [[[]| | |e1] v1];
    destruct (test2.save_chunk w i b2 u2) as [[[]| | |e2] v2];
      simpl in *; try done; simplify_eq; try (split; [done|apply Hv]).
  - split; [done|]. eapply same_books_printed; [exact Ht|done..].
  - split; [done|]. eapply same_books_printed; [exact Ht| |];
      (eapply only_printed_trans; [eassumption|close_printed]).
Qed.

Lemma plain_main_same_books (w : World G) fs0 fs0' :
  (belgium_municipalities.main w (initial fs0)).1 =
    (belgium_municipalities.main w (initial fs0')).1 ∧
  same_books (belgium_municipalities.main w (initial fs0)).2
    (belgium_municipalities.main w (initial fs0')).2.
Proof.
  unfold belgium_municipalities.main, path_exists, remove, init_bookkeeping,
    try_except.
  run_block.
  destruct (features_from_place w belgium_municipalities.place_name _)
    as [states|e]; simpl.
  2: { by destruct (bool_decide (is_Some (fs0 !! _))),
                   (bool_decide (is_Some (fs0' !! _))). }
  destruct (bool_decide (is_Some (fs0 !! _))),
           (bool_decide (is_Some (fs0' !! _))); simpl.
  all: match goal with
       | |- context [(let (c, s') := for_enumerate 0 _ _ ?a in _).1 =
                     (let (c, s') := for_enumerate 0 _ _ ?b in _).1] =>
           set (s1 := a); set (s2 := b)
       end.
  all: assert (same_books s1 s2) as Hs by done.
  all: pose proof (for_enumerate_related same_books
         (belgium_municipalities.chunk_body w states)
         (belgium_municipalities.chunk_body w states) (rows states) 0 s1 s2
         (plain_body_same_books w states) Hs) as [Hr Hu].
  all: destruct (for_enumerate 0 (rows states) _ s1) as [[[]| | |e1] u1];
       destruct (for_enumerate 0 (rows states) _ s2) as [[[]| | |e2] u2];
       simpl in *; try done.
  all: unfold belgium_municipalities.finalization; run_block.
  all: split; [done|]; destruct Hu as (E1&E2&E3); unfold same_books; simpl;
       by rewrite E2.
Qed.

Lemma strict_main_same_books (w : World G) fs0 fs0' :
  (test2.main w (initial fs0)).1 = (test2.main w (initial fs0')).1 ∧
  same_books (test2.main w (initial fs0)).2 (test2.main w (initial fs0')).2.
Proof.
  unfold test2.main, test2.main_with, path_exists, remove, init_bookkeeping,
    try_except.
  run_block.
  destruct (geocode_to_gdf w test2.place_name)
    as [[|country_geom rest]|e0]; simpl.
  1, 3: by destruct (bool_decide (is_Some (fs0 !! _))),
                    (bool_decide (is_Some (fs0' !! _))).
  destruct (features_from_place w test2.place_name _) as [states|e]; simpl.
  2: { by destruct (bool_decide (is_Some (fs0 !! _))),
                   (bool_decide (is_Some (fs0' !! _))). }
  destruct (bool_decide (is_Some (fs0 !! _))),
           (bool_decide (is_Some (fs0' !! _))); simpl.
  all: match goal with
       | |- context [(let (c, s') := for_enumerate 0 _ _ ?a in _).1 =
                     (let (c, s') := for_enumerate 0 _ _ ?b in _).1] =>
           set (s1 := a); set (s2 := b)
       end.
  all: assert (same_books s1 s2) as Hs by done.
  all: pose proof (for_enumerate_related same_books
         (test2.chunk_body_with w true true country_geom states)
         (test2.chunk_body_with w true true country_geom states)
         (rows states) 0 s1 s2
         (strict_body_same_books w country_geom states) Hs) as [Hr Hu].
  all: destruct (for_enumerate 0 (rows states) _ s1) as [[[]| | |e1] u1];
       destruct (for_enumerate 0 (rows states) _ s2) as [[[]| | |e2] u2];
       simpl in *; try done.
  all: unfold test2.finalization; run_block.
  all: split; [done|]; destruct Hu as (E1&E2&E3); unfold same_books; simpl;
       by rewrite E2.
Qed.

(** ** What a chunk takes in *)

(** No write raises. *)
Definition no_write_fails (w : World G) : Prop :=
  ∀ i b mode, to_file_fault w i b mode = None.

Definition polygonal (r : Row G) : Prop :=
  geom_type (geometry r) ∈ ["Polygon"; "MultiPolygon"].

Lemma plain_body_grows (w : World G) states i state s :
  processed_osm_ids s ⊆
  processed_osm_ids (belgium_municipalities.chunk_body w states i state s).2.
Proof.
  pose proof (chunk_body_spec w states i state s) as Hstep.
  destruct (belgium_municipalities.chunk_body w states i state s)
    as [[[]| | |e] s']; try done; simpl.
  all: by eapply step_grows.
Qed.

Lemma strict_body_grows (w : World G) country_geom states i state s :
  processed_osm_ids s ⊆
  processed_osm_ids (test2.chunk_body w country_geom states i state s).2.
Proof.
  pose proof (chunk_body_with_spec w true true country_geom states i state s)
    as Hstep. unfold test2.chunk_body.
  destruct (test2.chunk_body_with w true true country_geom states i state s)
    as [[[]| | |e] s']; try done; simpl.
  all: by eapply step_grows.
Qed.

Lemma cleaned_takes ids (df : GeoDataFrame G) r0 :
  "geometry" ∈ columns df → r0 ∈ rows df → polygonal r0 →
  index r0 ∉ ids →
  empty (cleaned ids df) = false ∧ index r0 ∈ index_of (cleaned ids df).
Proof.
  intros Hgeo Hr0 Hpoly Hnew.
  assert (project_row (columns_present columns_to_keep df) r0
            ∈ rows (cleaned ids df)) as Hin.
  { apply elem_of_cleaned. by exists r0. }
  split.
  - apply empty_false. split.
    + intros E. rewrite E in Hin. by apply elem_of_nil in Hin.
    + unfold cleaned, columns_present, columns_to_keep; simpl.
      intros E.
      assert ("geometry" ∈ filter (λ col, col ∈ columns df)
                             ["name"; "geometry"; "admin_level"]) as Hc
        by (apply list_elem_of_filter; split; [done|set_solver]).
      rewrite E in Hc. by apply elem_of_nil in Hc.
  - unfold index_of. apply list_elem_of_fmap.
    by exists (project_row (columns_present columns_to_keep df) r0).
Qed.

(** The plain script takes in every polygon of a download, when the write
    does not raise. *)
Lemma plain_body_takes (w : World G) states i state s df r0 :
  no_write_fails w →
  "geometry" ∈ columns states →
  features_from_polygon w i (geometry state) belgium_municipalities.tags
    = Ok df →
  "geometry" ∈ columns df → r0 ∈ rows df → polygonal r0 →
  index r0 ∈
    processed_osm_ids (belgium_municipalities.chunk_body w states i state s).2.
Proof.
  intros Hw Hgeo Hfetch Hcol Hr0 Hpoly.
  destruct (decide (index r0 ∈ processed_osm_ids s)) as [Hknown|Hnew].
  { by apply plain_body_grows. }
  unfold belgium_municipalities.chunk_body, try_except,
    belgium_municipalities.chunk_try.
  run_block. rewrite decide_True by done. simpl. rewrite Hfetch. simpl.
  set (name := getattr_name states i state).
  set (t1 := {| stdout := (stdout s ++ [_]) ++ [_] |}).
  pose proof (clean_chunk_spec name df t1) as Hspec.
  pose proof (clean_chunk_result name df t1) as Hres.
  destruct (cleaned_takes (processed_osm_ids t1) df r0 Hcol Hr0 Hpoly Hnew)
    as [Hne Hin].
  rewrite tail_result_val in Hres by done.
  assert (empty df = false) as Hdf.
  { apply empty_false. split.
    - intros E. rewrite E in Hr0. by apply elem_of_nil in Hr0.
    - intros E. rewrite E in Hcol. by apply elem_of_nil in Hcol. }
  rewrite Hdf in Hres.
  destruct (belgium_municipalities.clean_chunk name df t1)
    as [[b| | |e] u1]; simpl in *; try done. simplify_eq.
  destruct Hspec as (Hu1&_).
  pose proof (save_chunk_spec w i (cleaned (processed_osm_ids s) df) u1)
    as Hsave.
  destruct (belgium_municipalities.save_chunk w i _ u1)
    as [[[]| | |e] v1]; simpl in *; try done.
  - destruct Hsave as (_&->&_). apply elem_of_union_r.
    by apply elem_of_list_to_set.
  - destruct Hsave as [_ Hfault]. by rewrite Hw in Hfault.
Qed.

(** What the strict script takes in comes from the download of the chunk. *)
Lemma strict_body_gain (w : World G) country_geom states i state s x :
  x ∈ processed_osm_ids
        (test2.chunk_body w country_geom states i state s).2 →
  x ∈ processed_osm_ids s ∨
  ∃ df r0,
    "geometry" ∈ columns states ∧
    features_from_polygon w i (geometry state) test2.tags = Ok df ∧
    "geometry" ∈ columns df ∧ "admin_level" ∈ columns df ∧
    r0 ∈ rows df ∧ polygonal r0 ∧
    attrs r0 !! "admin_level" = Some test2.target_admin_level ∧
    within (geometry r0) country_geom = true ∧
    index r0 = x.
Proof.
  unfold test2.chunk_body, test2.chunk_body_with, try_except,
    test2.chunk_try_with.
  run_block. case_decide as Hgeo; simpl; [|by left].
  destruct (features_from_polygon w i (geometry state) test2.tags)
    as [df|e] eqn:Hfetch; simpl; [|by left].
  set (t1 := {| stdout := (stdout s ++ [_]) ++ [_] |}).
  pose proof (clean_chunk_with_spec true true country_geom df t1) as Hspec.
  destruct (test2.clean_chunk_with true true country_geom df t1)
    as [[b| | |e] u1]; simpl in *; try done.
  - destruct Hspec as (Hu1&->&_&Hcol&Hneeds).
    pose proof (test2_save_chunk_spec w i
      (cleaned (processed_osm_ids s)
         (strict_steps true true country_geom df)) u1) as Hsave.
    destruct (test2.save_chunk w i _ u1) as [[[]| | |e] v1]; simpl in *;
      try done.
    + destruct Hsave as (_&->&_). destruct Hu1 as (_&->&_). simpl.
      intros [Hx|Hx]%elem_of_union; [by left|right].
      apply elem_of_list_to_set in Hx. unfold index_of in Hx.
      apply list_elem_of_fmap in Hx as (r&->&Hr).
      apply elem_of_cleaned in Hr as (r0&->&Hr0&_&Hpoly).
      unfold strict_steps, inside, at_level, mask in Hr0; simpl in Hr0.
      apply list_elem_of_filter in Hr0 as [Hin Hr0].
      apply list_elem_of_filter in Hr0 as [Hlvl Hr0].
      exists df, r0. repeat split; try done. by apply Hneeds.
    + destruct Hsave as [(_&->&_) _]. destruct Hu1 as (_&->&_). by left.
  - destruct Hspec as (_&->&_). by left.
  - destruct Hspec as (_&->&_). by left.
Qed.

(** The strict script takes in every polygon of the target level within
    the country, when the write does not raise. *)
Lemma strict_body_takes (w : World G) country_geom states i state s df r0 :
  no_write_fails w →
  "geometry" ∈ columns states →
  features_from_polygon w i (geometry state) test2.tags = Ok df →
  "geometry" ∈ columns df → "admin_level" ∈ columns df →
  r0 ∈ rows df → polygonal r0 →
  attrs r0 !! "admin_level" = Some test2.target_admin_level →
  within (geometry r0) country_geom = true →
  index r0 ∈
    processed_osm_ids (test2.chunk_body w country_geom states i state s).2.
Proof.
  intros Hw Hgeo Hfetch Hcol Hlevel Hr0 Hpoly Hlvl Hin.
  destruct (decide (index r0 ∈ processed_osm_ids s)) as [Hknown|Hnew].
  { by apply strict_body_grows. }
  unfold test2.chunk_body, test2.chunk_body_with, try_except,
    test2.chunk_try_with.
  run_block. rewrite decide_True by done. simpl. rewrite Hfetch. simpl.
  set (t1 := {| stdout := (stdout s ++ [_]) ++ [_] |}).
  pose proof (clean_chunk_with_spec true true country_geom df t1) as Hspec.
  pose proof (clean_chunk_with_result true true country_geom df t1) as Hres.
  set (d := strict_steps true true country_geom df) in *.
  assert (r0 ∈ rows d) as Hr0'.
  { unfold d, strict_steps, inside, at_level, mask; simpl.
    apply list_elem_of_filter. split; [done|].
    by apply list_elem_of_filter. }
  assert ("geometry" ∈ columns d) as Hcol'
    by (unfold d; by rewrite strict_steps_columns).
  destruct (cleaned_takes (processed_osm_ids t1) d r0 Hcol' Hr0' Hpoly Hnew)
    as [Hne Hidx].
  unfold strict_result in Hres. fold d in Hres.
  rewrite tail_result_val in Hres by done.
  assert (empty df = false) as Hdf.
  { apply empty_false. split.
    - intros E. rewrite E in Hr0. by apply elem_of_nil in Hr0.
    - intros E. rewrite E in Hcol. by apply elem_of_nil in Hcol. }
  rewrite Hdf, !bool_decide_eq_true_2 in Hres by done. simpl in Hres.
  destruct (test2.clean_chunk_with true true country_geom df t1)
    as [[b| | |e] u1]; simpl in *; try done. simplify_eq.
  destruct Hspec as (Hu1&_).
  pose proof (test2_save_chunk_spec w i (cleaned (processed_osm_ids s) d) u1)
    as Hsave.
  destruct (test2.save_chunk w i _ u1) as [[[]| | |e] v1]; simpl in *;
    try done.
  - destruct Hsave as (_&->&_). apply elem_of_union_r.
    by apply elem_of_list_to_set.
  - destruct Hsave as [_ Hfault]. by rewrite Hw in Hfault.
Qed.

(** What each run of the body establishes for its element, and every run of
    the body keeps, holds for every element at the end of the loop. *)
Lemma for_enumerate_reaches {A} (Q : nat → A → RunState G → Prop)
    (body : nat → A → M G unit) (l : list A) (i : nat) (s : RunState G) :
  (∀ i x s, match body i x s with
            | (Val _, s') | (Continue, s') =>
                Q i x s' ∧ ∀ j y, Q j y s → Q j y s'
            | _ => False
            end) →
  match for_enumerate i l body s with
  | (Val _, s') =>
      (∀ j y, Q j y s → Q j y s') ∧
      ∀ k x, l !! k = Some x → Q (i + k) x s'
  | _ => False
  end.
Proof.
  intros Hbody. revert i s. induction l as [|x l IH]; intros i s; simpl.
  - split; [done|]. intros k x Hk. by rewrite lookup_nil in Hk.
  - specialize (Hbody i x s). specialize (IH (S i)).
    destruct (body i x s) as [[[]| | |e] s1]; try done.
    all: specialize (IH s1).
    all: destruct (for_enumerate (S i) l body s1) as [[[]| | |e] s2];
      try done.
    all: destruct Hbody as [Hx Hkeep]; destruct IH as [Hkeep' IH].
    all: split; [by auto|].
    all: intros [|k] y Hk; simpl in Hk;
      [|replace (i + S k) with (S i + k) by lia; by apply IH].
    all: simplify_eq; rewrite Nat.add_0_r; by apply Hkeep'.
Qed.

Lemma plain_main_takes (w : World G) fs0 states k state df r0 :
  no_write_fails w →
  features_from_place w belgium_municipalities.place_name
    belgium_municipalities.chunk_tags = Ok states →
  rows states !! k = Some state →
  "geometry" ∈ columns states →
  features_from_polygon w k (geometry state) belgium_municipalities.tags
    = Ok df →
  "geometry" ∈ columns df → r0 ∈ rows df → polygonal r0 →
  index r0 ∈
    processed_osm_ids (belgium_municipalities.main w (initial fs0)).2.
Proof.
  intros Hw Hstates Hk Hgeo Hfetch Hcol Hr0 Hpoly.
  set (Q := λ (i : nat) (x : Row G) (s : RunState G),
    ∀ df r0,
      features_from_polygon w i (geometry x) belgium_municipalities.tags
        = Ok df →
      "geometry" ∈ columns df → r0 ∈ rows df → polygonal r0 →
      index r0 ∈ processed_osm_ids s).
  assert (∀ i x s,
    match belgium_municipalities.chunk_body w states i x s with
    | (Val _, s') | (Continue, s') => Q i x s' ∧ ∀ j y, Q j y s → Q j y s'
    | _ => False
    end) as Hbody.
  { intros i x s.
    pose proof (chunk_body_spec w states i x s) as Hstep.
    pose proof (plain_body_grows w states i x s) as Hgrow.
    assert (Q i x (belgium_municipalities.chunk_body w states i x s).2)
      as Htake.
    { intros df' r' ? ? ? ?. by eapply plain_body_takes. }
    destruct (belgium_municipalities.chunk_body w states i x s)
      as [[[]| | |e] s']; try done; simpl in *.
    all: split; [done|]; intros j y Hq df' r' ? ? ? ?;
      apply Hgrow; by eapply Hq. }
  unfold belgium_municipalities.main, path_exists, remove, init_bookkeeping,
    try_except.
  run_block. rewrite Hstates.
  destruct (bool_decide (is_Some (fs0 !! _))); simpl.
  all: match goal with
       | |- context [for_enumerate 0 _ _ ?s] => set (s2 := s)
       end.
  all: pose proof (for_enumerate_reaches Q _ (rows states) 0 s2 Hbody)
         as Hloop.
  all: destruct (for_enumerate 0 (rows states) _ s2) as [[[]| | |e] s3];
         try done.
  all: destruct Hloop as [_ Hloop].
  all: unfold belgium_municipalities.finalization; run_block.
  all: by eapply (Hloop k state Hk df r0).
Qed.

Lemma strict_main_takes (w : World G) fs0 country_geom rest states k state
    df r0 :
  no_write_fails w →
  geocode_to_gdf w test2.place_name = Ok (country_geom :: rest) →
  features_from_place w test2.place_name test2.chunk_tags = Ok states →
  rows states !! k = Some state →
  "geometry" ∈ columns states →
  features_from_polygon w k (geometry state) test2.tags = Ok df →
  "geometry" ∈ columns df → "admin_level" ∈ columns df →
  r0 ∈ rows df → polygonal r0 →
  attrs r0 !! "admin_level" = Some test2.target_admin_level →
  within (geometry r0) country_geom = true →
  index r0 ∈ processed_osm_ids (test2.main w (initial fs0)).2.
Proof.
  intros Hw Hcountry Hstates Hk Hgeo Hfetch Hcol Hlevel Hr0 Hpoly Hlvl Hin.
  set (Q := λ (i : nat) (x : Row G) (s : RunState G),
    ∀ df r0,
      features_from_polygon w i (geometry x) test2.tags = Ok df →
      "geometry" ∈ columns df → "admin_level" ∈ columns df →
      r0 ∈ rows df → polygonal r0 →
      attrs r0 !! "admin_level" = Some test2.target_admin_level →
      within (geometry r0) country_geom = true →
      index r0 ∈ processed_osm_ids s).
  assert (∀ i x s,
    match test2.chunk_body_with w true true country_geom states i x s with
    | (Val _, s') | (Continue, s') => Q i x s' ∧ ∀ j y, Q j y s → Q j y s'
    | _ => False
    end) as Hbody.
  { intros i x s.
    pose proof (chunk_body_with_spec w true true country_geom states i x s)
      as Hstep.
    pose proof (strict_body_grows w country_geom states i x s) as Hgrow.
    assert (Q i x (test2.chunk_body w country_geom states i x s).2)
      as Htake.
    { intros df' r' ? ? ? ? ? ? ?. by eapply strict_body_takes. }
    unfold test2.chunk_body in *.
    destruct (test2.chunk_body_with w true true country_geom states i x s)
      as [[[]| | |e] s']; try done; simpl in *.
    all: split; [done|]; intros j y Hq df' r' ? ? ? ? ? ? ?;
      apply Hgrow; by eapply Hq. }
  unfold test2.main, test2.main_with, path_exists, remove, init_bookkeeping,
    try_except.
  run_block. rewrite Hcountry. simpl. rewrite Hstates. simpl.
  destruct (bool_decide (is_Some (fs0 !! _))); simpl.
  all: match goal with
       | |- context [for_enumerate 0 _ _ ?s] => set (s2 := s)
       end.
  all: pose proof (for_enumerate_reaches Q _ (rows states) 0 s2 Hbody)
         as Hloop.
  all: destruct (for_enumerate 0 (rows states) _ s2) as [[[]| | |e] s3];
         try done.
  all: destruct Hloop as [_ Hloop].
  all: unfold test2.finalization; run_block.
  all: by eapply (Hloop k state Hk df r0).
Qed.

(** X11.  Nothing that qualifies is lost, when no write raises: if the
    chunks were obtained and the download of a chunk succeeded, the
    identifier of every polygon of that download is, at the end of the run
    of the plain script, among those in the layer of the output file; and so
    is, at the end of the run of the strict script, the identifier of every
    polygon of that download that has the target level and lies within the
    country.  (The frames must have their geometry
    column, and the download its [admin_level] column in the strict script:
    without them the chunk is given up.) *)
Theorem qualifying_features_are_written (w : World G)
    (fs0 : gmap string (gpkg G)) (states : GeoDataFrame G) (k : nat)
    (state : Row G) (df : GeoDataFrame G) (r0 : Row G) :
  no_write_fails w →
  rows states !! k = Some state →
  "geometry" ∈ columns states →
  "geometry" ∈ columns df →
  r0 ∈ rows df →
  geom_type (geometry r0) ∈ ["Polygon"; "MultiPolygon"] →
  (features_from_place w belgium_municipalities.place_name
     belgium_municipalities.chunk_tags = Ok states →
   features_from_polygon w k (geometry state) belgium_municipalities.tags
     = Ok df →
   index r0 ∈
     index <$> container belgium_municipalities.output_path
                 belgium_municipalities.layer
                 (belgium_municipalities.main w (initial fs0)).2) ∧
  (∀ country_geom rest,
     geocode_to_gdf w test2.place_name = Ok (country_geom :: rest) →
     features_from_place w test2.place_name test2.chunk_tags = Ok states →
     features_from_polygon w k (geometry state) test2.tags = Ok df →
     "admin_level" ∈ columns df →
     attrs r0 !! "admin_level" = Some test2.target_admin_level →
     within (geometry r0) country_geom = true →
     index r0 ∈
       index <$> container test2.output_path test2.layer
                   (test2.main w (initial fs0)).2).
Proof.
  intros Hw Hk Hgeo Hcol Hr0 Hpoly. split.
  - intros Hstates Hfetch.
    pose proof (plain_main_takes w fs0 states k state df r0 Hw Hstates Hk
                  Hgeo Hfetch Hcol Hr0 Hpoly) as Hin.
    revert Hin. apply belgium_run. intros s' Hrun Hin.
    destruct (run_booked _ _ _ fs0 s' (batch_of_nonempty _ _ _ _) Hrun)
      as [Hids _].
    rewrite Hids in Hin. by apply elem_of_list_to_set in Hin.
  - intros country_geom rest Hcountry Hstates Hfetch Hlevel Hlvl Hwithin.
    pose proof (strict_main_takes w fs0 country_geom rest states k state df
                  r0 Hw Hcountry Hstates Hk Hgeo Hfetch Hcol Hlevel Hr0 Hpoly
                  Hlvl Hwithin) as Hin.
    revert Hin. unfold test2.main. apply test2_run.
    + intros s' (_&->&_) Hin. by apply not_elem_of_empty in Hin.
    + intros g rest' s' _ Hrun Hin.
      destruct (run_booked _ _ _ fs0 s' (batch_of_nonempty _ _ _ _) Hrun)
        as [Hids _].
      rewrite Hids in Hin. by apply elem_of_list_to_set in Hin.
Qed.

(** ** The strict script against the plain one *)

Lemma bodies_subset (w : World G) country_geom states i state s1 s2 :
  no_write_fails w →
  processed_osm_ids s2 ⊆ processed_osm_ids s1 →
  processed_osm_ids (test2.chunk_body w country_geom states i state s2).2 ⊆
  processed_osm_ids (belgium_municipalities.chunk_body w states i state s1).2.
Proof.
  intros Hw Hsub x Hx.
  apply strict_body_gain in Hx
    as [Hx|(df&r0&Hgeo&Hfetch&Hcol&_&Hr0&Hpoly&_&_&<-)].
  - by apply plain_body_grows, Hsub.
  - by eapply plain_body_takes.
Qed.

(** Two loops over the same list keep a relation that each pair of runs of
    their bodies keeps. *)
Lemma for_enumerate_both {A} (R : relation (RunState G))
    (body1 body2 : nat → A → M G unit) l i s1 s2 :
  (∀ i x s1 s2, R s1 s2 →
     match body1 i x s1, body2 i x s2 with
     | (Val _, t1), (Val _, t2) | (Val _, t1), (Continue, t2)
     | (Continue, t1), (Val _, t2) | (Continue, t1), (Continue, t2) =>
         R t1 t2
     | _, _ => False
     end) →
  R s1 s2 →
  match for_enumerate i l body1 s1, for_enumerate i l body2 s2 with
  | (Val _, u1), (Val _, u2) => R u1 u2
  | _, _ => False
  end.
Proof.
  intros Hbody. revert i s1 s2.
  induction l as [|x l IH]; intros i s1 s2 Hs; simpl; [done|].
  specialize (Hbody i x s1 s2 Hs).
  destruct (body1 i x s1) as [[[]| | |e1] t1];
  destruct (body2 i x s2) as [[[]| | |e2] t2]; try done.
  all: by apply IH.
Qed.

(** X12.  The strict script saves nothing that the plain script would not
    save: on the same answers of the network, when no write raises, every
    identifier in the layer of the output file of the strict script is in
    the layer of the output file of the plain script. *)
Theorem strict_output_is_part_of_plain_output (w : World G)
    (fs0 : gmap string (gpkg G)) :
  no_write_fails w →
  index <$> container test2.output_path test2.layer
              (test2.main w (initial fs0)).2
  ⊆ index <$> container belgium_municipalities.output_path
                belgium_municipalities.layer
                (belgium_municipalities.main w (initial fs0)).2.
Proof.
  intros Hw.
  cut (processed_osm_ids (test2.main w (initial fs0)).2 ⊆
       processed_osm_ids (belgium_municipalities.main w (initial fs0)).2).
  { apply belgium_run. intros s1 Hrun1.
    unfold test2.main. apply test2_run.
    - intros s2 Hp _.
      pose proof (container_setup _ test2.layer _ _ Hp) as [-> _].
      intros x Hx. by apply elem_of_nil in Hx.
    - intros country_geom rest s2 _ Hrun2 Hsub x Hx.
      destruct (run_booked _ _ _ fs0 s1 (batch_of_nonempty _ _ _ _) Hrun1)
        as [Hids1 _].
      destruct (run_booked _ _ _ fs0 s2 (batch_of_nonempty _ _ _ _) Hrun2)
        as [Hids2 _].
      rewrite Hids1, Hids2 in Hsub.
      specialize (Hsub x). rewrite !elem_of_list_to_set in Hsub. auto. }
  unfold belgium_municipalities.main, test2.main, test2.main_with,
    path_exists, remove, init_bookkeeping, try_except.
  run_block.
  change test2.output_path with belgium_municipalities.output_path.
  change test2.place_name with belgium_municipalities.place_name.
  change test2.chunk_tags with belgium_municipalities.chunk_tags.
  destruct (geocode_to_gdf w belgium_municipalities.place_name)
    as [[|country_geom rest]|e0]; simpl.
  1, 3: destruct (bool_decide (is_Some (fs0 !! _))); simpl; set_solver.
  destruct (features_from_place w belgium_municipalities.place_name _)
    as [states|e]; simpl.
  2: { destruct (bool_decide (is_Some (fs0 !! _))); simpl; set_solver. }
  destruct (bool_decide (is_Some (fs0 !! _))); simpl.
  all: match goal with
       | |- context [for_enumerate 0 _ (belgium_municipalities.chunk_body _ _)
                       ?s] => set (s1 := s)
       end.
  all: match goal with
       | |- context [for_enumerate 0 _ (test2.chunk_body_with _ _ _ _ _) ?s] =>
           set (s2 := s)
       end.
  all: assert (∀ i x t1 t2,
         processed_osm_ids t2 ⊆ processed_osm_ids t1 →
         match belgium_municipalities.chunk_body w states i x t1,
               test2.chunk_body_with w true true country_geom states i x t2
         with
         | (Val _, v1), (Val _, v2) | (Val _, v1), (Continue, v2)
         | (Continue, v1), (Val _, v2) | (Continue, v1), (Continue, v2) =>
             processed_osm_ids v2 ⊆ processed_osm_ids v1
         | _, _ => False
         end) as Hbody.
  1, 3: intros i x t1 t2 Hsub;
    pose proof (bodies_subset w country_geom states i x t1 t2 Hw Hsub)
      as Hstep;
    pose proof (chunk_body_spec w states i x t1) as H1;
    pose proof (chunk_body_with_spec w true true country_geom states i x t2)
      as H2;
    unfold test2.chunk_body in Hstep;
    destruct (belgium_municipalities.chunk_body w states i x t1)
      as [[[]| | |e1'] v1];
    destruct (test2.chunk_body_with w true true country_geom states i x t2)
      as [[[]| | |e2'] v2]; done.
  all: assert (processed_osm_ids s2 ⊆ processed_osm_ids s1) as Hs by done.
  all: pose proof (for_enumerate_both
         (λ t1 t2, processed_osm_ids t2 ⊆ processed_osm_ids t1)
         (belgium_municipalities.chunk_body w states)
         (test2.chunk_body_with w true true country_geom states)
         (rows states) 0 s1 s2 Hbody Hs) as Hloop.
  all: destruct (for_enumerate 0 (rows states)
                   (belgium_municipalities.chunk_body w states) s1)
         as [[[]| | |e1] u1];
       destruct (for_enumerate 0 (rows states)
                   (test2.chunk_body_with w true true country_geom states)
                   s2) as [[[]| | |e2] u2]; try done.
  all: unfold belgium_municipalities.finalization, test2.finalization;
       run_block; done.
Qed.

End further_properties.

(** * Which chunk a feature is taken from *)

Section provenance.
Context {G : Type} `{!Shapely G}.















End provenance.

(** * The old output file *)

Section disk_facts.
Context {G : Type} `{!Shapely G}.

(** The run on a disk: the exception of [os.remove] when there is something
    at the output path that the disk does not remove, and the run of the
    script otherwise. *)
Lemma belgium_on_disk_spec removal (w : World G) (s : RunState G) :
  belgium_municipalities_on_disk.main removal w s =
  match removal with
  | Some e =>
      if bool_decide (is_Some (fs s !! belgium_municipalities.output_path))
      then (Raise e, s)
      else belgium_municipalities.main w s
  | None => belgium_municipalities.main w s
  end.
Proof.
  destruct removal as [e|]; [|reflexivity].
  unfold belgium_municipalities_on_disk.main, belgium_municipalities.main,
    os_remove, path_exists.
  run_block. destruct (bool_decide (is_Some (fs s !! _))); reflexivity.
Qed.

Lemma test2_on_disk_spec removal (w : World G) (s : RunState G) :
  test2_on_disk.main removal w s =
  match removal with
  | Some e =>
      if bool_decide (is_Some (fs s !! test2.output_path))
      then (Raise e, s)
      else test2.main w s
  | None => test2.main w s
  end.
Proof.
  destruct removal as [e|]; [|reflexivity].
  unfold test2_on_disk.main, test2.main, test2.main_with, os_remove,
    path_exists.
  run_block. destruct (bool_decide (is_Some (fs s !! _))); reflexivity.
Qed.

(** [os.remove] did not raise: the disk removes the file, or there is
    nothing to remove. *)
Definition removed (removal : option string) (path : string)
    (fs0 : gmap string (gpkg G)) : Prop :=
  removal = None ∨ fs0 !! path = None.

Lemma belgium_on_disk_removed removal (w : World G) fs0 :
  removed removal belgium_municipalities.output_path fs0 →
  belgium_municipalities_on_disk.main removal w (initial fs0) =
  belgium_municipalities.main w (initial fs0).
Proof.
  intros [->|Hnone]; [done|]. rewrite belgium_on_disk_spec.
  destruct removal; [|done]. simpl. rewrite Hnone.
  by rewrite bool_decide_eq_false_2 by by intros [? ?].
Qed.

Lemma test2_on_disk_removed removal (w : World G) fs0 :
  removed removal test2.output_path fs0 →
  test2_on_disk.main removal w (initial fs0) = test2.main w (initial fs0).
Proof.
  intros [->|Hnone]; [done|]. rewrite test2_on_disk_spec.
  destruct removal; [|done]. simpl. rewrite Hnone.
  by rewrite bool_decide_eq_false_2 by by intros [? ?].
Qed.


(** X3.  The running total counts the rows that were written: at the end of
    a run of either script the total that the summary reports is the number
    of rows of the batches whose write succeeded, whatever the downloads,
    the writer and the disk answer; and when no write raised and [os.remove]
    did not raise, it is the number of rows in the layer of the output
    file. *)
Theorem total_counts_written_rows (removal : option string) (w : World G)
    (fs0 : gmap string (gpkg G)) :
  let counted path layer (s' : RunState G) :=
    total_municipalities_saved s' = length (written_rows s') ∧
    (no_write_fails w → removed removal path fs0 →
     total_municipalities_saved s' = length (container path layer s')) in
  counted belgium_municipalities.output_path belgium_municipalities.layer
    (belgium_municipalities_on_disk.main removal w (initial fs0)).2 ∧
  counted test2.output_path test2.layer
    (test2_on_disk.main removal w (initial fs0)).2.
Proof.
  assert (∀ path layer (s' : RunState G),
    consistent path layer s' →
    total_municipalities_saved s' = length (written_rows s') ∧
    total_municipalities_saved s' = length (container path layer s'))
    as Hcons.
  { intros path layer s' Hc. rewrite (container_written _ _ _ Hc).
    split; apply Hc. }
  assert (let s' := (belgium_municipalities.main w (initial fs0)).2 in
    total_municipalities_saved s' = length (written_rows s') ∧
    total_municipalities_saved s'
    = length (container belgium_municipalities.output_path
                belgium_municipalities.layer s')) as Hplain.
  { apply belgium_run. intros s' Hrun. apply Hcons.
    eapply run_consistent; [apply batch_of_nonempty|exact Hrun]. }
  assert (let s' := (test2.main w (initial fs0)).2 in
    total_municipalities_saved s' = length (written_rows s') ∧
    total_municipalities_saved s'
    = length (container test2.output_path test2.layer s')) as Hstrict.
  { unfold test2.main. apply test2_run.
    - intros s' Hp. apply Hcons.
      apply (run_consistent _ _ (λ _ _, False) ltac:(done) fs0 s').
      apply rtc_once, effect_none, Hp.
    - intros country_geom rest s' _ Hrun. apply Hcons.
      eapply run_consistent; [apply batch_of_nonempty|exact Hrun]. }
  simpl in *. split; split.
  - rewrite belgium_on_disk_spec. destruct removal as [e|]; [|apply Hplain].
    destruct (bool_decide _); [done|apply Hplain].
  - intros _ Hremoved. rewrite belgium_on_disk_removed by done. apply Hplain.
  - rewrite test2_on_disk_spec. destruct removal as [e|]; [|apply Hstrict].
    destruct (bool_decide _); [done|apply Hstrict].
  - intros _ Hremoved. rewrite test2_on_disk_removed by done. apply Hstrict.
Qed.

(** X10.  What a run leaves does not depend on what was on the disk before
    it, once [os.remove] has not raised: for the same answers of the network
    and of the writer, two runs of a script started on any two file systems
    end by the same kind of exit, with the same set of processed
    identifiers, the same running total and the same calls of the writer,
    and, when no write raises, with the same output file; in particular a
    second run, started on what the first left, rebuilds the same output
    file.  When [os.remove] raises the run ends there: nothing is printed,
    fetched or written. *)
Theorem run_does_not_depend_on_old_files (removal removal' : option string)
    (w : World G) (fs0 fs0' : gmap string (gpkg G)) :
  let same_outcome path (r r' : ctl unit * RunState G) :=
    r.1 = r'.1 ∧
    processed_osm_ids r.2 = processed_osm_ids r'.2 ∧
    total_municipalities_saved r.2 = total_municipalities_saved r'.2 ∧
    to_file_calls r.2 = to_file_calls r'.2 ∧
    (no_write_fails w → fs r.2 !! path = fs r'.2 !! path) in
  (removed removal belgium_municipalities.output_path fs0 →
   removed removal' belgium_municipalities.output_path fs0' →
   same_outcome belgium_municipalities.output_path
     (belgium_municipalities_on_disk.main removal w (initial fs0))
     (belgium_municipalities_on_disk.main removal' w (initial fs0'))) ∧
  (removed removal test2.output_path fs0 →
   removed removal' test2.output_path fs0' →
   same_outcome test2.output_path
     (test2_on_disk.main removal w (initial fs0))
     (test2_on_disk.main removal' w (initial fs0'))) ∧
  (∀ e, removal = Some e →
     (is_Some (fs0 !! belgium_municipalities.output_path) →
      belgium_municipalities_on_disk.main removal w (initial fs0)
      = (Raise e, initial fs0)) ∧
     (is_Some (fs0 !! test2.output_path) →
      test2_on_disk.main removal w (initial fs0) = (Raise e, initial fs0))).
Proof.
  simpl. split; [|split].
  - intros Hr Hr'. rewrite !belgium_on_disk_removed by done.
    destruct (plain_main_same_books w fs0 fs0') as (Hexit&Hids&Htotal&Hcalls).
    repeat split; try done. intros _.
    assert (∀ fs1, fs (belgium_municipalities.main w (initial fs1)).2
                   !! belgium_municipalities.output_path =
      match ok_frames
              (to_file_calls (belgium_municipalities.main w (initial fs1)).2)
      with
      | [] => None
      | frames => Some {[belgium_municipalities.layer := frames]}
      end) as Hfile.
    { intros fs1. apply belgium_run. intros s' Hrun.
      eapply run_writes; [apply batch_of_nonempty|exact Hrun]. }
    by rewrite !Hfile, Hcalls.
  - intros Hr Hr'. rewrite !test2_on_disk_removed by done.
    destruct (strict_main_same_books w fs0 fs0') as (Hexit&Hids&Htotal&Hcalls).
    repeat split; try done. intros _.
    assert (∀ fs1, fs (test2.main w (initial fs1)).2 !! test2.output_path =
      match ok_frames (to_file_calls (test2.main w (initial fs1)).2) with
      | [] => None
      | frames => Some {[test2.layer := frames]}
      end) as Hfile.
    { intros fs1. unfold test2.main. apply test2_run.
      - intros s' Hp.
        apply (run_writes _ _ (λ _ _, False) fs1 s'); [done|].
        apply rtc_once, effect_none, Hp.
      - intros country_geom rest s' _ Hrun.
        eapply run_writes; [apply batch_of_nonempty|exact Hrun]. }
    by rewrite !Hfile, Hcalls.
  - intros e ->. split; intros Hthere.
    + rewrite belgium_on_disk_spec. simpl.
      by rewrite bool_decide_eq_true_2 by done.
    + rewrite test2_on_disk_spec. simpl.
      by rewrite bool_decide_eq_true_2 by done.
Qed.

End disk_facts.

(** * The one-shot script *)

Section test_facts.
Context {G : Type} `{!Shapely G}.

Lemma drop_duplicate_rows_fresh col seen (rs : list (Row G)) r :
  r ∈ drop_duplicate_rows col seen rs → attrs r !! col ∉ seen.
Proof.
  revert seen. induction rs as [|r1 rs IH]; intros seen; simpl.
  { by intros ?%elem_of_nil. }
  case_decide as Hseen.
  - apply IH.
  - intros [->|Hin]%elem_of_cons; [done|].
    apply IH in Hin. set_solver.
Qed.

Lemma drop_duplicate_rows_sublist col seen (rs : list (Row G)) :
  drop_duplicate_rows col seen rs `sublist_of` rs.
Proof.
  revert seen. induction rs as [|r1 rs IH]; intros seen; simpl; [done|].
  case_decide.
  - by apply sublist_cons.
  - by apply sublist_skip.
Qed.

Lemma drop_duplicate_rows_NoDup col seen (rs : list (Row G)) :
  NoDup ((λ r, attrs r !! col) <$> drop_duplicate_rows col seen rs).
Proof.
  revert seen. induction rs as [|r1 rs IH]; intros seen; simpl.
  { constructor. }
  case_decide as Hseen; [apply IH|].
  rewrite fmap_cons. constructor; [|apply IH].
  intros (r&Hr&Hin)%list_elem_of_fmap.
  apply drop_duplicate_rows_fresh in Hin. set_solver.
Qed.

(** The rows that stay are the first rows of their value. *)
Lemma elem_of_drop_duplicate_rows col seen (rs : list (Row G)) r :
  r ∈ drop_duplicate_rows col seen rs ↔
  (∃ pre post, rs = pre ++ r :: post ∧ (attrs r !! col ∉ seen) ∧
     ∀ r', r' ∈ pre → attrs r' !! col ≠ attrs r !! col).
Proof.
  revert seen. induction rs as [|r1 rs IH]; intros seen; simpl.
  { split; [by intros ?%elem_of_nil|].
    intros (pre&post&E&_). by destruct pre. }
  case_decide as Hseen.
  - rewrite IH. split.
    + intros (pre&post&->&Hr&Hpre). exists (r1 :: pre), post.
      split; [done|]. split; [done|].
      intros r' [->|Hin]%elem_of_cons; [congruence|by apply Hpre].
    + intros (pre&post&E&Hr&Hpre). destruct pre as [|r2 pre]; simpl in E.
      * injection E as -> ->. done.
      * injection E as -> ->. exists pre, post. split; [done|].
        split; [done|]. intros r' Hin. apply Hpre. by right.
  - rewrite elem_of_cons, IH. split.
    + intros [->|(pre&post&->&Hr&Hpre)].
      * exists [], rs. split; [done|]. split; [done|].
        by intros ? ?%elem_of_nil.
      * exists (r1 :: pre), post. split; [done|].
        split; [set_solver|].
        intros r' [->|Hin]%elem_of_cons; [set_solver|by apply Hpre].
    + intros (pre&post&E&Hr&Hpre). destruct pre as [|r2 pre]; simpl in E.
      * injection E as -> ->. by left.
      * injection E as -> ->. right. exists pre, post. split; [done|].
        split.
        -- intros [E|Hin]%elem_of_cons; [|done].
           eapply Hpre; [by left|done].
        -- intros r' Hin. apply Hpre. by right.
Qed.


Context (w : World G) (repr : GeoDataFrame G → string).
Import Test.

(** What the script keeps of a download, given the boundary. *)
Definition without_duplicate_names (df : GeoDataFrame G) : GeoDataFrame G :=
  {| columns := columns df;
     rows := drop_duplicate_rows "name" [] (rows df) |}.

Definition selected (boundary : G) (df : GeoDataFrame G) : GeoDataFrame G :=
  getitem_columns columns_to_keep
    (inside boundary (at_level "8" (polygons (without_duplicate_names df)))).

Definition first_line : string :=
  "Bezig met downloaden van gemeente-polygonen voor Germany (admin_level=8)...".

(** The run of the script, case by case. *)
Definition script_result (s : RunState G) : ctl unit * RunState G :=
  match features_from_place w place_name tags with
  | Err e => (Raise e, printed s [first_line])
  | Ok df =>
      if decide ("name" ∈ columns df) then
        if decide ("geometry" ∈ columns df) then
          match geocode_to_gdf w place_name with
          | Err e => (Raise e, printed s [first_line])
          | Ok geoms =>
              if decide ("admin_level" ∈ columns df) then
                match geoms with
                | [] => (Raise "0", printed s [first_line])
                | boundary :: _ =>
                    let b := selected boundary df in
                    let record ok :=
                      {| call_frame := b; call_path := output_path;
                         call_driver := "GeoJSON"; call_mode := mode_w;
                         call_layer := default_layer; call_ok := ok |} in
                    let lines :=
                      [first_line;
                       pretty (len b)
                       +:+ " gemeente-polygonen overgehouden na filtering.";
                       repr (head b)] in
                    match to_file_fault w 0 b mode_w with
                    | Some e =>
                        (Raise e,
                         {| fs := fs s; stdout := stdout s ++ lines;
                            processed_osm_ids := processed_osm_ids s;
                            total_municipalities_saved :=
                              total_municipalities_saved s;
                            to_file_calls :=
                              to_file_calls s ++ [record false] |})
                    | None =>
                        (Val tt,
                         {| fs := <[output_path := {[default_layer := [b]]}]>
                                    (fs s);
                            stdout :=
                              stdout s ++ lines ++
                              ["GeoJSON opgeslagen als: " +:+ output_path];
                            processed_osm_ids := processed_osm_ids s;
                            total_municipalities_saved :=
                              total_municipalities_saved s;
                            to_file_calls :=
                              to_file_calls s ++ [record true] |})
                    end
                end
              else (Raise "'admin_level'", printed s [first_line])
          end
        else (Raise "the active geometry column to use has not been set",
              printed s [first_line])
      else (Raise "Index(['name'], dtype='object')", printed s [first_line])
  end.

Lemma script_spec s : script w repr s = script_result s.
Proof.
  unfold script, script_result, drop_duplicates, loc0_geometry, to_file,
    printed.
  run_block.
  destruct (features_from_place w place_name tags) as [df|e]; simpl; [|done].
  destruct (decide ("name" ∈ columns df)) as [Hname|]; simpl; [|done].
  destruct (decide ("geometry" ∈ columns df)) as [Hgeo|]; simpl; [|done].
  destruct (geocode_to_gdf w place_name) as [geoms|e]; simpl; [|done].
  destruct (decide ("admin_level" ∈ columns df)) as [Hlevel|]; simpl; [|done].
  rewrite (decide_True (P := "geometry" ∈ columns df)) by done. simpl.
  destruct geoms as [|boundary geoms]; simpl; [done|].
  assert (columns_present ["name"; "geometry"; "admin_level"]
            (mask (λ r, within (geometry r) boundary = true)
               (mask (λ r, attrs r !! "admin_level" = Some "8")
                  (mask (λ r, geom_type (geometry r)
                              ∈ ["Polygon"; "MultiPolygon"])
                     {| columns := columns df;
                        rows := drop_duplicate_rows "name" [] (rows df) |})))
          = columns_to_keep) as Hcols.
  { unfold columns_present, columns_to_keep; simpl.
    rewrite !filter_cons, filter_nil.
    by rewrite !decide_True by done. }
  rewrite Hcols.
  change (getitem_columns columns_to_keep _) with
    (selected boundary df).
  destruct (to_file_fault w 0 (selected boundary df) mode_w); simpl.
  - by rewrite <-!(assoc_L (++)).
  - by rewrite <-!(assoc_L (++)).
Qed.


Lemma selected_rows boundary (df : GeoDataFrame G) :
  rows (selected boundary df) =
  project_row columns_to_keep <$>
    filter (λ r, within (geometry r) boundary = true)
      (filter (λ r, attrs r !! "admin_level" = Some "8")
         (filter (λ r, geom_type (geometry r) ∈ ["Polygon"; "MultiPolygon"])
            (drop_duplicate_rows "name" [] (rows df)))).
Proof. reflexivity. Qed.

Lemma elem_of_selected boundary (df : GeoDataFrame G) b :
  b ∈ rows (selected boundary df) ↔
  (∃ r, b = project_row columns_to_keep r ∧
        r ∈ drop_duplicate_rows "name" [] (rows df) ∧
        polygonal r ∧ attrs r !! "admin_level" = Some "8" ∧
        within (geometry r) boundary = true).
Proof.
  rewrite selected_rows, list_elem_of_fmap.
  setoid_rewrite list_elem_of_filter. setoid_rewrite list_elem_of_filter.
  setoid_rewrite list_elem_of_filter. naive_solver.
Qed.

Lemma selected_names_NoDup boundary (df : GeoDataFrame G) :
  NoDup ((λ r, attrs r !! "name") <$> rows (selected boundary df)).
Proof.
  rewrite selected_rows, <-list_fmap_compose.
  rewrite (list_fmap_ext _ (λ r, attrs r !! "name")).
  2: { intros i r _. simpl. apply project_row_lookup.
       unfold columns_to_keep. set_solver. }
  eapply sublist_NoDup; [apply (drop_duplicate_rows_NoDup "name" [])|].
  apply fmap_sublist.
  etrans; [apply sublist_filter|]. etrans; [apply sublist_filter|].
  apply sublist_filter.
Qed.

(** The calls of the writer in a run: none, or the one of the selected
    frame. *)
Lemma script_calls (fs0 : gmap string (gpkg G)) :
  to_file_calls (script w repr (initial fs0)).2 = [] ∨
  ∃ df boundary rest ok,
    features_from_place w place_name tags = Ok df ∧
    geocode_to_gdf w place_name = Ok (boundary :: rest) ∧
    "name" ∈ columns df ∧ "geometry" ∈ columns df ∧
    "admin_level" ∈ columns df ∧
    to_file_calls (script w repr (initial fs0)).2 =
      [{| call_frame := selected boundary df; call_path := output_path;
          call_driver := "GeoJSON"; call_mode := mode_w;
          call_layer := default_layer; call_ok := ok |}].
Proof.
  rewrite script_spec. unfold script_result.
  destruct (features_from_place w place_name tags) as [df|e]; [|by left].
  destruct (decide ("name" ∈ columns df)) as [Hname|]; [|by left].
  destruct (decide ("geometry" ∈ columns df)) as [Hgeo|]; [|by left].
  destruct (geocode_to_gdf w place_name) as [[|boundary rest]|e];
    [destruct (decide ("admin_level" ∈ columns df)); by left| |by left].
  destruct (decide ("admin_level" ∈ columns df)) as [Hlevel|]; [|by left].
  right. exists df, boundary, rest.
  destruct (to_file_fault w 0 (selected boundary df) mode_w);
    [exists false|exists true]; done.
Qed.

(** X13.  What the one-shot script hands to the writer is clean: the call
    is for the GeoJSON file of the script in mode 'w'; the frame has exactly
    the columns [name], [geometry] and [admin_level]; no two of its rows
    have the same name (two missing names count as the same); and every row
    is a polygon or multipolygon of level 8 within the first geometry of the
    country boundary. *)
Theorem one_shot_frame_is_clean (fs0 : gmap string (gpkg G)) :
  Forall (λ c,
    call_path c = output_path ∧ call_driver c = "GeoJSON" ∧
    call_mode c = mode_w ∧
    columns (call_frame c) = ["name"; "geometry"; "admin_level"] ∧
    NoDup ((λ r, attrs r !! "name") <$> rows (call_frame c)) ∧
    ∃ boundary rest,
      geocode_to_gdf w place_name = Ok (boundary :: rest) ∧
      Forall (λ r, polygonal r ∧ attrs r !! "admin_level" = Some "8" ∧
                   within (geometry r) boundary = true)
        (rows (call_frame c)))
    (to_file_calls (script w repr (initial fs0)).2).
Proof.
  destruct (script_calls fs0)
    as [->|(df&boundary&rest&ok&_&Hgeo&_&_&_&->)]; [constructor|].
  apply Forall_singleton; simpl.
  do 4 (split; [done|]). split; [apply selected_names_NoDup|].
  exists boundary, rest. split; [done|].
  apply Forall_forall. intros b (r&->&_&Hpoly&Hlevel&Hin)%elem_of_selected.
  split; [done|]. split; [|done].
  rewrite project_row_lookup; [done|]. unfold columns_to_keep. set_solver.
Qed.

(** X14.  The script handles no error.  It runs to its end exactly when
    both downloads succeed, the download has the columns [name], [geometry]
    and [admin_level], the boundary has a first row and the write does not
    raise; in every other case it ends with an exception. *)
Theorem one_shot_ends_well_iff (fs0 : gmap string (gpkg G)) :
  ((script w repr (initial fs0)).1 = Val tt ↔
   ∃ df boundary rest,
     features_from_place w place_name tags = Ok df ∧
     geocode_to_gdf w place_name = Ok (boundary :: rest) ∧
     "name" ∈ columns df ∧ "geometry" ∈ columns df ∧
     "admin_level" ∈ columns df ∧
     to_file_fault w 0 (selected boundary df) mode_w = None) ∧
  ((script w repr (initial fs0)).1 = Val tt ∨
   ∃ e, (script w repr (initial fs0)).1 = Raise e).
Proof.
  rewrite script_spec. unfold script_result.
  destruct (features_from_place w place_name tags) as [df|e]; simpl.
  2: { split; [split; [done|naive_solver]|right; by eexists]. }
  destruct (decide ("name" ∈ columns df)) as [Hname|]; simpl.
  2: { split; [split; [done|naive_solver]|right; by eexists]. }
  destruct (decide ("geometry" ∈ columns df)) as [Hgeometry|]; simpl.
  2: { split; [split; [done|naive_solver]|right; by eexists]. }
  destruct (geocode_to_gdf w place_name) as [geoms|e]; simpl.
  2: { split; [split; [done|naive_solver]|right; by eexists]. }
  destruct (decide ("admin_level" ∈ columns df)) as [Hadmin_level|]; simpl.
  2: { split; [split; [done|naive_solver]|right; by eexists]. }
  destruct geoms as [|boundary rest]; simpl.
  { split; [split; [done|naive_solver]|right; by eexists]. }
  destruct (to_file_fault w 0 (selected boundary df) mode_w) eqn:Hfault;
    simpl.
  - split; [split; [done|]|right; by eexists].
    intros (?&?&?&?&?&_&_&_&?). simplify_eq.
  - split; [split; [|done]|by left].
    intros _. by exists df, boundary, rest.
Qed.

(** X15.  The script overwrites.  After a run that reached its end the file
    at the output path is a file of one layer that holds the one frame of
    this run, whatever was at that path before, the writer was called once,
    and the last line printed names the file; after a run that ended with an
    exception no call of the writer has succeeded. *)
Theorem one_shot_overwrites (fs0 : gmap string (gpkg G)) :
  let out := script w repr (initial fs0) in
  (out.1 = Val tt →
   ∃ b, fs out.2 = <[output_path := {[default_layer := [b]]}]> fs0 ∧
        call_frame <$> to_file_calls out.2 = [b] ∧
        last (stdout out.2) =
          Some "GeoJSON opgeslagen als: germany_municipalities_admin8.geojson") ∧
  (out.1 ≠ Val tt →
   Forall (λ c, call_ok c = false) (to_file_calls out.2) ∧
   fs out.2 = fs0).
Proof.
  simpl. rewrite script_spec. unfold script_result.
  destruct (features_from_place w place_name tags) as [df|e]; simpl.
  2: { split; [done|]. intros _. split; [constructor|done]. }
  destruct (decide ("name" ∈ columns df)) as [Hname|]; simpl.
  2: { split; [done|]. intros _. split; [constructor|done]. }
  destruct (decide ("geometry" ∈ columns df)) as [Hgeometry|]; simpl.
  2: { split; [done|]. intros _. split; [constructor|done]. }
  destruct (geocode_to_gdf w place_name) as [geoms|e]; simpl.
  2: { split; [done|]. intros _. split; [constructor|done]. }
  destruct (decide ("admin_level" ∈ columns df)) as [Hadmin_level|]; simpl.
  2: { split; [done|]. intros _. split; [constructor|done]. }
  destruct geoms as [|boundary rest]; simpl.
  { split; [done|]. intros _. split; [constructor|done]. }
  destruct (to_file_fault w 0 (selected boundary df) mode_w); simpl.
  - split; [done|]. intros _. split; [|done].
    by apply Forall_singleton.
  - split; [|done]. intros _. exists (selected boundary df).
    split; [done|]. split; [done|]. reflexivity.
Qed.

(** X16.  Which rows the one-shot script writes.  A row is in the frame
    handed to the writer exactly when it is the cut to the three columns of
    a row of the download that is the first of the download with its name
    (two missing names count as the same), is a polygon or multipolygon,
    has level 8 and lies within the boundary. *)
Theorem one_shot_written_rows (fs0 : gmap string (gpkg G))
    (df : GeoDataFrame G) (boundary : G) (rest : list G) :
  features_from_place w place_name tags = Ok df →
  geocode_to_gdf w place_name = Ok (boundary :: rest) →
  Forall (λ c, ∀ b,
    b ∈ rows (call_frame c) ↔
    (∃ r pre post,
       b = project_row ["name"; "geometry"; "admin_level"] r ∧
       rows df = pre ++ r :: post ∧
       (∀ r', r' ∈ pre → attrs r' !! "name" ≠ attrs r !! "name") ∧
       polygonal r ∧ attrs r !! "admin_level" = Some "8" ∧
       within (geometry r) boundary = true))
    (to_file_calls (script w repr (initial fs0)).2).
Proof.
  intros Hdf Hgeo.
  destruct (script_calls fs0)
    as [->|(df'&boundary'&rest'&ok&Hdf'&Hgeo'&_&_&_&->)]; [constructor|].
  rewrite Hdf in Hdf'. rewrite Hgeo in Hgeo'. simplify_eq.
  apply Forall_singleton. cbn [call_frame]. intros b.
  rewrite elem_of_selected.
  setoid_rewrite elem_of_drop_duplicate_rows. split.
  - intros (r&->&(pre&post&E&_&Hpre)&?&?&?).
    exists r, pre, post. split_and!; done.
  - intros (r&pre&post&->&E&Hpre&?&?&?). exists r. split; [done|].
    split; [|done]. exists pre, post. split; [done|]. split; [|done].
    by intros ?%elem_of_nil.
Qed.

(** A row after a row of its name (or of a name seen before) is dropped:
    what stays of the rows comes from before or after it. *)
Lemma drop_duplicate_rows_shadowed col seen (pre post : list (Row G)) r0 r :
  attrs r0 !! col ∈ seen ∨
    (∃ r', r' ∈ pre ∧ attrs r' !! col = attrs r0 !! col) →
  r ∈ drop_duplicate_rows col seen (pre ++ r0 :: post) →
  r ∈ pre ∨ r ∈ post.
Proof.
  revert seen. induction pre as [|p pre IH]; intros seen Hshadow; simpl.
  - destruct Hshadow as [Hseen|(r'&[]%elem_of_nil&_)].
    rewrite decide_True by done. intros Hin. right.
    eapply elem_of_sublist; [done|]. apply drop_duplicate_rows_sublist.
  - case_decide as Hp.
    + intros Hin. apply IH in Hin.
      * destruct Hin; [left; by right|by right].
      * destruct Hshadow as [?|(r'&[->|?]%elem_of_cons&E)];
          [by left|left; congruence|right; by exists r'].
    + intros [->|Hin]%elem_of_cons; [left; by left|].
      apply IH in Hin.
      * destruct Hin; [left; by right|by right].
      * destruct Hshadow as [?|(r'&[->|?]%elem_of_cons&E)];
          [left; by right|left; rewrite <-E; by left|right; by exists r'].
Qed.

(** X17.  Deduplication by name loses features.  A feature of the download
    that comes after another feature with the same name (or after another
    feature without a name, when it has none) is not written, even when
    that earlier feature is itself thrown away by a later filter (the
    identifiers of the download being pairwise distinct). *)
Theorem one_shot_drops_later_namesakes (fs0 : gmap string (gpkg G))
    (df : GeoDataFrame G) (pre post : list (Row G)) (r0 r' : Row G) :
  features_from_place w place_name tags = Ok df →
  NoDup (index_of df) →
  rows df = pre ++ r0 :: post →
  r' ∈ pre →
  attrs r' !! "name" = attrs r0 !! "name" →
  Forall (λ c, index r0 ∉ index_of (call_frame c))
    (to_file_calls (script w repr (initial fs0)).2).
Proof.
  intros Hdf Hnodup Hrows Hr' Hname.
  destruct (script_calls fs0)
    as [->|(df'&boundary&rest&ok&Hdf'&_&_&_&_&->)]; [constructor|].
  rewrite Hdf in Hdf'. simplify_eq. apply Forall_singleton; simpl.
  unfold index_of in *. rewrite Hrows in Hnodup.
  rewrite fmap_app, fmap_cons in Hnodup.
  apply NoDup_app in Hnodup as (_&Hpre&[Hpost _]%NoDup_cons).
  intros (b&Hb&(r&->&Hin&_)%elem_of_selected)%list_elem_of_fmap.
  simpl in Hb. rewrite Hrows in Hin.
  apply drop_duplicate_rows_shadowed in Hin; [|right; by exists r'].
  destruct Hin as [Hin|Hin].
  - apply (Hpre (index r)); [|rewrite <-Hb; by left].
    apply list_elem_of_fmap. by exists r.
  - apply Hpost. rewrite Hb. apply list_elem_of_fmap. by exists r.
Qed.

End test_facts.

(** * Examples (continued) *)

(** A file of somebody else lies beside the output. *)
Definition old_files : gmap string (gpkg shape) :=
  {[ "notes.gpkg" := {[ "notes" := [two_states] ]} ]}.

Lemma other_files_are_untouched_witness :
  fs (belgium_municipalities.main germany (initial old_files)).2
    !! "notes.gpkg" = old_files !! "notes.gpkg" ∧
  fs (test2.main germany (initial old_files)).2
    !! "notes.gpkg" = old_files !! "notes.gpkg".
Proof.
  destruct (other_files_are_untouched germany old_files "notes.gpkg")
    as [Hplain Hstrict].
  split; [apply Hplain|apply Hstrict]; vm_compute; discriminate.
Defined.

(** The download of the first chunk has no rows. *)
Definition empty_north : World shape :=
  {| geocode_to_gdf := geocode_to_gdf germany;
     features_from_place := features_from_place germany;
     features_from_polygon := λ i polygon tags,
       match i with
       | 0 => Ok {| columns := ["name"; "geometry"; "admin_level"];
                    rows := [] |}
       | _ => features_from_polygon germany i polygon tags
       end;
     to_file_fault := to_file_fault germany |}.

Lemma empty_download_is_passed_over_witness :
  belgium_municipalities.chunk_body empty_north two_states 0 north
    (initial ∅) =
    (Continue,
     printed (initial ∅)
       [nl +:+ "--- Processing chunk 1/2: North ---";
        "  Downloading municipalities for North...";
        "  No new municipalities to process for North."]) ∧
  test2.chunk_body empty_north country two_states 0 north (initial ∅) =
    (Continue,
     printed (initial ∅)
       [nl +:+ "--- Processing chunk 1/2: North ---";
        "  Downloading municipalities for North...";
        "  No features returned from OSM for this chunk."]).
Proof.
  destruct (empty_download_is_passed_over empty_north two_states 0 north
              (initial ∅)
              {| columns := ["name"; "geometry"; "admin_level"];
                 rows := [] |}) as [Hplain Hstrict].
  - apply (bool_decide_unpack _). vm_compute. exact I.
  - reflexivity.
  - split.
    + apply Hplain. reflexivity.
    + apply Hstrict. reflexivity.
Defined.

(** The download of the first chunk has no [admin_level] column. *)
Definition levelless_features : GeoDataFrame shape :=
  {| columns := ["name"; "geometry"; "boundary"];
     rows := [border_town] |}.

Definition levelless_north : World shape :=
  {| geocode_to_gdf := geocode_to_gdf germany;
     features_from_place := features_from_place germany;
     features_from_polygon := λ i polygon tags,
       match i with
       | 0 => Ok levelless_features
       | _ => features_from_polygon germany i polygon tags
       end;
     to_file_fault := to_file_fault germany |}.

Lemma missing_level_column_skips_chunk_witness :
  test2.chunk_body levelless_north country two_states 0 north (initial ∅) =
    (Val tt,
     printed (initial ∅)
       [nl +:+ "--- Processing chunk 1/2: North ---";
        "  Downloading municipalities for North...";
        "  ❌ An error occurred while processing North: 'admin_level'";
        "  Skipping this chunk."]).
Proof.
  apply (missing_level_column_skips_chunk levelless_north country two_states
           0 north (initial ∅) levelless_features).
  - apply (bool_decide_unpack _). vm_compute. exact I.
  - reflexivity.
  - reflexivity.
  - apply (bool_decide_unpack _). vm_compute. exact I.
Defined.

(** The two features of the first download were saved before. *)
Definition after_north : RunState shape :=
  {| fs := ∅; stdout := [];
     processed_osm_ids := {[ ("way", 123%Z); ("relation", 7%Z) ]};
     total_municipalities_saved := 2;
     to_file_calls := [] |}.

Lemma known_features_are_not_written_again_witness :
  only_printed after_north
    (belgium_municipalities.chunk_body germany two_states 0 north
       after_north).2 ∧
  only_printed after_north
    (test2.chunk_body germany country two_states 0 north after_north).2.
Proof.
  destruct (known_features_are_not_written_again germany two_states 0 north
              after_north north_features) as [Hplain Hstrict].
  - apply Forall_forall. apply (bool_decide_unpack _). vm_compute. exact I.
  - split.
    + apply Hplain. reflexivity.
    + apply Hstrict. reflexivity.
Defined.

Lemma at_most_one_write_per_chunk_witness :
  length (to_file_calls
            (belgium_municipalities.main germany (initial ∅)).2) ≤ 2 ∧
  length (to_file_calls (test2.main germany (initial ∅)).2) ≤ 2.
Proof.
  destruct (at_most_one_write_per_chunk germany ∅ two_states)
    as [Hplain Hstrict].
  split; [apply Hplain|apply Hstrict]; reflexivity.
Defined.

(** The municipality [relation/9] of the second download has no name; it is
    a polygon of level 8 within the country. *)
Definition unnamed_town : Row shape :=
  feature "relation" 9 {| kind := "Polygon"; squares := [(1, 1)]%Z |}
    [("admin_level", "8"); ("boundary", "administrative")].

Lemma qualifying_features_are_written_witness :
  ("relation", 9%Z) ∈
    index <$> container belgium_municipalities.output_path
                belgium_municipalities.layer
                (belgium_municipalities.main germany (initial ∅)).2 ∧
  ("relation", 9%Z) ∈
    index <$> container test2.output_path test2.layer
                (test2.main germany (initial ∅)).2.
Proof.
  destruct (qualifying_features_are_written germany ∅ two_states 1 south
              south_features unnamed_town) as [Hplain Hstrict].
  - intros i b mode. reflexivity.
  - reflexivity.
  - apply (bool_decide_unpack _). vm_compute. exact I.
  - apply (bool_decide_unpack _). vm_compute. exact I.
  - unfold south_features, unnamed_town. simpl.
    do 4 apply list_elem_of_further. apply list_elem_of_here.
  - apply (bool_decide_unpack _). vm_compute. exact I.
  - split.
    + apply Hplain; reflexivity.
    + apply (Hstrict country []); try reflexivity.
      apply (bool_decide_unpack _). vm_compute. exact I.
Defined.

Lemma strict_output_is_part_of_plain_output_witness :
  index <$> container test2.output_path test2.layer
              (test2.main germany (initial ∅)).2
  ⊆ index <$> container belgium_municipalities.output_path
                belgium_municipalities.layer
                (belgium_municipalities.main germany (initial ∅)).2.
Proof.
  apply (strict_output_is_part_of_plain_output germany ∅).
  intros i b mode. reflexivity.
Defined.

(** * Examples for the one-shot script *)

(** The download of the whole country: a point named Centre comes before
    the municipality of that name, and two municipalities have no name. *)
Definition centre_point : Row shape :=
  feature "node" 4 {| kind := "Point"; squares := [(1, 0)]%Z |}
    [("name", "Centre"); ("admin_level", "8");
     ("boundary", "administrative")].

Definition centre_town : Row shape :=
  feature "relation" 12 {| kind := "Polygon"; squares := [(1, 0)]%Z |}
    [("name", "Centre"); ("admin_level", "8");
     ("boundary", "administrative")].

Definition whole_country : GeoDataFrame shape :=
  {| columns := ["name"; "geometry"; "admin_level"; "boundary"];
     rows :=
       [centre_point; centre_town; border_town;
        feature "way" 55 {| kind := "Polygon";
                            squares := [(1, 1); (2, 1)]%Z |}
          [("name", "Overseas"); ("admin_level", "8");
           ("boundary", "administrative")];
        feature "relation" 11 {| kind := "Polygon"; squares := [(1, 0)]%Z |}
          [("name", "District"); ("admin_level", "9");
           ("boundary", "administrative")];
        unnamed_town;
        feature "relation" 13 {| kind := "Polygon"; squares := [(0, 0)]%Z |}
          [("admin_level", "8"); ("boundary", "administrative")]] |}.

Definition germany_at_once : World shape :=
  {| geocode_to_gdf := λ _, Ok [country];
     features_from_place := λ _ _, Ok whole_country;
     features_from_polygon := λ _ _ _, Err "not asked";
     to_file_fault := λ _ _ _, None |}.

Definition shown (df : GeoDataFrame shape) : string :=
  pretty (len df) +:+ " rows".

Example one_shot_run_of_germany :
  let out := Test.script germany_at_once shown (initial ∅) in
  out.1 = Val tt ∧
  (index_of <$> (call_frame <$> to_file_calls out.2))
    = [[("way", 123%Z); ("relation", 9%Z)]] ∧
  stdout out.2 =
    ["Bezig met downloaden van gemeente-polygonen voor Germany (admin_level=8)...";
     "2 gemeente-polygonen overgehouden na filtering.";
     "2 rows";
     "GeoJSON opgeslagen als: germany_municipalities_admin8.geojson"].
Proof. vm_compute. done. Qed.

Lemma one_shot_overwrites_witness :
  let out := Test.script germany_at_once shown (initial old_files) in
  ∃ b, fs out.2 =
         <[Test.output_path := {[Test.default_layer := [b]]}]> old_files ∧
       call_frame <$> to_file_calls out.2 = [b].
Proof.
  destruct (one_shot_overwrites germany_at_once shown old_files)
    as [Hends _].
  destruct Hends as (b&Hfs&Hcalls&_); [vm_compute; reflexivity|].
  exists b. split; [exact Hfs|exact Hcalls].
Defined.

Lemma one_shot_written_rows_witness :
  Forall (λ c, ∀ b,
    b ∈ rows (call_frame c) ↔
    (∃ r pre post,
       b = project_row ["name"; "geometry"; "admin_level"] r ∧
       rows whole_country = pre ++ r :: post ∧
       (∀ r', r' ∈ pre → attrs r' !! "name" ≠ attrs r !! "name") ∧
       polygonal r ∧ attrs r !! "admin_level" = Some "8" ∧
       within (geometry r) country = true))
    (to_file_calls (Test.script germany_at_once shown (initial ∅)).2).
Proof.
  apply (one_shot_written_rows germany_at_once shown ∅ whole_country
           country []); reflexivity.
Defined.

(** The municipality Centre is lost to the point of the same name, which is
    itself not written. *)
Lemma one_shot_drops_later_namesakes_witness :
  Forall (λ c, ("relation", 12%Z) ∉ index_of (call_frame c))
    (to_file_calls (Test.script germany_at_once shown (initial ∅)).2).
Proof.
  apply (one_shot_drops_later_namesakes germany_at_once shown ∅
           whole_country [centre_point]
           (drop 2 (rows whole_country)) centre_town centre_point).
  - reflexivity.
  - apply (bool_decide_unpack _). vm_compute. exact I.
  - reflexivity.
  - apply list_elem_of_here.
  - reflexivity.
Defined.

(** * Examples for the first chunk and for repeated identifiers *)






(** A download that lists the border town twice. *)
Definition north_features_twice : GeoDataFrame shape :=
  {| columns := columns north_features;
     rows := border_town :: rows north_features |}.

Definition germany_twice : World shape :=
  {| geocode_to_gdf := geocode_to_gdf germany;
     features_from_place := features_from_place germany;
     features_from_polygon := λ i polygon tags,
       match i with
       | 0 => Ok north_features_twice
       | _ => features_from_polygon germany i polygon tags
       end;
     to_file_fault := to_file_fault germany |}.


(** With the border town listed twice by one download the running total
    counts it twice and the set once. *)
Lemma repeated_identifier_total_exceeds_set :
  let plain := (belgium_municipalities.main germany_twice (initial ∅)).2 in
  let strict := (test2.main germany_twice (initial ∅)).2 in
  total_municipalities_saved plain = 6 ∧
  size (processed_osm_ids plain) = 5 ∧
  total_municipalities_saved strict = 4 ∧
  size (processed_osm_ids strict) = 3 ∧
  total_municipalities_saved plain ≠ size (processed_osm_ids plain) ∧
  total_municipalities_saved strict ≠ size (processed_osm_ids strict).
Proof.
  assert (total_municipalities_saved
            (belgium_municipalities.main germany_twice (initial ∅)).2 = 6)
    as H1 by (vm_compute; reflexivity).
  assert (size (processed_osm_ids
            (belgium_municipalities.main germany_twice (initial ∅)).2) = 5)
    as H2 by (vm_compute; reflexivity).
  assert (total_municipalities_saved
            (test2.main germany_twice (initial ∅)).2 = 4)
    as H3 by (vm_compute; reflexivity).
  assert (size (processed_osm_ids
            (test2.main germany_twice (initial ∅)).2) = 3)
    as H4 by (vm_compute; reflexivity).
  simpl. rewrite H1, H2, H3, H4. repeat split; lia.
Qed.

(** * Examples for the old output file *)

(** Output files of an earlier run lie at the two output paths. *)
Definition stale_output : gmap string (gpkg shape) :=
  {[ belgium_municipalities.output_path :=
       {[ belgium_municipalities.layer := [south_features] ]};
     test2.output_path := {[ test2.layer := [south_features] ]} ]}.

Lemma total_counts_written_rows_witness :
  let plain :=
    (belgium_municipalities_on_disk.main None germany
       (initial stale_output)).2 in
  let strict :=
    (test2_on_disk.main (Some "Is a directory") germany (initial ∅)).2 in
  total_municipalities_saved plain
    = length (container belgium_municipalities.output_path
                belgium_municipalities.layer plain) ∧
  total_municipalities_saved strict
    = length (container test2.output_path test2.layer strict) ∧
  total_municipalities_saved plain = 5 ∧
  total_municipalities_saved strict = 3.
Proof.
  destruct (total_counts_written_rows None germany stale_output)
    as [[_ Hplain] _].
  destruct (total_counts_written_rows (Some "Is a directory") germany ∅)
    as [_ [_ Hstrict]].
  simpl. split; [|split].
  - apply Hplain; [intros i b mode; reflexivity|left; reflexivity].
  - apply Hstrict; [intros i b mode; reflexivity|right; reflexivity].
  - split; vm_compute; reflexivity.
Defined.

(** A run over the files of an earlier run leaves the output file that a
    run on an empty disk leaves; on a disk that refuses the removal the run
    ends at once. *)
Lemma run_does_not_depend_on_old_files_witness :
  fs (belgium_municipalities_on_disk.main None germany
        (initial stale_output)).2 !! belgium_municipalities.output_path
  = fs (belgium_municipalities_on_disk.main (Some "Is a directory") germany
          (initial ∅)).2 !! belgium_municipalities.output_path ∧
  fs (test2_on_disk.main None germany (initial stale_output)).2
    !! test2.output_path
  = fs (test2_on_disk.main (Some "Is a directory") germany (initial ∅)).2
      !! test2.output_path ∧
  belgium_municipalities_on_disk.main (Some "Is a directory") germany
    (initial stale_output)
  = (Raise "Is a directory", initial stale_output) ∧
  test2_on_disk.main (Some "Is a directory") germany (initial stale_output)
  = (Raise "Is a directory", initial stale_output).
Proof.
  destruct (run_does_not_depend_on_old_files None (Some "Is a directory")
              germany stale_output ∅) as (Hplain&Hstrict&_).
  destruct (run_does_not_depend_on_old_files (Some "Is a directory") None
              germany stale_output stale_output) as (_&_&Hraise).
  destruct (Hraise "Is a directory" eq_refl) as [Hraise1 Hraise2].
  split; [|split; [|split]].
  - apply Hplain; [left; reflexivity|right; reflexivity|].
    intros i b mode. reflexivity.
  - apply Hstrict; [left; reflexivity|right; reflexivity|].
    intros i b mode. reflexivity.
  - apply Hraise1. apply (bool_decide_unpack _). vm_compute. exact I.
  - apply Hraise2. apply (bool_decide_unpack _). vm_compute. exact I.
Defined.
